(** * The server's request/reply layer (src/server/issue_request.c)

    A shallow embedding of [relay_to_mom2], [reissue_to_svr], [issue_to_svr],
    [release_req], [add_mom_deferred_list], [issue_Drequest], [process_Dreply]
    and [process_DreplyTPP].

    Work tasks and batch requests live in a store indexed by address; the
    lists a task is linked on (the global event list, a mom's deferred
    command list, a job's task list) are sequences of addresses, so that a
    task reached through two lists is one object.  The external routines
    the file calls (encoders, the DIS reader, the resolver, [svr_connect],
    the allocator) are given by an environment record; what they are asked
    to do, and every callback that is run, is appended to a log.  A callback
    is recorded, with the task and the requests it can see, and its own
    effect on the server is not part of this file. *)

From Stdlib Require Import ZArith Ascii String Lia.
From stdpp Require Import base option list gmap strings.

Local Open Scope Z_scope.

(** ** Constants of the headers

    The headers that define these values are not among the sources; every
    statement below holds for any values. *)

Class pbs_consts := {
  PBSE_NORELYMOM : Z;
  PBSE_SYSTEM : Z;
  PBS_NET_RC_RETRY : Z;
  PBS_NET_RETRY_TIME : Z;
  PBS_NET_RETRY_LIMIT : Z;
  PBS_LOCAL_CONNECTION : Z;
  PROT_TPP : Z;
  BATCH_REPLY_CHOICE_NULL : Z;
  ATR_DFLAG_MGRD : Z;
  ATR_DFLAG_MGWR : Z;
  ATR_DFLAG_SvWR : Z
}.

(** ** C strings *)

Module CString.

(** A C string is modelled by the characters before its terminator. *)

Definition tolower (c : ascii) : ascii :=
  let n := nat_of_ascii c in
  if ((65 <=? n) && (n <=? 90))%nat then ascii_of_nat (n + 32) else c.

(** [strcmp a b == 0] *)
Definition strcmp_is0 (a b : string) : bool := String.eqb a b.

(** [strncasecmp a b n == 0]: at most [n] characters are compared, and the
    comparison stops at the terminator of either string. *)
Fixpoint strncasecmp_is0 (a b : string) (n : nat) : bool :=
  match n with
  | O => true
  | S n' =>
      match a, b with
      | EmptyString, EmptyString => true
      | String c1 a', String c2 b' =>
          Ascii.eqb (tolower c1) (tolower c2) && strncasecmp_is0 a' b' n'
      | _, _ => false
      end
  end.

(** [s[i] == '\0' || s[i] == '.'].  Index [strlen s] holds the terminator;
    nothing is known of the bytes after it, and the caller below never
    looks there. *)
Definition ends_or_dot_at (s : string) (i : nat) : bool :=
  match String.get i s with
  | Some c => Ascii.eqb c "."%char
  | None => Nat.eqb i (String.length s)
  end.

Fixpoint lower (s : string) : string :=
  match s with
  | EmptyString => EmptyString
  | String c s' => String (tolower c) (lower s')
  end.

End CString.

(** ** Data *)

Definition addr := nat.

Inductive work_type :=
| WORK_Immed
| WORK_Timed
| WORK_Deferred_Child
| WORK_Deferred_Reply
| WORK_Deferred_Local
| WORK_Deferred_Other
| WORK_Deferred_cmd.

(** The functions that are stored in a task or passed as a reply handler. *)
Inductive funptr :=
| fn_release_req
| fn_reissue_to_svr
| fn_other (n : nat).

(** A [void *] task parameter. *)
Inductive pointer :=
| NULL
| PFun (f : funptr)
| PData (n : nat).

(** The request kinds [issue_Drequest] switches on; [PBS_BATCH_unlisted]
    stands for any other value of [rq_type]. *)
Inductive req_kind :=
| PBS_BATCH_DeleteJob
| PBS_BATCH_HoldJob
| PBS_BATCH_MessJob
| PBS_BATCH_RelnodesJob
| PBS_BATCH_PySpawn
| PBS_BATCH_ModifyJob
| PBS_BATCH_ModifyJob_Async
| PBS_BATCH_Rerun
| PBS_BATCH_RegistDep
| PBS_BATCH_SignalJob
| PBS_BATCH_StatusJob
| PBS_BATCH_TrackJob
| PBS_BATCH_CopyFiles
| PBS_BATCH_CopyFiles_Cred
| PBS_BATCH_DelFiles
| PBS_BATCH_DelFiles_Cred
| PBS_BATCH_FailOver
| PBS_BATCH_Cred
| PBS_BATCH_unlisted (n : Z).

Record batch_reply := {
  brp_code : Z;
  brp_choice : Z;
  brp_un : nat            (* the decoded body, not interpreted here *)
}.

Record batch_request := {
  rq_type : req_kind;
  rq_conn : Z;
  rq_orgconn : Z;
  rq_time : Z;
  rq_host : string;
  rq_fromsvr : Z;
  rq_perm : Z;
  tppcmd_msgid : option string;
  rq_reply : batch_reply
}.

(** Where [wt_parm3] points: at the reply inside a request, or at the
    reply holder allocated for a task that has no request. *)
Inductive reply_ref :=
| RqReply (a : addr)
| TmpReply (r : batch_reply).

Record work_task := {
  wt_type : work_type;
  wt_event : Z;
  wt_event2 : option string;     (* char *: the message id, or NULL *)
  wt_func : funptr;
  wt_parm1 : option addr;        (* a batch_request when the type is
                                    WORK_Deferred_Reply; NULL is None *)
  wt_parm2 : pointer;
  wt_parm3 : option reply_ref;
  wt_aux : Z;
  wt_aux2 : Z
}.

Inductive buffer :=
| BufRecvMsgid (k : string)             (* the id read by disrst *)
| BufSentMsgid (k : string)             (* the id an encoder reserved *)
| BufTaskMsgid (p : addr) (k : string)  (* wt_event2 of task p *)
| BufReply (r : batch_reply)            (* a reply holder from malloc *)
| BufRequest (a : addr).

Inductive event :=
| EvCall (f : funptr) (p : addr) (t : work_task)
         (rq : gmap addr batch_request)
| EvFree (b : buffer)
| EvCloseConn (sock : Z)
| EvSvrDisconnect (conn : Z)
| EvLog (msg : string)
| EvTppAddCloseFunc (sock : Z)
| EvDispatchRequest (conn : Z) (req : addr)
| EvReplyRead (handle : Z) (rc : Z)
| EvGetHostaddr (name : option string)
| EvSvrConnect (a : Z) (port : Z)
| EvTcpTimeoutLong (long : bool)
| EvDisFuncs (tpp : bool).

Record server := Server {
  tasks : gmap addr work_task;
  requests : gmap addr batch_request;
  task_list_event : list addr;
  msr_deferred_cmds : gmap nat (list addr);   (* by mom *)
  ji_svrtask : gmap nat (list addr);          (* by job *)
  pbs_errno : Z;
  log : list event
}.

(** Globals the file only reads. *)
Record globals := {
  time_now : Z;
  pbs_server_port_dis : Z;
  pbs_failover_active : Z;
  primary_host : string;
  server_host : string;
  streams : gmap Z nat;                (* tfind2 (handle, 0, &streams) *)
  ipaddrs : gmap (Z * Z) nat           (* tfind2 (addr, port, &ipaddrs) *)
}.

Global Instance work_type_eq_dec : EqDecision work_type.
Proof. solve_decision. Defined.
Global Instance funptr_eq_dec : EqDecision funptr.
Proof. solve_decision. Defined.
Global Instance pointer_eq_dec : EqDecision pointer.
Proof. solve_decision. Defined.
Global Instance req_kind_eq_dec : EqDecision req_kind.
Proof. solve_decision. Defined.

(** ** Outcomes *)

Inductive outcome (A : Type) : Type :=
| Ok (a : A)
| Undefined          (* C gives the step no meaning: a null or dangling
                        pointer is used *)
| OutOfFuel.

Arguments Ok {A} a.
Arguments Undefined {A}.
Arguments OutOfFuel {A}.

Global Instance outcome_ret : MRet outcome := @Ok.
Global Instance outcome_bind : MBind outcome :=
  fun A B f m =>
    match m with
    | Ok a => f a
    | Undefined => Undefined
    | OutOfFuel => OutOfFuel
    end.

Definition deref {A} (o : option A) : outcome A :=
  match o with
  | Some a => Ok a
  | None => Undefined
  end.

(** ** Field updates *)

Definition with_tasks (f : gmap addr work_task -> gmap addr work_task)
    (s : server) : server :=
  Server (f (tasks s)) (requests s) (task_list_event s)
         (msr_deferred_cmds s) (ji_svrtask s) (pbs_errno s) (log s).

Definition with_requests
    (f : gmap addr batch_request -> gmap addr batch_request)
    (s : server) : server :=
  Server (tasks s) (f (requests s)) (task_list_event s)
         (msr_deferred_cmds s) (ji_svrtask s) (pbs_errno s) (log s).

Definition with_event_list (f : list addr -> list addr) (s : server)
    : server :=
  Server (tasks s) (requests s) (f (task_list_event s))
         (msr_deferred_cmds s) (ji_svrtask s) (pbs_errno s) (log s).

Definition with_deferred
    (f : gmap nat (list addr) -> gmap nat (list addr)) (s : server)
    : server :=
  Server (tasks s) (requests s) (task_list_event s)
         (f (msr_deferred_cmds s)) (ji_svrtask s) (pbs_errno s) (log s).

Definition with_svrtask
    (f : gmap nat (list addr) -> gmap nat (list addr)) (s : server)
    : server :=
  Server (tasks s) (requests s) (task_list_event s)
         (msr_deferred_cmds s) (f (ji_svrtask s)) (pbs_errno s) (log s).

Definition set_errno (e : Z) (s : server) : server :=
  Server (tasks s) (requests s) (task_list_event s)
         (msr_deferred_cmds s) (ji_svrtask s) e (log s).

(** [pbs_errno] as an external routine leaves it: set, or untouched. *)
Definition set_errno_opt (e : option Z) (s : server) : server :=
  match e with
  | Some e => set_errno e s
  | None => s
  end.

Definition emit (e : event) (s : server) : server :=
  Server (tasks s) (requests s) (task_list_event s)
         (msr_deferred_cmds s) (ji_svrtask s) (pbs_errno s) (log s ++ [e]).

Definition set_wt_event (v : Z) (t : work_task) : work_task :=
  {| wt_type := wt_type t; wt_event := v; wt_event2 := wt_event2 t;
     wt_func := wt_func t; wt_parm1 := wt_parm1 t; wt_parm2 := wt_parm2 t;
     wt_parm3 := wt_parm3 t; wt_aux := wt_aux t; wt_aux2 := wt_aux2 t |}.

Definition set_wt_event2 (v : option string) (t : work_task) : work_task :=
  {| wt_type := wt_type t; wt_event := wt_event t; wt_event2 := v;
     wt_func := wt_func t; wt_parm1 := wt_parm1 t; wt_parm2 := wt_parm2 t;
     wt_parm3 := wt_parm3 t; wt_aux := wt_aux t; wt_aux2 := wt_aux2 t |}.

Definition set_wt_parm2 (v : pointer) (t : work_task) : work_task :=
  {| wt_type := wt_type t; wt_event := wt_event t; wt_event2 := wt_event2 t;
     wt_func := wt_func t; wt_parm1 := wt_parm1 t; wt_parm2 := v;
     wt_parm3 := wt_parm3 t; wt_aux := wt_aux t; wt_aux2 := wt_aux2 t |}.

Definition set_wt_parm3 (v : option reply_ref) (t : work_task) : work_task :=
  {| wt_type := wt_type t; wt_event := wt_event t; wt_event2 := wt_event2 t;
     wt_func := wt_func t; wt_parm1 := wt_parm1 t; wt_parm2 := wt_parm2 t;
     wt_parm3 := v; wt_aux := wt_aux t; wt_aux2 := wt_aux2 t |}.

Definition set_wt_aux (v : Z) (t : work_task) : work_task :=
  {| wt_type := wt_type t; wt_event := wt_event t; wt_event2 := wt_event2 t;
     wt_func := wt_func t; wt_parm1 := wt_parm1 t; wt_parm2 := wt_parm2 t;
     wt_parm3 := wt_parm3 t; wt_aux := v; wt_aux2 := wt_aux2 t |}.

Definition set_wt_aux2 (v : Z) (t : work_task) : work_task :=
  {| wt_type := wt_type t; wt_event := wt_event t; wt_event2 := wt_event2 t;
     wt_func := wt_func t; wt_parm1 := wt_parm1 t; wt_parm2 := wt_parm2 t;
     wt_parm3 := wt_parm3 t; wt_aux := wt_aux t; wt_aux2 := v |}.

Definition set_rq_reply (v : batch_reply) (r : batch_request)
    : batch_request :=
  {| rq_type := rq_type r; rq_conn := rq_conn r; rq_orgconn := rq_orgconn r;
     rq_time := rq_time r; rq_host := rq_host r; rq_fromsvr := rq_fromsvr r;
     rq_perm := rq_perm r; tppcmd_msgid := tppcmd_msgid r; rq_reply := v |}.

Definition set_rq_conn (v : Z) (r : batch_request) : batch_request :=
  {| rq_type := rq_type r; rq_conn := v; rq_orgconn := rq_orgconn r;
     rq_time := rq_time r; rq_host := rq_host r; rq_fromsvr := rq_fromsvr r;
     rq_perm := rq_perm r; tppcmd_msgid := tppcmd_msgid r;
     rq_reply := rq_reply r |}.

Definition set_rq_orgconn (v : Z) (r : batch_request) : batch_request :=
  {| rq_type := rq_type r; rq_conn := rq_conn r; rq_orgconn := v;
     rq_time := rq_time r; rq_host := rq_host r; rq_fromsvr := rq_fromsvr r;
     rq_perm := rq_perm r; tppcmd_msgid := tppcmd_msgid r;
     rq_reply := rq_reply r |}.

Definition set_tppcmd_msgid (v : option string) (r : batch_request)
    : batch_request :=
  {| rq_type := rq_type r; rq_conn := rq_conn r; rq_orgconn := rq_orgconn r;
     rq_time := rq_time r; rq_host := rq_host r; rq_fromsvr := rq_fromsvr r;
     rq_perm := rq_perm r; tppcmd_msgid := v; rq_reply := rq_reply r |}.

(** The three stores of [issue_to_svr]'s first lines. *)
Definition set_rq_origin (host : string) (fromsvr perm : Z)
    (r : batch_request) : batch_request :=
  {| rq_type := rq_type r; rq_conn := rq_conn r; rq_orgconn := rq_orgconn r;
     rq_time := rq_time r; rq_host := host; rq_fromsvr := fromsvr;
     rq_perm := perm; tppcmd_msgid := tppcmd_msgid r;
     rq_reply := rq_reply r |}.

(** [reply->brp_code = rc; reply->brp_choice = choice] *)
Definition fail_reply (rc choice : Z) (r : batch_reply) : batch_reply :=
  {| brp_code := rc; brp_choice := choice; brp_un := brp_un r |}.

(** ** The task registry (work_task.c, not among the sources) *)

Definition unlink (p : addr) (l : list addr) : list addr :=
  filter (fun q => q <> p) l.

(** [delete_link (&ptask->wt_linkevent)] *)
Definition delete_link_event (p : addr) (s : server) : server :=
  with_event_list (unlink p) s.

(** [delete_link (&ptask->wt_linkobj)] *)
Definition delete_link_obj (p : addr) (s : server) : server :=
  with_svrtask (fmap (unlink p)) s.

(** [delete_link (&ptask->wt_linkobj2)] *)
Definition delete_link_obj2 (p : addr) (s : server) : server :=
  with_deferred (fmap (unlink p)) s.

Definition unlink_all (p : addr) (s : server) : server :=
  delete_link_obj2 p (delete_link_obj p (delete_link_event p s)).

Definition list_of (d : gmap nat (list addr)) (i : nat) : list addr :=
  default [] (d !! i).

(** [append_link (&mom->msr_deferred_cmds, &ptask->wt_linkobj2, ptask)] *)
Definition append_link_obj2 (m : nat) (p : addr) (s : server) : server :=
  with_deferred (fun d => <[m := list_of d m ++ [p]]> d) s.

(** [append_link (&pjob->ji_svrtask, &ptask->wt_linkobj, ptask)] *)
Definition append_link_obj (j : nat) (p : addr) (s : server) : server :=
  with_svrtask (fun d => <[j := list_of d j ++ [p]]> d) s.

Definition new_task (wt : work_type) (ev : Z) (func : funptr)
    (parm : option addr) : work_task :=
  {| wt_type := wt; wt_event := ev; wt_event2 := None; wt_func := func;
     wt_parm1 := parm; wt_parm2 := NULL; wt_parm3 := None;
     wt_aux := 0; wt_aux2 := 0 |}.

(** Modelled from the spec: [set_task] of work_task.c, the registry's
    "create ... allocates ... inserts into the global list".  The task is
    put on the global list whatever its transport: [set_task] is not told
    the transport, and the two callers below take a stream-keyed task off
    that list themselves.  The new task gets an address that is not in use.
    The run in which the allocation fails and NULL is returned is chosen by
    the caller's environment ([set_task_ok]). *)
Definition set_task (wt : work_type) (ev : Z) (func : funptr)
    (parm : option addr) (s : server) : addr * server :=
  let p := fresh (dom (tasks s)) in
  (p, with_event_list (fun l => l ++ [p])
        (with_tasks <[p := new_task wt ev func parm]> s)).

(** [ptask->field = v] *)
Definition update_task (p : addr) (f : work_task -> work_task) (s : server)
    : outcome server :=
  t ← deref (tasks s !! p);
  Ok (with_tasks <[p := f t]> s).

(** [request->field = v] *)
Definition update_request (a : addr) (f : batch_request -> batch_request)
    (s : server) : outcome server :=
  r ← deref (requests s !! a);
  Ok (with_requests <[a := f r]> s).

(** Modelled from the spec: [delete_task] of work_task.c, "discard the
    task": it is taken off every list that holds it and its storage is
    released.  Called on storage that is already released it has no
    defined behaviour. *)
Definition delete_task (p : addr) (s : server) : outcome server :=
  _ ← deref (tasks s !! p);
  Ok (with_tasks (delete p) (unlink_all p s)).

(** Modelled from the spec: [dispatch_task] of work_task.c, the registry's
    "complete": "removes from whichever list currently holds it, invokes
    callback exactly once, then the task is eligible for disposal"; the
    registry disposes of it. *)
Definition dispatch_task (p : addr) (s : server) : outcome server :=
  t ← deref (tasks s !! p);
  let s := unlink_all p s in
  let s := emit (EvCall (wt_func t) p t (requests s)) s in
  Ok (with_tasks (delete p) s).

(** ** The environment *)

Record extern := {
  (* allocation *)
  set_task_ok : bool;               (* set_task returns a task *)
  malloc_ok : bool;                 (* malloc of a batch_reply succeeds *)
  (* encoders: return code, and the message id left in [*msgid] *)
  PBSD_put : req_kind -> Z * option string;
  is_compose_cmd : Z * option string;
  encode_DIS_ReqHdr : Z;
  encode_DIS_body : req_kind -> Z;
  encode_DIS_ReqExtend : Z;
  dis_flush : Z;
  put_failover : Z;
  encoders_errno : option Z;        (* pbs_errno, when an encoder sets it *)
  (* readers *)
  disrst : option string * Z;
  DIS_reply_read : batch_reply -> Z * batch_reply;
                                    (* return code, and the reply structure
                                       as the reader leaves it *)
  (* names and connections *)
  parse_servername : string -> option string * option Z;
  get_hostaddr : option string -> Z * option Z;  (* address, and pbs_errno
                                                    when it sets it *)
  svr_connect : Z -> Z -> Z
}.

(** ** The functions of issue_request.c *)

Section IssueRequest.

Context {K : pbs_consts}.
Variable G : globals.
Variable E : extern.

(** What [issue_Drequest] leaves in [*ppwt]: [None] when it stores
    nothing, [Some None] for a null pointer. *)
Definition ppwt_value := option (option addr).

Definition store_ppwt (ppwt : bool) (v : option addr) : ppwt_value :=
  if ppwt then Some v else None.

(** The cases of the switch that encode in place: an optional
    [is_compose_cmd], header, body, extension, flush; the first nonzero
    code ends the sequence. *)
Definition encode_inline (tpp : bool) (k : req_kind) : Z * option string :=
  let '(rc, msgid) := if tpp then is_compose_cmd E else (0, None) in
  if negb (rc =? 0) then (rc, msgid) else
  if negb (encode_DIS_ReqHdr E =? 0) then (encode_DIS_ReqHdr E, msgid) else
  if negb (encode_DIS_body E k =? 0) then (encode_DIS_body E k, msgid) else
  if negb (encode_DIS_ReqExtend E =? 0)
  then (encode_DIS_ReqExtend E, msgid)
  else (dis_flush E, msgid).

(** The switch on [request->rq_type]: [rc] and [msgid] after it, or
    [None] in the default case. *)
Definition encode_request (prot : Z) (k : req_kind)
    : option (Z * option string) :=
  match k with
  | PBS_BATCH_DeleteJob | PBS_BATCH_HoldJob | PBS_BATCH_MessJob
  | PBS_BATCH_RelnodesJob | PBS_BATCH_PySpawn | PBS_BATCH_ModifyJob
  | PBS_BATCH_ModifyJob_Async | PBS_BATCH_SignalJob
  | PBS_BATCH_StatusJob | PBS_BATCH_Cred =>
      Some (PBSD_put E k)
  | PBS_BATCH_Rerun | PBS_BATCH_RegistDep | PBS_BATCH_TrackJob
  | PBS_BATCH_CopyFiles | PBS_BATCH_CopyFiles_Cred
  | PBS_BATCH_DelFiles | PBS_BATCH_DelFiles_Cred =>
      Some (encode_inline (bool_decide (prot = PROT_TPP)) k)
  | PBS_BATCH_FailOver => Some (put_failover E, None)
  | PBS_BATCH_unlisted _ => None
  end.

Definition encoders_set_errno (s : server) : server :=
  set_errno_opt (encoders_errno E) s.

Definition free_sent_msgid (msgid : option string) (s : server) : server :=
  match msgid with
  | Some k => emit (EvFree (BufSentMsgid k)) s
  | None => s
  end.

(** [issue_Drequest (conn, request, func, ppwt, prot)]; [ppwt] tells
    whether the pointer is non-null.  The attribute lists of a request
    are not modelled, so [attrl_fixlink] has nothing to do here. *)
Definition issue_Drequest (conn : Z) (request : addr) (func : funptr)
    (ppwt : bool) (prot : Z) (s : server)
    : outcome (Z * ppwt_value * server) :=
  s ← update_request request (set_tppcmd_msgid None) s;
  let local := bool_decide (conn = PBS_LOCAL_CONNECTION) in
  let tpp := bool_decide (prot = PROT_TPP) in
  let wt := if local then WORK_Deferred_Local else WORK_Deferred_Reply in
  s ← update_request request (set_rq_conn conn) s;
  let s := if local || tpp then s else emit (EvDisFuncs false) s in
  if negb (set_task_ok E) then
    Ok (-1, store_ppwt ppwt None, emit (EvLog "could not set_task") s)
  else
    let '(ptask, s) := set_task wt conn func (Some request) s in
    if local then
      Ok (0, store_ppwt ppwt (Some ptask),
          emit (EvDispatchRequest PBS_LOCAL_CONNECTION request) s)
    else
      r ← deref (requests s !! request);
      '(rc, msgid, s) ←
        match encode_request prot (rq_type r) with
        | Some (rc, msgid) => Ok (rc, msgid, encoders_set_errno s)
        | None =>
            s ← delete_task ptask (emit (EvLog "msg_issuebad") s);
            Ok (-1, None, s)
        end;
      if negb (rc =? 0) then
        let s := emit (EvLog "issue_Drequest failed") s in
        let s := free_sent_msgid msgid s in
        s ← delete_task ptask s;
        Ok (rc, None, s)
      else if ppwt then
        s ← (if tpp then
               let s := emit (EvTppAddCloseFunc conn) s in
               s ← update_task ptask (set_wt_event2 msgid) s;
               Ok (delete_link_event ptask s)
             else Ok s);
        s ← update_task ptask (set_wt_aux2 prot) s;
        Ok (rc, Some (Some ptask), s)
      else Ok (rc, None, s).

(** [add_mom_deferred_list (stream, minfo, func, msgid, parm1, parm2)];
    [minfo] is the index of the mom. *)
Definition add_mom_deferred_list (stream : Z) (minfo : nat) (func : funptr)
    (msgid : option string) (parm1 : option addr) (parm2 : pointer)
    (s : server) : outcome (option addr * server) :=
  if negb (set_task_ok E) then
    Ok (None, emit (EvLog "could not set_task") s)
  else
    let '(ptask, s) := set_task WORK_Deferred_cmd stream func parm1 s in
    s ← update_task ptask (set_wt_aux2 PROT_TPP) s;
    s ← update_task ptask (set_wt_parm2 parm2) s;
    s ← update_task ptask (set_wt_event2 msgid) s;
    let s := delete_link_event ptask s in
    Ok (Some ptask, append_link_obj2 minfo ptask s).

(** [release_req (pwt)] *)
Definition release_req (pwt : addr) (s : server) : outcome server :=
  t ← deref (tasks s !! pwt);
  let s := match wt_parm1 t with
           | Some a => emit (EvFree (BufRequest a))
                            (with_requests (delete a) s)
           | None => s
           end in
  if negb (wt_event t =? -1) && negb (wt_aux2 t =? PROT_TPP)
  then Ok (emit (EvSvrDisconnect (wt_event t)) s)
  else Ok s.

(** The redirection in [issue_to_svr]: the name handed to
    [get_hostaddr]. *)
Definition failover_redirect (svrname : option string) : option string :=
  match svrname with
  | Some name =>
      if negb (pbs_failover_active G =? 0) then
        let len := String.length name in
        if CString.strncasecmp_is0 name (primary_host G) len
           && CString.ends_or_dot_at (primary_host G) len
        then Some (server_host G)
        else Some name
      else Some name
  | None => None
  end.

(** [issue_to_svr (servern, preq, replyfunc)] *)
Definition issue_to_svr (servern : string) (preq : addr)
    (replyfunc : funptr) (s : server) : outcome (Z * server) :=
  s ← update_request preq
        (set_rq_origin servern 1
           (Z.lor (Z.lor ATR_DFLAG_MGRD ATR_DFLAG_MGWR) ATR_DFLAG_SvWR)) s;
  let '(svrname, newport) := parse_servername E servern in
  let port := default (pbs_server_port_dis G) newport in
  let svrname := failover_redirect svrname in
  let s := emit (EvGetHostaddr svrname) s in
  let '(svraddr, err) := get_hostaddr E svrname in
  let s := set_errno_opt err s in
  let retry_or_fail (do_retry : bool) (s : server) : outcome (Z * server) :=
    if do_retry then
      if negb (set_task_ok E) then Undefined  (* pwt is used unchecked *)
      else
        let '(pwt, s) :=
          set_task WORK_Timed (time_now G + 2 * PBS_NET_RETRY_TIME)
                   fn_reissue_to_svr (Some preq) s in
        s ← update_task pwt (set_wt_parm2 (PFun replyfunc)) s;
        Ok (0, s)
    else Ok (-1, s) in
  if svraddr =? 0 then
    retry_or_fail (pbs_errno s =? PBS_NET_RC_RETRY) s
  else
    let handle := svr_connect E svraddr port in
    let s := emit (EvSvrConnect svraddr port) s in
    if 0 <=? handle then
      '(rc, _, s) ← issue_Drequest handle preq replyfunc false 0 s;
      Ok (rc, s)
    else retry_or_fail (handle =? PBS_NET_RC_RETRY) s.

Definition as_function (v : pointer) : outcome funptr :=
  match v with
  | PFun f => Ok f
  | _ => Undefined
  end.

(** [reissue_to_svr (pwt)] *)
Definition reissue_to_svr (pwt : addr) (s : server) : outcome server :=
  t ← deref (tasks s !! pwt);
  a ← deref (wt_parm1 t);
  preq ← deref (requests s !! a);
  '(failed, s) ←
    (if PBS_NET_RETRY_LIMIT <? time_now G - rq_time preq then Ok (true, s)
     else
       replyfunc ← as_function (wt_parm2 t);
       '(rc, s) ← issue_to_svr (rq_host preq) a replyfunc s;
       Ok (rc =? -1, s));
  if (failed : bool) then
    s ← update_task pwt (set_wt_aux (-1)) s;
    s ← update_task pwt (set_wt_event (-1)) s;
    t ← deref (tasks s !! pwt);
    f ← as_function (wt_parm2 t);
    Ok (emit (EvCall f pwt t (requests s)) s)
  else Ok s.

(** [relay_to_mom2 (pjob, request, func, ppwt)]; the job is given by its
    index and by the address and port of its mom.  The result carries
    the value left in [*ppwt]: the local [pwt], which is itself without
    a value ([None]) when [issue_Drequest] stored nothing in it. *)
Definition relay_to_mom2 (pjob : nat) (momaddr momport : Z)
    (request : addr) (func : funptr) (ppwt : bool) (s : server)
    : outcome (Z * option ppwt_value * server) :=
  let prot := PROT_TPP in
  match ipaddrs G !! (momaddr, momport) with
  | None => Ok (PBSE_NORELYMOM, None, s)
  | Some pmom =>
      let conn := svr_connect E momaddr momport in
      let s := emit (EvSvrConnect momaddr momport) s in
      if conn <? 0 then
        Ok (PBSE_NORELYMOM, None, emit (EvLog "msg_norelytomom") s)
      else
        r ← deref (requests s !! request);
        s ← update_request request (set_rq_orgconn (rq_conn r)) s;
        let s := set_errno 0 s in
        '(rc, pwt, s) ← issue_Drequest conn request func true prot s;
        s ← (if (rc =? 0) && negb (bool_decide (func = fn_release_req))
             then
               match pwt with
               | Some (Some p) =>
                   Ok (append_link_obj2 pmom p (append_link_obj pjob p s))
               | _ => Undefined
               end
             else Ok s);
        let out := if ppwt then Some pwt else None in
        if negb (rc =? 0) && (pbs_errno s =? 0)
        then Ok (PBSE_SYSTEM, out, s)
        else Ok (rc, out, s)
  end.

(** [relay_to_mom (pjob, request, func)] *)
Definition relay_to_mom (pjob : nat) (momaddr momport : Z)
    (request : addr) (func : funptr) (s : server)
    : outcome (Z * option ppwt_value * server) :=
  relay_to_mom2 pjob momaddr momport request func false s.

(** The scan of a task list: the first task [P] accepts. *)
Fixpoint first_task (P : work_task -> outcome bool)
    (ts : gmap addr work_task) (l : list addr) : outcome (option addr) :=
  match l with
  | [] => Ok None
  | p :: l' =>
      t ← deref (ts !! p);
      b ← P t;
      if (b : bool) then Ok (Some p) else first_task P ts l'
  end.

(** Modelled from the spec: [close_conn] of net_server.c; "the data is
    drained and the connection closed". *)
Definition close_conn (sock : Z) (s : server) : server :=
  emit (EvCloseConn sock) s.

(** [process_Dreply (sock)] *)
Definition process_Dreply (sock : Z) (s : server) : outcome server :=
  found ← first_task
            (fun t => Ok (bool_decide (wt_type t = WORK_Deferred_Reply)
                          && (wt_event t =? sock)))
            (tasks s) (task_list_event s);
  match found with
  | None => Ok (close_conn sock s)
  | Some ptask =>
      t ← deref (tasks s !! ptask);
      request ← deref (wt_parm1 t);
      r ← deref (requests s !! request);
      let s := emit (EvTcpTimeoutLong true) s in
      let '(rc, reply) := DIS_reply_read E (rq_reply r) in
      let s := emit (EvReplyRead sock rc) s in
      let s :=
        if negb (rc =? 0) then
          with_requests
            <[request := set_rq_reply
                           (fail_reply rc BATCH_REPLY_CHOICE_NULL reply) r]>
            (close_conn sock s)
        else with_requests <[request := set_rq_reply reply r]> s in
      let s := emit (EvTcpTimeoutLong false) s in
      dispatch_task ptask s
  end.

(** [request = (ptask->wt_type == WORK_Deferred_Reply) ? ptask->wt_parm1
    : NULL]: the batch request a task carries. *)
Definition request_of (t : work_task) : option addr :=
  if bool_decide (wt_type t = WORK_Deferred_Reply) then wt_parm1 t
  else None.

(** [free (ptask->wt_event2)] *)
Definition free_task_msgid (p : addr) (t : work_task) (s : server)
    : server :=
  match wt_event2 t with
  | Some k => emit (EvFree (BufTaskMsgid p k)) s
  | None => s
  end.

(** The body of the first loop of [process_DreplyTPP], for the task
    [ptask] at the head of the list and the read error [rc]. *)
Definition cull_task (rc : Z) (ptask : addr) (s : server)
    : outcome server :=
  t ← deref (tasks s !! ptask);
  s ← match request_of t with
      | Some request =>
          update_request request
            (fun r => set_rq_reply
                        (fail_reply rc BATCH_REPLY_CHOICE_NULL
                                    (rq_reply r)) r) s
      | None => Ok s
      end;
  s ← update_task ptask (set_wt_aux PBSE_NORELYMOM) s;
  let s := set_errno PBSE_NORELYMOM s in
  let s := free_task_msgid ptask t s in
  dispatch_task ptask s.

(** The first loop of [process_DreplyTPP]: while the deferred list of
    mom [m] has a head, cull it. *)
Fixpoint cull_pending (fuel : nat) (rc : Z) (m : nat) (s : server)
    : outcome server :=
  match list_of (msr_deferred_cmds s) m with
  | [] => Ok s
  | ptask :: _ =>
      match fuel with
      | O => OutOfFuel
      | S fuel' =>
          s ← cull_task rc ptask s;
          cull_pending fuel' rc m s
      end
  end.

(** [memset (reply, 0, sizeof (struct batch_reply))] *)
Definition zero_reply : batch_reply :=
  {| brp_code := 0; brp_choice := 0; brp_un := 0 |}.

(** The body of the second loop of [process_DreplyTPP] for the task whose
    id matched.  The boolean tells whether the [break] was reached; it is
    not when the reply holder cannot be allocated and the function
    returns at once. *)
Definition deliver_reply (handle : Z) (ptask : addr) (s : server)
    : outcome (bool * server) :=
  t ← deref (tasks s !! ptask);
  match request_of t with
  | None =>
      if negb (malloc_ok E) then
        s ← delete_task ptask s;
        let s := free_task_msgid ptask t s in
        Ok (false, emit (EvLog "Out of memory creating batch reply") s)
      else
        let '(rc, reply) := DIS_reply_read E zero_reply in
        let s := emit (EvReplyRead handle rc) s in
        let reply :=
          if negb (rc =? 0)
          then fail_reply rc BATCH_REPLY_CHOICE_NULL reply else reply in
        let aux := if negb (rc =? 0) then PBSE_NORELYMOM
                   else brp_code reply in
        s ← update_task ptask (set_wt_aux aux) s;
        let s := set_errno aux s in
        s ← update_task ptask (set_wt_parm3 (Some (TmpReply reply))) s;
        s ← dispatch_task ptask s;
        let s := emit (EvFree (BufReply reply)) s in
        Ok (true, free_task_msgid ptask t s)
  | Some a =>
      r ← deref (requests s !! a);
      let '(rc, reply) := DIS_reply_read E (rq_reply r) in
      let s := emit (EvReplyRead handle rc) s in
      let reply :=
        if negb (rc =? 0)
        then fail_reply rc BATCH_REPLY_CHOICE_NULL reply else reply in
      let aux := if negb (rc =? 0) then PBSE_NORELYMOM
                 else brp_code reply in
      let s := with_requests <[a := set_rq_reply reply r]> s in
      s ← update_task ptask (set_wt_aux aux) s;
      let s := set_errno aux s in
      s ← update_task ptask (set_wt_parm3 (Some (RqReply a))) s;
      s ← dispatch_task ptask s;
      Ok (true, free_task_msgid ptask t s)
  end.

(** [strcmp (ptask->wt_event2, msgid) == 0] *)
Definition msgid_matches (msgid : string) (t : work_task) : outcome bool :=
  cmd_msgid ← deref (wt_event2 t);
  Ok (CString.strcmp_is0 cmd_msgid msgid).

(** [process_DreplyTPP (handle)]; [fuel] bounds the iterations of the
    culling loop. *)
Definition process_DreplyTPP (fuel : nat) (handle : Z) (s : server)
    : outcome server :=
  match streams G !! handle with
  | None => Ok s
  | Some pmom =>
      let s := emit (EvDisFuncs true) s in
      match disrst E with
      | (Some msgid, 0) =>
          found ← first_task (msgid_matches msgid) (tasks s)
                    (list_of (msr_deferred_cmds s) pmom);
          match found with
          | None => Ok (emit (EvFree (BufRecvMsgid msgid)) s)
          | Some ptask =>
              '(reached_break, s) ← deliver_reply handle ptask s;
              if (reached_break : bool)
              then Ok (emit (EvFree (BufRecvMsgid msgid)) s)
              else Ok s
          end
      | (_, rc) => cull_pending fuel rc pmom s
      end
  end.

End IssueRequest.

(** * Vocabulary of the statements *)

(** The tasks whose callback was run, in order. *)
Definition calls (l : list event) : list addr :=
  omap (fun e => match e with EvCall _ p _ _ => Some p | _ => None end) l.

(** The return codes of [DIS_reply_read], in order. *)
Definition reads (l : list event) : list Z :=
  omap (fun e => match e with EvReplyRead _ rc => Some rc | _ => None end) l.

(** The reply a callback finds through [wt_parm3]. *)
Definition parm3_reply (t : work_task) (rq : gmap addr batch_request)
    : option batch_reply :=
  match wt_parm3 t with
  | Some (TmpReply r) => Some r
  | Some (RqReply a) => rq_reply <$> rq !! a
  | None => None
  end.

(** The reply a callback finds in the request of its task. *)
Definition request_reply (t : work_task) (rq : gmap addr batch_request)
    : option batch_reply :=
  a ← wt_parm1 t; rq_reply <$> rq !! a.

(** A task of the event list that waits for the reply on [sock]. *)
Definition awaits_socket (sock : Z) (t : work_task) : Prop :=
  wt_type t = WORK_Deferred_Reply /\ wt_event t = sock.

(** A task that stores the identifier [k]; one that stores another. *)
Definition stores_id (k : string) (t : work_task) : Prop :=
  wt_event2 t = Some k.

Definition stores_other_id (k : string) (t : work_task) : Prop :=
  exists k', wt_event2 t = Some k' /\ k' <> k.

(** Every address of [l] is a task of [ts] with property [Q]. *)
Definition all_tasks (ts : gmap addr work_task) (Q : work_task -> Prop)
    (l : list addr) : Prop :=
  Forall (fun q => exists tq, ts !! q = Some tq /\ Q tq) l.

(** A task the scan of [first_task] passes over. *)
Definition rejected (P : work_task -> outcome bool)
    (ts : gmap addr work_task) (q : addr) : Prop :=
  exists tq, ts !! q = Some tq /\ P tq = Ok false.

(** What [deliver_reply] does to a task [t] found at [p]: either no reply
    holder could be had and no function is called, or the reply is read
    once and the task's function is called once, on the task [t'] and the
    requests [rq]. *)
Definition delivered {K : pbs_consts} (E : extern) (p : addr)
    (t : work_task) (evs : list event) : Prop :=
  (request_of t = None /\ malloc_ok E = false /\
   calls evs = [] /\ reads evs = [])
  \/
  (exists rc t' rq reply,
      (is_Some (request_of t) \/ malloc_ok E = true) /\
      calls evs = [p] /\ reads evs = [rc] /\
      EvCall (wt_func t) p t' rq ∈ evs /\
      parm3_reply t' rq = Some reply /\
      (rc <> 0 ->
       brp_code reply = rc /\ brp_choice reply = BATCH_REPLY_CHOICE_NULL /\
       wt_aux t' = PBSE_NORELYMOM) /\
      (rc = 0 -> wt_aux t' = brp_code reply)).

(** What the culling loop of [process_DreplyTPP] may leave in the log for
    read error [rc]: a call is the call of a task [t] of [ts] with its
    own function, [wt_aux] set to PBSE_NORELYMOM, and, when [t] carries a
    request, that request's reply set to code [rc] and the null choice. *)
Definition culled {K : pbs_consts} (ts : gmap addr work_task) (rc : Z)
    (e : event) : Prop :=
  match e with
  | EvCall f p t' rq =>
      exists t,
        ts !! p = Some t /\ f = wt_func t /\
        t' = set_wt_aux PBSE_NORELYMOM t /\
        forall a, request_of t = Some a ->
          exists r, rq !! a = Some r /\
            brp_code (rq_reply r) = rc /\
            brp_choice (rq_reply r) = BATCH_REPLY_CHOICE_NULL
  | _ => True
  end.

(** The tasks of [l] are allocated, and so are the requests they carry. *)
Definition tasks_allocated (s : server) (l : list addr) : Prop :=
  forall p, p ∈ l ->
    exists t, tasks s !! p = Some t /\
      forall a, request_of t = Some a -> is_Some (requests s !! a).

(** What [issue_to_svr] meets on its way to a connection. *)
Section Resolution.

Context {K : pbs_consts}.
Variable G : globals.
Variable E : extern.

(** The name handed to [get_hostaddr] for the destination [servern]. *)
Definition resolved_name (servern : string) : option string :=
  failover_redirect G (parse_servername E servern).1.

(** The address [get_hostaddr] returns, and [pbs_errno] after it. *)
Definition resolved_addr (servern : string) : Z :=
  (get_hostaddr E (resolved_name servern)).1.

Definition errno_after_resolve (servern : string) (s : server) : Z :=
  default (pbs_errno s) (get_hostaddr E (resolved_name servern)).2.

(** The handle [svr_connect] returns for that address. *)
Definition connect_handle (servern : string) : Z :=
  svr_connect E (resolved_addr servern)
    (default (pbs_server_port_dis G) (parse_servername E servern).2).

(** The resolution or the connection fails with PBS_NET_RC_RETRY. *)
Definition fails_transiently (servern : string) (s : server) : Prop :=
  (resolved_addr servern = 0 /\
   errno_after_resolve servern s = PBS_NET_RC_RETRY)
  \/
  (resolved_addr servern <> 0 /\ connect_handle servern < 0 /\
   connect_handle servern = PBS_NET_RC_RETRY).

(** The resolution or the connection fails with anything else. *)
Definition fails_permanently (servern : string) (s : server) : Prop :=
  (resolved_addr servern = 0 /\
   errno_after_resolve servern s <> PBS_NET_RC_RETRY)
  \/
  (resolved_addr servern <> 0 /\ connect_handle servern < 0 /\
   connect_handle servern <> PBS_NET_RC_RETRY).

End Resolution.

(** [name] is, letter case apart, a leading portion of [primary], and what
    follows it in [primary] is the end of the string or a dot. *)
Definition names_primary (name primary : string) : Prop :=
  exists pre rest,
    primary = pre +:+ rest /\
    String.length pre = String.length name /\
    CString.lower pre = CString.lower name /\
    (rest = "" \/ exists rest', rest = String "."%char rest').

(** The task as [reissue_to_svr] hands it to the callback on failure. *)
Definition failed_task (t : work_task) : work_task :=
  set_wt_event (-1) (set_wt_aux (-1) t).

(** * Example data

    Values of the constants, a server and environments on which the
    functions are run below; no statement depends on these values. *)

Definition sample_consts : pbs_consts := {|
  PBSE_NORELYMOM := 15070;
  PBSE_SYSTEM := 15010;
  PBS_NET_RC_RETRY := -2;
  PBS_NET_RETRY_TIME := 30;
  PBS_NET_RETRY_LIMIT := 14400;
  PBS_LOCAL_CONNECTION := 1024;
  PROT_TPP := 1;
  BATCH_REPLY_CHOICE_NULL := 1;
  ATR_DFLAG_MGRD := 4;
  ATR_DFLAG_MGWR := 8;
  ATR_DFLAG_SvWR := 32
|}.

(** The secondary server of a failover pair, at time [now]; stream 7 is
    the stream of mom 0, whose address is 100 and port 15002. *)
Definition sample_globals (now : Z) : globals := {|
  time_now := now;
  pbs_server_port_dis := 15001;
  pbs_failover_active := 1;
  primary_host := "Alpha.example.com";
  server_host := "beta.example.com";
  streams := {[ 7 := 0%nat ]};
  ipaddrs := {[ (100, 15002) := 0%nat ]}
|}.

(** An environment: whether the allocations succeed, what the encoders
    that reserve an identifier return, the code of the flush, what
    [disrst] reads, the code of [DIS_reply_read], what the resolver
    returns, and the handle of [svr_connect]. *)
Definition sample_env (alloc malloc : bool) (put : Z * option string)
    (flush : Z) (rd : option string * Z) (read_rc : Z)
    (host : Z * option Z) (handle : Z) : extern := {|
  set_task_ok := alloc;
  malloc_ok := malloc;
  PBSD_put := fun _ => put;
  is_compose_cmd := put;
  encode_DIS_ReqHdr := 0;
  encode_DIS_body := fun _ => 0;
  encode_DIS_ReqExtend := 0;
  dis_flush := flush;
  put_failover := 0;
  encoders_errno := None;
  disrst := rd;
  DIS_reply_read :=
    fun r => (read_rc, {| brp_code := 0; brp_choice := 2; brp_un := 1 |});
  parse_servername := fun n => (Some n, None);
  get_hostaddr := fun _ => host;
  svr_connect := fun _ _ => handle
|}.

Definition sample_task (wt : work_type) (ev : Z) (id : option string)
    (f : nat) (req : option addr) (parm2 : pointer) : work_task :=
  {| wt_type := wt; wt_event := ev; wt_event2 := id; wt_func := fn_other f;
     wt_parm1 := req; wt_parm2 := parm2; wt_parm3 := None;
     wt_aux := 0; wt_aux2 := 0 |}.

Definition sample_request (k : req_kind) (time : Z) : batch_request :=
  {| rq_type := k; rq_conn := 0; rq_orgconn := 0; rq_time := time;
     rq_host := "alpha"; rq_fromsvr := 0; rq_perm := 0;
     tppcmd_msgid := None;
     rq_reply := {| brp_code := 0; brp_choice := 0; brp_un := 0 |} |}.

(** Tasks 1, 2, 3 wait on the stream of mom 0 with identifiers A, B, C;
    task 1 carries request 11.  Task 4 waits for the reply on socket 5
    with request 12.  Task 5 is the retry of request 11, issued at time
    900. *)
Definition sample_server : server := {|
  tasks :=
    {[ 1%nat := sample_task WORK_Deferred_Reply 7 (Some "A") 1
                            (Some 11%nat) NULL;
       2%nat := sample_task WORK_Deferred_cmd 7 (Some "B") 2 None NULL;
       3%nat := sample_task WORK_Deferred_cmd 7 (Some "C") 3 None NULL;
       4%nat := sample_task WORK_Deferred_Reply 5 None 4 (Some 12%nat) NULL;
       5%nat := sample_task WORK_Timed 960 None 0 (Some 11%nat)
                            (PFun (fn_other 6)) ]};
  requests :=
    {[ 11%nat := sample_request PBS_BATCH_Rerun 900;
       12%nat := sample_request PBS_BATCH_StatusJob 900 ]};
  task_list_event := [4%nat; 5%nat];
  msr_deferred_cmds := {[ 0%nat := [1%nat; 2%nat; 3%nat] ]};
  ji_svrtask := ∅;
  pbs_errno := 0;
  log := []
|}.

(** * Vocabulary of the further statements *)

(** A request kind that has a case of its own in the switch of
    [issue_Drequest]. *)
Definition listed (k : req_kind) : Prop :=
  forall n, k <> PBS_BATCH_unlisted n.

(** The reply structure as both correlators leave it after
    [DIS_reply_read] on the holder [r0]: the structure as read, with the
    code and the null choice written over it when the read failed. *)
Definition reply_after_read {K : pbs_consts} (E : extern)
    (r0 : batch_reply) : batch_reply :=
  let '(rc, reply) := DIS_reply_read E r0 in
  if rc =? 0 then reply else fail_reply rc BATCH_REPLY_CHOICE_NULL reply.

(** What [process_Dreply] adds to the log when it finds task [p] for the
    socket and the read returns [rc]. *)
Definition socket_reply_trace (sock rc : Z) (call : event) : list event :=
  [EvTcpTimeoutLong true; EvReplyRead sock rc]
  ++ (if rc =? 0 then [] else [EvCloseConn sock])
  ++ [EvTcpTimeoutLong false; call].

(** The outcome [process_DreplyTPP] records for a matched task, in
    [wt_aux] and in [pbs_errno]: the code of the reply when it was read,
    PBSE_NORELYMOM when it was not. *)
Definition outcome_code {K : pbs_consts} (E : extern) (r0 : batch_reply)
    : Z :=
  let '(rc, reply) := DIS_reply_read E r0 in
  if rc =? 0 then brp_code reply else PBSE_NORELYMOM.

(** The task as [process_DreplyTPP] hands it to its function. *)
Definition answered_task (aux : Z) (ref : reply_ref) (t : work_task)
    : work_task :=
  set_wt_parm3 (Some ref) (set_wt_aux aux t).

(** The free of [wt_event2], when the task has one. *)
Definition free_of_task_msgid (p : addr) (t : work_task) : list event :=
  match wt_event2 t with
  | Some k => [EvFree (BufTaskMsgid p k)]
  | None => []
  end.

(** Every task on a list of the server is allocated. *)
Definition lists_allocated (s : server) : Prop :=
  (forall q, q ∈ task_list_event s -> is_Some (tasks s !! q)) /\
  (forall m q, q ∈ list_of (msr_deferred_cmds s) m ->
               is_Some (tasks s !! q)) /\
  (forall j q, q ∈ list_of (ji_svrtask s) j -> is_Some (tasks s !! q)).

(** * File security checks (src/lib/Liblog/chk_file_sec.c)

    The UNIX code of [teststat], [tempstat], [chk_file_sec] and
    [tmp_file_sec], and [get_script_name].  A mode, an owner and a group are integers, and the
    operators [~], [&] and [|] of C are [Z.lnot], [Z.land] and [Z.lor].
    The file system is given by its two routines, [realpath] and [lstat];
    what [log_err] is asked to record is part of the result. *)

(** The constants of <sys/stat.h> and <errno.h>. *)
Class sys_consts := {
  S_IFMT : Z;
  S_IFDIR : Z;
  S_IFLNK : Z;
  S_IFREG : Z;
  S_ISVTX : Z;
  S_IRWXU : Z;
  S_IRWXG : Z;
  S_IRWXO : Z;
  S_IWUSR : Z;
  S_IWGRP : Z;
  S_IWOTH : Z;
  EPERM : Z;
  ENOTDIR : Z;
  EISDIR : Z;
  EACCES : Z
}.

(** The fields of [struct stat] that the checks read. *)
Record stat := {
  st_mode : Z;
  st_uid : Z;
  st_gid : Z
}.

(** What a routine of the system returns: its result, or -1 (NULL) with
    [errno] as it then is. *)
Inductive sys_result (A : Type) : Type :=
  | Sys_ok (a : A)
  | Sys_err (errno : Z).
Arguments Sys_ok {A} a.
Arguments Sys_err {A} errno.

Record filesys := {
  realpath : string -> sys_result string;
  lstat : string -> sys_result stat
}.

(** [log_err (rc, __func__, "Security violation <path> resolves to
    <real>")]; [real] is NULL when [realpath] failed. *)
Record log_entry := {
  le_errno : Z;
  le_func : string;
  le_path : string;
  le_real : option string
}.

(** How a call ends: it returns [rc] having logged [lg]; an [assert]
    fails; or [strchr] is started past the end of the resolved path. *)
Inductive checked : Type :=
  | Returned (rc : Z) (lg : list log_entry)
  | AssertFailed
  | OutOfBounds.

(** What the loop over the directories of the path comes to: every one
    passed; [goto chkerr] with [rc], the resolved path still cut at the
    slash at hand; or an [assert] failed. *)
Inductive walked : Type :=
  | Passed
  | Stopped (rc : Z) (cut : string)
  | WalkAssertFailed.

(** The truth of an integer in a condition of C. *)
Definition truth (x : Z) : bool := negb (x =? 0).

Section ChkFileSec.

Context {C : sys_consts}.

(** [S_ISDIR (m)] of <sys/stat.h>, and [S_ISLNK (m)] as the file
    defines it. *)
Definition S_ISDIR (m : Z) : bool := Z.land m S_IFMT =? S_IFDIR.
Definition S_ISLNK (m : Z) : bool := Z.land m S_IFMT =? S_IFLNK.

(** [teststat (sp, isdir, sticky, disallow)] *)
Definition teststat (sp : stat) (isdir sticky disallow : Z) : Z :=
  if truth (Z.land (Z.lnot disallow) S_IWUSR) && (10 <? st_uid sp)
  then EPERM
  else if truth (Z.land (Z.lnot disallow) S_IWGRP) && (9 <? st_gid sp)
  then EPERM
  else if truth (Z.land (Z.lnot disallow) S_IWOTH)
          && (negb (S_ISDIR (st_mode sp))
              || negb (truth (Z.land (st_mode sp) S_ISVTX))
              || negb (truth sticky))
  then EPERM
  else if truth isdir && negb (S_ISDIR (st_mode sp))
  then ENOTDIR
  else if negb (truth isdir) && S_ISDIR (st_mode sp)
  then EISDIR
  else if truth (Z.land
                   (Z.land (Z.lor (Z.lor S_IRWXU S_IRWXG) S_IRWXO)
                      disallow)
                   (st_mode sp))
  then EACCES
  else 0.

(** [tempstat (sp, isdir, sticky, disallow)] *)
Definition tempstat (sp : stat) (isdir sticky disallow : Z) : Z :=
  if truth (Z.land (Z.lnot disallow) S_IWUSR) && (10 <? st_uid sp)
  then EPERM
  else if truth (Z.land (Z.lnot disallow) S_IWGRP) && (9 <? st_gid sp)
  then EPERM
  else if truth (Z.land (Z.lnot disallow) S_IWOTH)
  then
    let rc := 0 in
    let rc := if negb (S_ISDIR (st_mode sp)) || negb (truth sticky)
              then EPERM else rc in
    let rc := if negb (truth (Z.land (st_mode sp) S_ISVTX))
                 && truth (Z.land (st_mode sp) S_IWOTH)
              then EPERM else rc in
    rc
  else if truth isdir && negb (S_ISDIR (st_mode sp))
  then ENOTDIR
  else if negb (truth isdir) && S_ISDIR (st_mode sp)
  then EISDIR
  else if truth (Z.land
                   (Z.land (Z.lor (Z.lor S_IRWXU S_IRWXG) S_IRWXO)
                      disallow)
                   (st_mode sp))
  then EACCES
  else 0.

Variable F : filesys.

(** The loop [while (slash != NULL)]: [pre] is the part of [real]
    before the character at hand and [rest] the part from it on.  At a
    slash the path is cut there, the part before it is given to
    [lstat], and [test] is applied to what [lstat] found. *)
Fixpoint walk (test : stat -> Z) (pre rest : string) : walked :=
  match rest with
  | EmptyString => Passed
  | String c rest' =>
      if Ascii.eqb c "/"%char then
        match lstat F pre with
        | Sys_err e => Stopped e pre
        | Sys_ok sb =>
            if S_ISLNK (st_mode sb) then WalkAssertFailed
            else
              let rc := test sb in
              if truth rc then Stopped rc pre
              else walk test (pre +:+ String c EmptyString) rest'
        end
      else walk test (pre +:+ String c EmptyString) rest'
  end.

(** The label [chkerr]: the violation is logged when [rc] is not zero. *)
Definition chkerr (func path : string) (real : option string) (rc : Z)
    : checked :=
  Returned rc
    (if truth rc
     then [{| le_errno := rc; le_func := func; le_path := path;
              le_real := real |}]
     else []).

(** The body that [chk_file_sec] and [tmp_file_sec] have in common, one
    a copy of the other but for the test applied ([test]) and for the
    bits disallowed in the directories of the path ([updis]). *)
Definition file_sec (func : string)
    (test : stat -> Z -> Z -> Z -> Z) (updis : Z)
    (path : string) (isdir sticky disallow fullpath : Z) : checked :=
  match path with
  | EmptyString => AssertFailed
  | String c0 _ =>
      match realpath F path with
      | Sys_err e => chkerr func path None e
      | Sys_ok real =>
          let above :=
            if Ascii.eqb c0 "/"%char && truth fullpath then
              match real with
              | EmptyString => None
              | String r0 rest =>
                  Some (walk (fun sb => test sb 1 sticky updis)
                             (String r0 EmptyString) rest)
              end
            else Some Passed in
          match above with
          | None => OutOfBounds
          | Some WalkAssertFailed => AssertFailed
          | Some (Stopped rc cut) => chkerr func path (Some cut) rc
          | Some Passed =>
              match lstat F real with
              | Sys_err e => chkerr func path (Some real) e
              | Sys_ok sb =>
                  if S_ISLNK (st_mode sb) then AssertFailed
                  else chkerr func path (Some real)
                         (test sb isdir sticky disallow)
              end
          end
      end
  end.

(** [chk_file_sec (path, isdir, sticky, disallow, fullpath)] *)
Definition chk_file_sec : string -> Z -> Z -> Z -> Z -> checked :=
  file_sec "chk_file_sec" teststat (Z.lor S_IWGRP S_IWOTH).

(** [tmp_file_sec (path, isdir, sticky, disallow, fullpath)] *)
Definition tmp_file_sec : string -> Z -> Z -> Z -> Z -> checked :=
  file_sec "tmp_file_sec" tempstat 0.

End ChkFileSec.

(** ** [get_script_name]

    The string [tok] is cut at a blank, given to [stat], and mended; the
    pointers [next_space] and [prev_space] are the parts of [tok] before
    them. *)

(** The double quote. *)
Definition dquote : ascii := ascii_of_nat 34.

(** What [get_script_name] returns: a program name, or NULL; or it reads
    before the start of the string. *)
Inductive script_name : Type :=
  | Name (tok : string)
  | NoName
  | ReadOutOfBounds.

(** How the loop over the blanks ends: by the [return] inside it, or
    with [prev_space] as it then is ([None] while [path_exists] is 0). *)
Inductive scanned : Type :=
  | Early (name : string)
  | Ended (prev : option string).

(** The string without its last character. *)
Fixpoint but_last (s : string) : string :=
  match s with
  | EmptyString => EmptyString
  | String c EmptyString => EmptyString
  | String c s' => String c (but_last s')
  end.

(** The last character of a string, if it has one. *)
Fixpoint last_char (s : string) : option ascii :=
  match s with
  | EmptyString => None
  | String c EmptyString => Some c
  | String _ s' => last_char s'
  end.

Section ScriptName.

Context {C : sys_consts}.

(** [stat (tok, &sbuf)] *)
Variable stat_path : string -> sys_result stat.

(** [S_ISREG (m)] of <sys/stat.h>. *)
Definition S_ISREG (m : Z) : bool := Z.land m S_IFMT =? S_IFREG.

(** The loop [for (; next_space != NULL; ...)]: [pre] is the part of
    [tok] before the character at hand, [rest] the part from it on;
    [skipping] says that the character before was a blank, which
    [strspn] has passed over. *)
Fixpoint scan (pre rest : string) (skipping : bool) (prev : option string)
    : scanned :=
  match rest with
  | EmptyString => Ended prev
  | String c rest' =>
      let pre' := pre +:+ String c EmptyString in
      if Ascii.eqb c " "%char then
        if skipping then scan pre' rest' true prev
        else
          match stat_path pre with
          | Sys_err _ =>
              match prev with
              | Some name => Early name
              | None => scan pre' rest' true prev
              end
          | Sys_ok sb =>
              if S_ISREG (st_mode sb)
              then scan pre' rest' true (Some pre)
              else scan pre' rest' true prev
          end
      else scan pre' rest' false prev
  end.

(** The function from [next_space = strpbrk (tok, delim)] on. *)
Definition script_of (tok : string) : script_name :=
  match scan EmptyString tok false None with
  | Early name => Name name
  | Ended (Some name) => Name name
  | Ended None =>
      (* [sbuf] is zero where [stat] fails *)
      let mode := match stat_path tok with
                  | Sys_ok sb => st_mode sb
                  | Sys_err _ => 0
                  end in
      if S_ISREG mode then Name tok else NoName
  end.

(** [get_script_name (input)]; [strdup_ok] tells whether [strdup]
    returns a copy. *)
Definition get_script_name (strdup_ok : bool) (input : option string)
    : script_name :=
  match input with
  | None => NoName
  | Some input =>
      let '(input, starts_with_quotes) :=
        match input with
        | String c input' =>
            if Ascii.eqb c dquote then (input', true) else (input, false)
        | EmptyString => (input, false)
        end in
      if negb strdup_ok then NoName
      else if starts_with_quotes then
        match last_char input with
        | None => ReadOutOfBounds
        | Some c =>
            if Ascii.eqb c dquote then script_of (but_last input)
            else script_of input
        end
      else script_of input
  end.

End ScriptName.

(** [q] is a leading part of [s]. *)
Definition leading_part (q s : string) : Prop :=
  exists rest, s = q +:+ rest.

(** [stat] finds a regular file at [p]. *)
Definition regular_file {C : sys_consts}
    (stat_path : string -> sys_result stat) (p : string) : Prop :=
  exists sb, stat_path p = Sys_ok sb /\ S_ISREG (st_mode sb) = true.


(** ** Vocabulary of the file checks *)

(** [disallow] leaves the permission [bit] allowed. *)
Definition allowed (disallow bit : Z) : Prop :=
  Z.land (Z.lnot disallow) bit <> 0.

(** [d] is a directory of the path [real]: a part of it, not empty, that
    a slash follows. *)
Definition directory_of (d real : string) : Prop :=
  d <> EmptyString /\ exists rest, real = d +:+ String "/"%char rest.

(** A failing routine of the system leaves an [errno] that is not zero. *)
Definition errno_set (F : filesys) : Prop :=
  forall p e,
    (realpath F p = Sys_err e -> e <> 0) /\
    (lstat F p = Sys_err e -> e <> 0).

(** The error codes are not zero. *)
Definition errors_nonzero {C : sys_consts} : Prop :=
  EPERM <> 0 /\ ENOTDIR <> 0 /\ EISDIR <> 0 /\ EACCES <> 0.

(** [lstat] finds [d], which is not a link, and [test] accepts it. *)
Definition accepted {C : sys_consts} (F : filesys) (test : stat -> Z)
    (d : string) : Prop :=
  exists sb, lstat F d = Sys_ok sb /\ S_ISLNK (st_mode sb) = false /\
             test sb = 0.

(** * Confirming a reservation (src/lib/Libifl/pbsD_confirmresv.c)

    [__pbs_confirmresv] is a sequence of calls of the library, each of
    which can end it.  The routines called are given by an environment;
    the calls made are recorded in order, and [pbs_errno] is threaded
    through them. *)

Module ConfirmResv.

(** The error numbers of pbs_error.h and the request type of
    batch_request.h. *)
Class ifl_consts := {
  PBSE_IVALREQ : Z;
  PBSE_SYSTEM : Z;
  PBSE_PROTOCOL : Z;
  PBS_BATCH_ConfirmResv : Z
}.

Inductive call : Type :=
  | InitThreadContext
  | LockConnection (c : Z)
  | UnlockConnection (c : Z)
  | DisTcpFuncs
  | EncodeReqHdr (c reqtype : Z) (user : string)
  | EncodeRun (c : Z) (rid location : string) (start : Z)
  | EncodeReqExtend (c : Z) (extend : option string)
  | SetConnErrtxt (c rc : Z)
  | DisFlush (c : Z)
  | Rdrpy (c : Z)
  | GetConnErrno (c : Z)
  | FreeReply.

(** What the routines return; with the return value of a routine that
    can set [pbs_errno] comes the value it sets, if it sets one. *)
Record env := {
  pbs_current_user : string;
  pbs_client_thread_init_thread_context : Z * option Z;
  pbs_client_thread_lock_connection : Z -> Z * option Z;
  pbs_client_thread_unlock_connection : Z -> Z * option Z;
  encode_DIS_ReqHdr : Z -> Z;
  encode_DIS_Run : Z -> string -> string -> Z -> Z;
  encode_DIS_ReqExtend : Z -> option string -> Z;
  set_conn_errtxt : Z -> Z -> Z;
  dis_flush : Z -> Z;
  PBSD_rdrpy : Z -> option Z;      (* pbs_errno, when it sets it *)
  get_conn_errno : Z -> Z
}.

(** The state between two calls: [pbs_errno] and the calls so far. *)
Record state := {
  pbs_errno : Z;
  calls_made : list call
}.

Definition called (e : call) (s : state) : state :=
  {| pbs_errno := pbs_errno s; calls_made := calls_made s ++ [e] |}.

Definition errno_is (v : Z) (s : state) : state :=
  {| pbs_errno := v; calls_made := calls_made s |}.

Definition errno_opt (v : option Z) (s : state) : state :=
  match v with Some e => errno_is e s | None => s end.

(** [s == NULL || *s == 0], the test of a string argument. *)
Definition null_or_empty (s : option string) : bool :=
  match s with
  | None => true
  | Some EmptyString => true
  | Some (String _ _) => false
  end.

Section Code.

Context {K : ifl_consts}.
Variable E : env.

(** [(void) pbs_client_thread_unlock_connection (c); return pbs_errno] *)
Definition unlock_and_return_errno (c : Z) (s : state) : Z * state :=
  let '(_, e) := pbs_client_thread_unlock_connection E c in
  let s := errno_opt e (called (UnlockConnection c) s) in
  (pbs_errno s, s).

(** The three encoders joined by [||]: the first code that is not
    zero, or zero. *)
Definition encode (c : Z) (rid location : string) (start : Z)
    (extend : option string) (s : state) : Z * state :=
  let s := called (EncodeReqHdr c PBS_BATCH_ConfirmResv
                     (pbs_current_user E)) s in
  let rc := encode_DIS_ReqHdr E c in
  if truth rc then (rc, s) else
  let s := called (EncodeRun c rid location start) s in
  let rc := encode_DIS_Run E c rid location start in
  if truth rc then (rc, s) else
  let s := called (EncodeReqExtend c extend) s in
  (encode_DIS_ReqExtend E c extend, s).

(** [__pbs_confirmresv (c, rid, location, start, extend)]: the value
    returned and the state left. *)
Definition __pbs_confirmresv (c : Z) (rid location : option string)
    (start : Z) (extend : option string) (s : state) : Z * state :=
  if null_or_empty rid || null_or_empty location then
    (PBSE_IVALREQ, errno_is PBSE_IVALREQ s)
  else
    let '(r, e) := pbs_client_thread_init_thread_context E in
    let s := errno_opt e (called InitThreadContext s) in
    if truth r then (pbs_errno s, s) else
    let '(r, e) := pbs_client_thread_lock_connection E c in
    let s := errno_opt e (called (LockConnection c) s) in
    if truth r then (pbs_errno s, s) else
    let s := called DisTcpFuncs s in
    let '(rc, s) := encode c (default EmptyString rid)
                      (default EmptyString location) start extend s in
    if truth rc then
      let s := called (SetConnErrtxt c rc) s in
      let s := if truth (set_conn_errtxt E c rc)
               then errno_is PBSE_SYSTEM s
               else errno_is PBSE_PROTOCOL s in
      unlock_and_return_errno c s
    else
      let s := called (DisFlush c) s in
      if truth (dis_flush E c) then
        unlock_and_return_errno c (errno_is PBSE_PROTOCOL s)
      else
        let s := errno_opt (PBSD_rdrpy E c) (called (Rdrpy c) s) in
        let s := called (GetConnErrno c) s in
        let rc := get_conn_errno E c in
        let s := called FreeReply s in
        let '(r, e) := pbs_client_thread_unlock_connection E c in
        let s := errno_opt e (called (UnlockConnection c) s) in
        if truth r then (pbs_errno s, s) else (rc, s).

End Code.

(** ** Vocabulary *)

(** A call that takes or releases the lock of a connection. *)
Definition on_lock (e : call) : bool :=
  match e with
  | LockConnection _ | UnlockConnection _ => true
  | _ => false
  end.

(** A call that uses the connection: encodes into it, flushes it,
    reads from it. *)
Definition uses_connection (e : call) : bool :=
  match e with
  | EncodeReqHdr _ _ _ | EncodeRun _ _ _ _ | EncodeReqExtend _ _
  | DisFlush _ | Rdrpy _ | GetConnErrno _ | SetConnErrtxt _ _ => true
  | _ => false
  end.

(** The request went out whole: the three encoders and the flush
    returned zero. *)
Definition sent {K : ifl_consts} (E : env) (c : Z)
    (rid location : string) (start : Z) (extend : option string)
    : Prop :=
  encode_DIS_ReqHdr E c = 0 /\
  encode_DIS_Run E c rid location start = 0 /\
  encode_DIS_ReqExtend E c extend = 0 /\
  dis_flush E c = 0.

End ConfirmResv.

(** ** Example data for the file checks and for the reservation call *)

(** The values of Linux. *)
Definition sample_sys : sys_consts := {|
  S_IFMT := 61440;
  S_IFDIR := 16384;
  S_IFLNK := 40960;
  S_IFREG := 32768;
  S_ISVTX := 512;
  S_IRWXU := 448;
  S_IRWXG := 56;
  S_IRWXO := 7;
  S_IWUSR := 128;
  S_IWGRP := 16;
  S_IWOTH := 2;
  EPERM := 1;
  ENOTDIR := 20;
  EISDIR := 21;
  EACCES := 13
|}.

(** A directory of root with mode 0755, and one with mode [perm]. *)
Definition sample_dir (perm : Z) : stat :=
  {| st_mode := 16384 + perm; st_uid := 0; st_gid := 0 |}.

(** A file system in which every path resolves to itself, and /var,
    /var/spool and /var/spool/pbs are directories of root, the first with
    the mode [var_perm], the others with mode 0755; nothing else exists
    (errno 2). *)
Definition sample_fs (var_perm : Z) : filesys := {|
  realpath := fun p => Sys_ok p;
  lstat := fun p =>
    if String.eqb p "/var" then Sys_ok (sample_dir var_perm)
    else if String.eqb p "/var/spool" then Sys_ok (sample_dir 493)
    else if String.eqb p "/var/spool/pbs" then Sys_ok (sample_dir 493)
    else Sys_err 2
|}.

Definition sample_ifl : ConfirmResv.ifl_consts := {|
  ConfirmResv.PBSE_IVALREQ := 15004;
  ConfirmResv.PBSE_SYSTEM := 15010;
  ConfirmResv.PBSE_PROTOCOL := 15031;
  ConfirmResv.PBS_BATCH_ConfirmResv := 75
|}.

(** A library in which every call succeeds but the flush, which returns
    [flush]; the connection's error number after the reply is [code]. *)
Definition sample_ifl_env (flush code : Z) : ConfirmResv.env := {|
  ConfirmResv.pbs_current_user := "pbsadmin";
  ConfirmResv.pbs_client_thread_init_thread_context := (0, None);
  ConfirmResv.pbs_client_thread_lock_connection := fun _ => (0, None);
  ConfirmResv.pbs_client_thread_unlock_connection := fun _ => (0, None);
  ConfirmResv.encode_DIS_ReqHdr := fun _ => 0;
  ConfirmResv.encode_DIS_Run := fun _ _ _ _ => 0;
  ConfirmResv.encode_DIS_ReqExtend := fun _ _ => 0;
  ConfirmResv.set_conn_errtxt := fun _ _ => 0;
  ConfirmResv.dis_flush := fun _ => flush;
  ConfirmResv.PBSD_rdrpy := fun _ => None;
  ConfirmResv.get_conn_errno := fun _ => code
|}.

(** A file system for [get_script_name]: /opt/my app/run is a regular
    file with mode 0755, /opt/my a directory; nothing else exists. *)
Definition sample_stat (p : string) : sys_result stat :=
  if String.eqb p "/opt/my app/run"
  then Sys_ok {| st_mode := 32768 + 493; st_uid := 0; st_gid := 0 |}
  else if String.eqb p "/opt/my" then Sys_ok (sample_dir 493)
  else Sys_err 2.

(** * Properties *)

(** ** Auxiliary facts *)

Lemma calls_app l1 l2 : calls (l1 ++ l2) = calls l1 ++ calls l2.
Proof. apply omap_app. Qed.

Lemma reads_app l1 l2 : reads (l1 ++ l2) = reads l1 ++ reads l2.
Proof. apply omap_app. Qed.

Lemma unlink_not_in p l : p ∉ unlink p l.
Proof. unfold unlink. rewrite list_elem_of_filter. tauto. Qed.

Lemma unlink_id p l : p ∉ l -> unlink p l = l.
Proof.
  intros Hp. unfold unlink. induction l as [|q l IH]; [done|].
  rewrite not_elem_of_cons in Hp. destruct Hp as [Hq Hl].
  rewrite filter_cons_True by congruence. by rewrite IH.
Qed.

Lemma unlink_head p l : p ∉ l -> unlink p (p :: l) = l.
Proof.
  intros Hp. unfold unlink. rewrite filter_cons_False by tauto.
  by apply unlink_id.
Qed.

Section Scan.

Context (P : work_task -> outcome bool) (ts : gmap addr work_task).

Lemma first_task_none l :
  Forall (rejected P ts) l -> first_task P ts l = Ok None.
Proof.
  induction 1 as [|q l (tq & Hq & HP) _ IH]; [done|].
  simpl. rewrite Hq. simpl. rewrite HP. simpl. exact IH.
Qed.

Lemma first_task_found pre p post t :
  Forall (rejected P ts) pre -> ts !! p = Some t -> P t = Ok true ->
  first_task P ts (pre ++ p :: post) = Ok (Some p).
Proof.
  intros Hpre Hp HP. induction Hpre as [|q l (tq & Hq & HPq) _ IH].
  - simpl. rewrite Hp. simpl. by rewrite HP.
  - simpl. rewrite Hq. simpl. rewrite HPq. simpl. exact IH.
Qed.

End Scan.

Lemma all_tasks_rejected P ts Q l :
  (forall t, Q t -> P t = Ok false) ->
  all_tasks ts Q l -> Forall (rejected P ts) l.
Proof.
  intros HQ Hall. unfold all_tasks in Hall.
  eapply Forall_impl; [exact Hall|]. intros q (tq & Hq & Htq).
  exists tq. auto.
Qed.

Lemma socket_test_false sock t :
  ~ awaits_socket sock t ->
  bool_decide (wt_type t = WORK_Deferred_Reply) && (wt_event t =? sock)
  = false.
Proof.
  intros Hn. apply andb_false_iff.
  destruct (decide (wt_type t = WORK_Deferred_Reply)) as [Ht|Ht].
  - right. apply Z.eqb_neq. intros He. apply Hn. by split.
  - left. by apply bool_decide_eq_false.
Qed.

Lemma socket_test_true sock t :
  awaits_socket sock t ->
  bool_decide (wt_type t = WORK_Deferred_Reply) && (wt_event t =? sock)
  = true.
Proof.
  intros [Ht He]. apply andb_true_iff. split.
  - by apply bool_decide_eq_true.
  - by apply Z.eqb_eq.
Qed.

Lemma msgid_matches_other k t :
  stores_other_id k t -> msgid_matches k t = Ok false.
Proof.
  intros (k' & Hk & Hne). unfold msgid_matches. rewrite Hk. simpl.
  f_equal. unfold CString.strcmp_is0. by apply String.eqb_neq.
Qed.

Lemma msgid_matches_same k t :
  stores_id k t -> msgid_matches k t = Ok true.
Proof.
  unfold stores_id, msgid_matches. intros ->. simpl.
  f_equal. apply String.eqb_refl.
Qed.

Section Correlator.

Context {K : pbs_consts}.
Variable G : globals.
Variable E : extern.

(** C6. A reply that matches no pending task completes no task.  On a
    socket for which the event list holds no task of type
    WORK_Deferred_Reply with that socket as its event, [process_Dreply]
    only calls [close_conn] (which drains and closes the connection) and
    calls no task.  On a stream whose identifier is
    read and is stored by no task of the mom's deferred list,
    [process_DreplyTPP] leaves every task and list as it was and frees
    the identifier it read. *)
Theorem orphan_reply_completes_nothing :
  (forall sock s,
      all_tasks (tasks s) (fun t => ~ awaits_socket sock t)
                (task_list_event s) ->
      process_Dreply E sock s = Ok (close_conn sock s))
  /\
  (forall fuel handle pmom k s,
      streams G !! handle = Some pmom ->
      disrst E = (Some k, 0) ->
      all_tasks (tasks s) (stores_other_id k)
                (list_of (msr_deferred_cmds s) pmom) ->
      process_DreplyTPP G E fuel handle s
      = Ok (emit (EvFree (BufRecvMsgid k)) (emit (EvDisFuncs true) s))).
Proof.
  split.
  - intros sock s Hall. unfold process_Dreply.
    rewrite (first_task_none _ _ (task_list_event s)); [done|].
    eapply all_tasks_rejected; [|exact Hall].
    intros t Ht. simpl. f_equal. by apply socket_test_false.
  - intros fuel handle pmom k s Hst Hrd Hall. unfold process_DreplyTPP.
    rewrite Hst, Hrd.
    rewrite (first_task_none _ _ (list_of _ pmom)); [done|].
    eapply all_tasks_rejected; [|exact Hall].
    intros t Ht. by apply msgid_matches_other.
Qed.

(** Reading and writing the store. *)

Lemma update_task_Ok p f s t :
  tasks s !! p = Some t ->
  update_task p f s = Ok (with_tasks <[p := f t]> s).
Proof. unfold update_task. by intros ->. Qed.

Lemma update_request_Ok a f s r :
  requests s !! a = Some r ->
  update_request a f s = Ok (with_requests <[a := f r]> s).
Proof. unfold update_request. by intros ->. Qed.

Lemma dispatch_task_Ok p s t :
  tasks s !! p = Some t ->
  dispatch_task p s
  = Ok (with_tasks (delete p)
          (emit (EvCall (wt_func t) p t (requests s)) (unlink_all p s))).
Proof. unfold dispatch_task. by intros ->. Qed.

Lemma delete_task_Ok p s t :
  tasks s !! p = Some t ->
  delete_task p s = Ok (with_tasks (delete p) (unlink_all p s)).
Proof. unfold delete_task. by intros ->. Qed.

Lemma delete_task_Undefined p s :
  tasks s !! p = None -> delete_task p s = Undefined.
Proof. unfold delete_task. by intros ->. Qed.

Lemma free_task_msgid_log p t :
  exists evs, calls evs = [] /\ reads evs = [] /\
    forall s, log (free_task_msgid p t s) = log s ++ evs.
Proof.
  unfold free_task_msgid. destruct (wt_event2 t) as [k|].
  - by exists [EvFree (BufTaskMsgid p k)].
  - exists []. repeat split. intros s. by rewrite app_nil_r.
Qed.

Lemma free_task_msgid_rest p t s :
  tasks (free_task_msgid p t s) = tasks s /\
  requests (free_task_msgid p t s) = requests s /\
  task_list_event (free_task_msgid p t s) = task_list_event s /\
  msr_deferred_cmds (free_task_msgid p t s) = msr_deferred_cmds s.
Proof. unfold free_task_msgid. by destruct (wt_event2 t). Qed.

Lemma deliver_reply_run handle p s t :
  tasks s !! p = Some t ->
  (forall a, request_of t = Some a -> is_Some (requests s !! a)) ->
  exists b s' evs,
    deliver_reply E handle p s = Ok (b, s') /\
    log s' = log s ++ evs /\
    tasks s' = delete p (tasks s) /\
    task_list_event s' = unlink p (task_list_event s) /\
    msr_deferred_cmds s' = unlink p <$> msr_deferred_cmds s /\
    delivered E p t evs.
Proof.
  intros Hp Hreq. unfold deliver_reply. rewrite Hp. simpl.
  destruct (free_task_msgid_log p t) as (fr & Hfc & Hfr & Hfl).
  destruct (request_of t) as [a|] eqn:Ha.
  - destruct (Hreq a eq_refl) as [r Hr]. rewrite Hr. simpl.
    destruct (DIS_reply_read E (rq_reply r)) as [rc rep] eqn:Hread.
    erewrite update_task_Ok by (simpl; exact Hp). simpl.
    erewrite update_task_Ok by (simpl; apply lookup_insert_eq). simpl.
    erewrite dispatch_task_Ok by (simpl; apply lookup_insert_eq). simpl.
    eexists _, _, _. split; [reflexivity|].
    match goal with |- context [free_task_msgid p t ?S] =>
      destruct (free_task_msgid_rest p t S) as (-> & _ & -> & ->);
      rewrite (Hfl S)
    end.
    simpl. rewrite <- !app_assoc. split; [reflexivity|].
    split; [by rewrite !delete_insert_eq|].
    split; [reflexivity|]. split; [reflexivity|].
    right. eexists rc, _, _, _. split; [left; by eexists|].
    simpl. rewrite Hfc, Hfr.
    split; [reflexivity|]. split; [reflexivity|].
    split; [apply list_elem_of_further, list_elem_of_here|].
    unfold parm3_reply. simpl. rewrite lookup_insert_eq. simpl.
    split; [reflexivity|].
    split.
    + intros Hrc. apply Z.eqb_neq in Hrc. rewrite Hrc. simpl. done.
    + intros ->. simpl. done.
  - destruct (malloc_ok E) eqn:Hm; simpl.
    + destruct (DIS_reply_read E zero_reply) as [rc rep] eqn:Hread.
      erewrite update_task_Ok by (simpl; exact Hp). simpl.
      erewrite update_task_Ok by (simpl; apply lookup_insert_eq). simpl.
      erewrite dispatch_task_Ok by (simpl; apply lookup_insert_eq). simpl.
      eexists _, _, _. split; [reflexivity|].
      match goal with |- context [free_task_msgid p t ?S] =>
        destruct (free_task_msgid_rest p t S) as (-> & _ & -> & ->);
        rewrite (Hfl S)
      end.
      simpl. rewrite <- !app_assoc. split; [reflexivity|].
      split; [by rewrite !delete_insert_eq|].
      split; [reflexivity|]. split; [reflexivity|].
      right. eexists rc, _, _, _. split; [by right|].
      simpl. rewrite Hfc, Hfr.
      split; [reflexivity|]. split; [reflexivity|].
      split; [apply list_elem_of_further, list_elem_of_here|].
      unfold parm3_reply. simpl.
      split; [reflexivity|].
      split.
      * intros Hrc. apply Z.eqb_neq in Hrc. rewrite Hrc. simpl. done.
      * intros ->. simpl. done.
    + erewrite delete_task_Ok by exact Hp. simpl.
      eexists _, _, _. split; [reflexivity|]. simpl.
      match goal with |- context [free_task_msgid p t ?S] =>
        destruct (free_task_msgid_rest p t S) as (-> & _ & -> & ->);
        rewrite (Hfl S)
      end.
      simpl. rewrite <- !app_assoc. split; [reflexivity|].
      split; [reflexivity|]. split; [reflexivity|]. split; [reflexivity|].
      left. rewrite !calls_app, !reads_app, Hfc, Hfr. done.
Qed.

Lemma delivered_framed p t evs before after :
  calls before = [] -> reads before = [] ->
  calls after = [] -> reads after = [] ->
  delivered E p t evs -> delivered E p t (before ++ evs ++ after).
Proof.
  intros Hcb Hrb Hca Hra [(Hn & Hm & Hc & Hr)|D].
  - left. rewrite !calls_app, !reads_app, Hcb, Hrb, Hca, Hra, Hc, Hr. done.
  - destruct D as (rc & t' & rq & reply & Hh & Hc & Hr & Hin & Hrest).
    right. exists rc, t', rq, reply.
    rewrite !calls_app, !reads_app, Hcb, Hrb, Hca, Hra, Hc, Hr.
    split; [exact Hh|]. split; [done|]. split; [done|].
    split; [|exact Hrest].
    rewrite !elem_of_app. auto.
Qed.

(** The run of [process_DreplyTPP] when the identifier is read and the
    first task of the list that stores it is [p]. *)
Lemma tpp_match_run fuel handle pmom k s pre p post t :
  streams G !! handle = Some pmom ->
  disrst E = (Some k, 0) ->
  list_of (msr_deferred_cmds s) pmom = pre ++ p :: post ->
  all_tasks (tasks s) (stores_other_id k) pre ->
  tasks s !! p = Some t ->
  stores_id k t ->
  (forall a, request_of t = Some a -> is_Some (requests s !! a)) ->
  exists s' evs,
    process_DreplyTPP G E fuel handle s = Ok s' /\
    log s' = log s ++ evs /\
    tasks s' = delete p (tasks s) /\
    task_list_event s' = unlink p (task_list_event s) /\
    msr_deferred_cmds s' = unlink p <$> msr_deferred_cmds s /\
    delivered E p t evs.
Proof.
  intros Hst Hrd Hl Hpre Hp Hk Hreq. unfold process_DreplyTPP.
  rewrite Hst, Hrd. simpl. rewrite Hl.
  erewrite first_task_found; [|
    eapply all_tasks_rejected; [|exact Hpre];
    intros; by apply msgid_matches_other
    | exact Hp | by apply msgid_matches_same ].
  simpl.
  destruct (deliver_reply_run handle p (emit (EvDisFuncs true) s) t Hp Hreq)
    as (b & s1 & evs & Hrun & Hlog & Hts & Hel & Hdl & Hd).
  rewrite Hrun. simpl in *.
  destruct b; simpl.
  - eexists _, _. split; [reflexivity|]. simpl.
    rewrite Hlog, <- !app_assoc. split; [reflexivity|].
    split; [exact Hts|]. split; [exact Hel|]. split; [exact Hdl|].
    by apply (delivered_framed p t evs [_] [_]).
  - eexists _, _. split; [reflexivity|].
    rewrite Hlog, <- !app_assoc. split; [reflexivity|].
    split; [exact Hts|]. split; [exact Hel|]. split; [exact Hdl|].
    rewrite <- (app_nil_r evs).
    by apply (delivered_framed p t evs [_] []).
Qed.

(** C1, as the code has it.  When the peer of the stream is known and
    the identifier [k] is read, the first task of the peer's deferred
    list that stores [k] is the only task acted on, wherever it stands
    in the list and whatever follows it.  Its function is called, once,
    when it carries a batch request or the reply holder can be
    allocated; when it carries none and the allocation fails, it is
    deleted and no function is called.  Either way the task leaves the
    store and the lists, and every other task stays as it was. *)
Theorem reply_completes_first_match fuel handle pmom k s pre p post t :
  streams G !! handle = Some pmom ->
  disrst E = (Some k, 0) ->
  list_of (msr_deferred_cmds s) pmom = pre ++ p :: post ->
  all_tasks (tasks s) (stores_other_id k) pre ->
  tasks s !! p = Some t ->
  stores_id k t ->
  (forall a, request_of t = Some a -> is_Some (requests s !! a)) ->
  exists s' evs,
    process_DreplyTPP G E fuel handle s = Ok s' /\
    log s' = log s ++ evs /\
    calls evs = (if bool_decide (is_Some (request_of t)) || malloc_ok E
                 then [p] else []) /\
    tasks s' = delete p (tasks s) /\
    msr_deferred_cmds s' = unlink p <$> msr_deferred_cmds s.
Proof.
  intros Hst Hrd Hl Hpre Hp Hk Hreq.
  destruct (tpp_match_run fuel handle pmom k s pre p post t)
    as (s' & evs & Hrun & Hlog & Hts & _ & Hdl & Hd); try done.
  exists s', evs. repeat (split; [done|]). split; [|done].
  destruct Hd as [(Hn & Hm & Hc & _)|(rc & t' & rq & reply & Hh & Hc & _)].
  - rewrite Hn, Hm, Hc. by rewrite bool_decide_eq_false_2 by by intros [].
  - rewrite Hc. destruct Hh as [Hh| ->].
    + by rewrite bool_decide_eq_true_2.
    + by rewrite orb_true_r.
Qed.

Lemma free_task_msgid_emit p t s :
  log (free_task_msgid p t s) = log s ++ free_of_task_msgid p t.
Proof.
  unfold free_task_msgid, free_of_task_msgid.
  destruct (wt_event2 t); simpl; [done|by rewrite app_nil_r].
Qed.

Lemma free_task_msgid_errno p t s :
  pbs_errno (free_task_msgid p t s) = pbs_errno s.
Proof. unfold free_task_msgid. by destruct (wt_event2 t). Qed.

Lemma free_task_msgid_svrtask p t s :
  ji_svrtask (free_task_msgid p t s) = ji_svrtask s.
Proof. unfold free_task_msgid. by destruct (wt_event2 t). Qed.

(** The run of [process_DreplyTPP] that finds task [p], which carries
    request [a]. *)
Lemma tpp_request_run fuel handle pmom k s pre p post t a r :
  streams G !! handle = Some pmom ->
  disrst E = (Some k, 0) ->
  list_of (msr_deferred_cmds s) pmom = pre ++ p :: post ->
  all_tasks (tasks s) (stores_other_id k) pre ->
  tasks s !! p = Some t ->
  stores_id k t ->
  request_of t = Some a ->
  requests s !! a = Some r ->
  exists s',
    process_DreplyTPP G E fuel handle s = Ok s' /\
    requests s'
    = <[a := set_rq_reply (reply_after_read E (rq_reply r)) r]>
        (requests s) /\
    pbs_errno s' = outcome_code E (rq_reply r) /\
    log s'
    = log s
      ++ [EvDisFuncs true;
          EvReplyRead handle (DIS_reply_read E (rq_reply r)).1;
          EvCall (wt_func t) p
            (answered_task (outcome_code E (rq_reply r)) (RqReply a) t)
            (requests s')]
      ++ free_of_task_msgid p t ++ [EvFree (BufRecvMsgid k)] /\
    tasks s' = delete p (tasks s) /\
    task_list_event s' = unlink p (task_list_event s) /\
    msr_deferred_cmds s' = unlink p <$> msr_deferred_cmds s /\
    ji_svrtask s' = unlink p <$> ji_svrtask s.
Proof.
  intros Hst Hrd Hl Hpre Hp Hk Ha Hr.
  unfold process_DreplyTPP, reply_after_read, outcome_code, answered_task.
  rewrite Hst, Hrd. simpl. rewrite Hl.
  erewrite first_task_found; [|
    eapply all_tasks_rejected; [|exact Hpre];
    intros; by apply msgid_matches_other
    | exact Hp | by apply msgid_matches_same ].
  simpl. unfold deliver_reply. simpl. rewrite Hp. simpl. rewrite Ha.
  simpl. rewrite Hr. simpl.
  destruct (DIS_reply_read E (rq_reply r)) as [rc rep] eqn:Hread.
  erewrite update_task_Ok by (simpl; exact Hp). simpl.
  erewrite update_task_Ok by (simpl; apply lookup_insert_eq). simpl.
  erewrite dispatch_task_Ok by (simpl; apply lookup_insert_eq). simpl.
  eexists. split; [reflexivity|]. simpl.
  rewrite free_task_msgid_emit, free_task_msgid_errno,
    free_task_msgid_svrtask.
  match goal with |- context [free_task_msgid p t ?S] =>
    destruct (free_task_msgid_rest p t S) as (-> & -> & -> & ->)
  end.
  simpl. rewrite <- !app_assoc. simpl.
  rewrite !delete_insert_eq.
  destruct (rc =? 0); simpl; done.
Qed.

(** The run of [process_DreplyTPP] that finds task [p], which carries no
    request, when the reply holder can be allocated. *)
Lemma tpp_command_run fuel handle pmom k s pre p post t :
  streams G !! handle = Some pmom ->
  disrst E = (Some k, 0) ->
  list_of (msr_deferred_cmds s) pmom = pre ++ p :: post ->
  all_tasks (tasks s) (stores_other_id k) pre ->
  tasks s !! p = Some t ->
  stores_id k t ->
  request_of t = None ->
  malloc_ok E = true ->
  exists s',
    process_DreplyTPP G E fuel handle s = Ok s' /\
    requests s' = requests s /\
    pbs_errno s' = outcome_code E zero_reply /\
    log s'
    = log s
      ++ [EvDisFuncs true;
          EvReplyRead handle (DIS_reply_read E zero_reply).1;
          EvCall (wt_func t) p
            (answered_task (outcome_code E zero_reply)
               (TmpReply (reply_after_read E zero_reply)) t)
            (requests s);
          EvFree (BufReply (reply_after_read E zero_reply))]
      ++ free_of_task_msgid p t ++ [EvFree (BufRecvMsgid k)] /\
    tasks s' = delete p (tasks s) /\
    task_list_event s' = unlink p (task_list_event s) /\
    msr_deferred_cmds s' = unlink p <$> msr_deferred_cmds s /\
    ji_svrtask s' = unlink p <$> ji_svrtask s.
Proof.
  intros Hst Hrd Hl Hpre Hp Hk Ha Hm.
  unfold process_DreplyTPP, reply_after_read, outcome_code, answered_task.
  rewrite Hst, Hrd. simpl. rewrite Hl.
  erewrite first_task_found; [|
    eapply all_tasks_rejected; [|exact Hpre];
    intros; by apply msgid_matches_other
    | exact Hp | by apply msgid_matches_same ].
  simpl. unfold deliver_reply. simpl. rewrite Hp. simpl. rewrite Ha, Hm.
  simpl.
  destruct (DIS_reply_read E zero_reply) as [rc rep] eqn:Hread.
  erewrite update_task_Ok by (simpl; exact Hp). simpl.
  erewrite update_task_Ok by (simpl; apply lookup_insert_eq). simpl.
  erewrite dispatch_task_Ok by (simpl; apply lookup_insert_eq). simpl.
  eexists. split; [reflexivity|]. simpl.
  rewrite free_task_msgid_emit, free_task_msgid_errno,
    free_task_msgid_svrtask.
  match goal with |- context [free_task_msgid p t ?S] =>
    destruct (free_task_msgid_rest p t S) as (-> & -> & -> & ->)
  end.
  simpl. rewrite <- !app_assoc. simpl.
  rewrite !delete_insert_eq.
  destruct (rc =? 0); simpl; done.
Qed.

(** C7. A reply that cannot be decoded is still delivered.  In a run of
    either correlator that finds its task [p], when [DIS_reply_read]
    returns a code [rc] that is not zero (on a stream: for the reply of
    the request the task carries, or, when it carries none and the
    holder can be allocated, for that holder), the reply is read once,
    the function of [p] is called, exactly once and for no other task,
    and the reply it finds (in the request of the task on a socket,
    through [wt_parm3] on a stream) has [rc] as its code and the null
    choice. *)
Theorem decode_failure_still_dispatches :
  (forall sock s pre p post t a r rc,
      task_list_event s = pre ++ p :: post ->
      all_tasks (tasks s) (fun t => ~ awaits_socket sock t) pre ->
      tasks s !! p = Some t ->
      awaits_socket sock t ->
      wt_parm1 t = Some a ->
      requests s !! a = Some r ->
      (DIS_reply_read E (rq_reply r)).1 = rc ->
      rc <> 0 ->
      exists s' evs,
        process_Dreply E sock s = Ok s' /\
        log s' = log s ++ evs /\
        reads evs = [rc] /\
        calls evs = [p] /\
        exists rq reply,
          EvCall (wt_func t) p t rq ∈ evs /\
          request_reply t rq = Some reply /\
          brp_code reply = rc /\
          brp_choice reply = BATCH_REPLY_CHOICE_NULL)
  /\
  (forall fuel handle pmom k s pre p post t rc,
      streams G !! handle = Some pmom ->
      disrst E = (Some k, 0) ->
      list_of (msr_deferred_cmds s) pmom = pre ++ p :: post ->
      all_tasks (tasks s) (stores_other_id k) pre ->
      tasks s !! p = Some t ->
      stores_id k t ->
      (exists a r,
          request_of t = Some a /\ requests s !! a = Some r /\
          (DIS_reply_read E (rq_reply r)).1 = rc)
      \/
      (request_of t = None /\ malloc_ok E = true /\
       (DIS_reply_read E zero_reply).1 = rc) ->
      rc <> 0 ->
      exists s' evs,
        process_DreplyTPP G E fuel handle s = Ok s' /\
        log s' = log s ++ evs /\
        reads evs = [rc] /\
        calls evs = [p] /\
        exists t' rq reply,
          EvCall (wt_func t) p t' rq ∈ evs /\
          parm3_reply t' rq = Some reply /\
          brp_code reply = rc /\
          brp_choice reply = BATCH_REPLY_CHOICE_NULL).
Proof.
  split.
  - intros sock s pre p post t a r rc Hl Hpre Hp Hsock Ha Hr Hread Hne.
    unfold process_Dreply. rewrite Hl.
    erewrite first_task_found; [|
      eapply all_tasks_rejected; [|exact Hpre];
      intros t0 Ht0; simpl; f_equal; by apply socket_test_false
      | exact Hp | simpl; f_equal; by apply socket_test_true ].
    simpl. rewrite Hp. simpl. rewrite Ha. simpl. rewrite Hr. simpl.
    destruct (DIS_reply_read E (rq_reply r)) as [rc0 rep].
    simpl in Hread. subst rc0.
    rewrite (proj2 (Z.eqb_neq rc 0) Hne). simpl.
    erewrite dispatch_task_Ok by (simpl; exact Hp). simpl.
    eexists _, _. split; [reflexivity|]. simpl.
    rewrite <- !app_assoc. split; [reflexivity|].
    split; [reflexivity|]. split; [reflexivity|].
    eexists _, _. split; [do 4 apply list_elem_of_further;
                          apply list_elem_of_here|].
    unfold request_reply. rewrite Ha. simpl.
    rewrite lookup_insert_eq. simpl. done.
  - intros fuel handle pmom k s pre p post t rc Hst Hrd Hl Hpre Hp Hk
      Hread Hne.
    assert (Hfree : free_of_task_msgid p t = [EvFree (BufTaskMsgid p k)]).
    { unfold free_of_task_msgid. by rewrite Hk. }
    destruct Hread as [(a & r & Ha & Hr & Hread)|(Ha & Hm & Hread)].
    + destruct (tpp_request_run fuel handle pmom k s pre p post t a r
                  Hst Hrd Hl Hpre Hp Hk Ha Hr)
        as (s' & Hrun & Hrq & _ & Hlog & _).
      rewrite Hfree, Hread in Hlog.
      eexists s', _. split; [exact Hrun|]. split; [exact Hlog|].
      split; [reflexivity|]. split; [reflexivity|].
      eexists _, _, _.
      split; [do 2 apply list_elem_of_further; apply list_elem_of_here|].
      unfold parm3_reply, answered_task. simpl.
      rewrite Hrq, lookup_insert_eq. simpl.
      split; [reflexivity|]. unfold reply_after_read.
      destruct (DIS_reply_read E (rq_reply r)) as [rc0 rep].
      simpl in Hread. subst rc0.
      by rewrite (proj2 (Z.eqb_neq rc 0) Hne).
    + destruct (tpp_command_run fuel handle pmom k s pre p post t
                  Hst Hrd Hl Hpre Hp Hk Ha Hm)
        as (s' & Hrun & _ & _ & Hlog & _).
      rewrite Hfree, Hread in Hlog.
      eexists s', _. split; [exact Hrun|]. split; [exact Hlog|].
      split; [reflexivity|]. split; [reflexivity|].
      eexists _, _, _.
      split; [do 2 apply list_elem_of_further; apply list_elem_of_here|].
      unfold parm3_reply, answered_task. simpl.
      split; [reflexivity|]. unfold reply_after_read.
      destruct (DIS_reply_read E zero_reply) as [rc0 rep].
      simpl in Hread. subst rc0.
      by rewrite (proj2 (Z.eqb_neq rc 0) Hne).
Qed.

Lemma list_of_unlink p (d : gmap nat (list addr)) m :
  list_of (unlink p <$> d) m = unlink p (list_of d m).
Proof.
  unfold list_of. rewrite lookup_fmap. by destruct (d !! m).
Qed.

Lemma culled_weaken ts ts' rc e :
  (forall p t, ts' !! p = Some t -> ts !! p = Some t) ->
  culled ts' rc e -> culled ts rc e.
Proof.
  intros Hsub. destruct e; simpl; try done.
  intros (t0 & Ht0 & Hrest). exists t0. split; [by apply Hsub|done].
Qed.

(** One turn of the culling loop on the head [p] of the list. *)
Lemma cull_head_run p t s :
  tasks s !! p = Some t ->
  (forall a, request_of t = Some a -> is_Some (requests s !! a)) ->
  forall rc,
  exists s1 evs,
    cull_task rc p s = Ok s1 /\
    log s1 = log s ++ evs /\
    tasks s1 = delete p (tasks s) /\
    msr_deferred_cmds s1 = unlink p <$> msr_deferred_cmds s /\
    (forall a, is_Some (requests s !! a) -> is_Some (requests s1 !! a)) /\
    calls evs = [p] /\
    Forall (culled (tasks s) rc) evs.
Proof.
  intros Hp Hreq rc. unfold cull_task. rewrite Hp. simpl.
  destruct (free_task_msgid_log p t) as (fr & Hfc & _ & Hfl).
  assert (Hfr : Forall (culled (tasks s) rc) fr).
  { clear -Hfl. unfold free_task_msgid in Hfl.
    destruct (wt_event2 t) as [k|].
    - specialize (Hfl (Server ∅ ∅ [] ∅ ∅ 0 [])). simpl in Hfl.
      subst fr. by repeat constructor.
    - specialize (Hfl (Server ∅ ∅ [] ∅ ∅ 0 [])). simpl in Hfl.
      subst fr. constructor. }
  destruct (request_of t) as [a|] eqn:Ha.
  - destruct (Hreq a eq_refl) as [r Hr].
    erewrite update_request_Ok by exact Hr. simpl.
    erewrite update_task_Ok by (simpl; exact Hp). simpl.
    match goal with |- context [free_task_msgid p t ?S] =>
      pose proof (free_task_msgid_rest p t S) as (Hft & Hfq & Hfe & Hfd);
      pose proof (Hfl S) as HflS
    end.
    erewrite dispatch_task_Ok
      by (rewrite Hft; simpl; apply lookup_insert_eq).
    eexists _, _. split; [reflexivity|]. simpl.
    rewrite HflS, Hft, Hfq, Hfd. simpl.
    rewrite <- !app_assoc. split; [reflexivity|].
    split; [by rewrite delete_insert_eq|]. split; [reflexivity|].
    split.
    { intros a' Ha'. destruct (decide (a = a')) as [->|Hne].
      - rewrite lookup_insert_eq. by eexists.
      - by rewrite lookup_insert_ne. }
    rewrite calls_app, Hfc. split; [reflexivity|].
    apply Forall_app. split; [exact Hfr|].
    constructor; [|constructor]. simpl.
    exists t. repeat (split; [done|]).
    intros a' Ha'. assert (a' = a) as -> by congruence.
    eexists. rewrite lookup_insert_eq. done.
  - simpl.
    erewrite update_task_Ok by exact Hp. simpl.
    match goal with |- context [free_task_msgid p t ?S] =>
      pose proof (free_task_msgid_rest p t S) as (Hft & Hfq & Hfe & Hfd);
      pose proof (Hfl S) as HflS
    end.
    erewrite dispatch_task_Ok
      by (rewrite Hft; simpl; apply lookup_insert_eq).
    eexists _, _. split; [reflexivity|]. simpl.
    rewrite HflS, Hft, Hfq, Hfd. simpl.
    rewrite <- !app_assoc. split; [reflexivity|].
    split; [by rewrite delete_insert_eq|]. split; [reflexivity|].
    split; [done|].
    rewrite calls_app, Hfc. split; [reflexivity|].
    apply Forall_app. split; [exact Hfr|].
    constructor; [|constructor]. simpl.
    exists t. repeat (split; [done|]). intros a' Ha'. congruence.
Qed.

Lemma cull_pending_run rc pmom l :
  forall fuel s,
    list_of (msr_deferred_cmds s) pmom = l ->
    NoDup l ->
    tasks_allocated s l ->
    (length l <= fuel)%nat ->
    exists s' evs,
      cull_pending fuel rc pmom s = Ok s' /\
      log s' = log s ++ evs /\
      list_of (msr_deferred_cmds s') pmom = [] /\
      calls evs = l /\
      Forall (culled (tasks s) rc) evs.
Proof.
  induction l as [|p rest IH]; intros fuel s Hl Hnd Hall Hfuel.
  - exists s, []. destruct fuel; simpl; rewrite Hl, app_nil_r; done.
  - destruct fuel as [|fuel]; [simpl in Hfuel; lia|].
    apply NoDup_cons in Hnd as [Hp_rest Hnd].
    destruct (Hall p) as (t & Hp & Hreq); [apply list_elem_of_here|].
    destruct (cull_head_run p t s Hp Hreq rc)
      as (s1 & evs1 & Hrun & Hlog1 & Hts1 & Hd1 & Hrq1 & Hc1 & Hf1).
    simpl. rewrite Hl, Hrun. simpl.
    destruct (IH fuel s1) as (s' & evs & Hrun' & Hlog' & Hnil & Hc & Hf).
    + rewrite Hd1, list_of_unlink, Hl. by apply unlink_head.
    + exact Hnd.
    + intros q Hq. destruct (Hall q) as (tq & Htq & Hrq);
        [by apply list_elem_of_further|].
      exists tq. split.
      * rewrite Hts1. rewrite lookup_delete_ne; [done|].
        intros ->. contradiction.
      * intros a Ha. apply Hrq1. by apply Hrq.
    + simpl in Hfuel. lia.
    + exists s', (evs1 ++ evs). split; [exact Hrun'|].
      split; [by rewrite Hlog', Hlog1, app_assoc|].
      split; [exact Hnil|].
      split; [by rewrite calls_app, Hc1, Hc|].
      apply Forall_app. split; [exact Hf1|].
      eapply Forall_impl; [exact Hf|]. intros e.
      apply culled_weaken. intros q tq. rewrite Hts1.
      rewrite lookup_delete_Some. tauto.
Qed.

(** C2. When the identifier cannot be read from the stream of a known
    peer ([disrst] yields no identifier or a nonzero code [rc]), every
    task of the peer's deferred list has its function called exactly
    once, in list order and with [wt_aux] = PBSE_NORELYMOM; the reply of
    each request so carried has code [rc] and the null choice at that
    call; and the deferred list is empty afterwards. *)
Theorem broken_stream_fails_all fuel handle pmom msgid rc s :
  streams G !! handle = Some pmom ->
  disrst E = (msgid, rc) ->
  msgid = None \/ rc <> 0 ->
  NoDup (list_of (msr_deferred_cmds s) pmom) ->
  tasks_allocated s (list_of (msr_deferred_cmds s) pmom) ->
  (length (list_of (msr_deferred_cmds s) pmom) <= fuel)%nat ->
  exists s' evs,
    process_DreplyTPP G E fuel handle s = Ok s' /\
    log s' = log s ++ evs /\
    list_of (msr_deferred_cmds s') pmom = [] /\
    calls evs = list_of (msr_deferred_cmds s) pmom /\
    Forall (culled (tasks s) rc) evs.
Proof.
  intros Hst Hrd Hbroken Hnd Hall Hfuel.
  destruct (cull_pending_run rc pmom (list_of (msr_deferred_cmds s) pmom)
              fuel (emit (EvDisFuncs true) s))
    as (s' & evs & Hrun & Hlog & Hnil & Hc & Hf); try done.
  exists s', (EvDisFuncs true :: evs).
  split.
  - unfold process_DreplyTPP. rewrite Hst, Hrd.
    destruct msgid as [k|]; [|exact Hrun].
    destruct Hbroken as [|Hrc]; [done|].
    destruct rc; [done|exact Hrun|exact Hrun].
  - split; [by rewrite Hlog; simpl; rewrite <- app_assoc|].
    split; [exact Hnil|]. split; [exact Hc|].
    constructor; [exact I|exact Hf].
Qed.

End Correlator.

Section Fields.

(** The helpers that only touch [pbs_errno] or the log. *)

Lemma set_errno_opt_tasks e s : tasks (set_errno_opt e s) = tasks s.
Proof. by destruct e. Qed.

Lemma set_errno_opt_requests e s :
  requests (set_errno_opt e s) = requests s.
Proof. by destruct e. Qed.

Lemma set_errno_opt_events e s :
  task_list_event (set_errno_opt e s) = task_list_event s.
Proof. by destruct e. Qed.

Lemma set_errno_opt_deferred e s :
  msr_deferred_cmds (set_errno_opt e s) = msr_deferred_cmds s.
Proof. by destruct e. Qed.

Lemma set_errno_opt_svrtask e s :
  ji_svrtask (set_errno_opt e s) = ji_svrtask s.
Proof. by destruct e. Qed.

Lemma set_errno_opt_log e s : log (set_errno_opt e s) = log s.
Proof. by destruct e. Qed.

Lemma free_sent_msgid_tasks m s : tasks (free_sent_msgid m s) = tasks s.
Proof. by destruct m. Qed.

Lemma free_sent_msgid_requests m s :
  requests (free_sent_msgid m s) = requests s.
Proof. by destruct m. Qed.

Lemma free_sent_msgid_events m s :
  task_list_event (free_sent_msgid m s) = task_list_event s.
Proof. by destruct m. Qed.

Lemma free_sent_msgid_deferred m s :
  msr_deferred_cmds (free_sent_msgid m s) = msr_deferred_cmds s.
Proof. by destruct m. Qed.

Lemma free_sent_msgid_svrtask m s :
  ji_svrtask (free_sent_msgid m s) = ji_svrtask s.
Proof. by destruct m. Qed.

Lemma free_sent_msgid_errno m s :
  pbs_errno (free_sent_msgid m s) = pbs_errno s.
Proof. by destruct m. Qed.

Lemma free_sent_msgid_log k s :
  EvFree (BufSentMsgid k) ∈ log (free_sent_msgid (Some k) s).
Proof. simpl. apply elem_of_app. right. apply list_elem_of_here. Qed.

End Fields.

Create Rewrite HintDb fields.

#[global] Hint Rewrite set_errno_opt_tasks set_errno_opt_requests
  set_errno_opt_events set_errno_opt_deferred set_errno_opt_svrtask
  set_errno_opt_log
  free_sent_msgid_tasks free_sent_msgid_requests free_sent_msgid_events
  free_sent_msgid_deferred free_sent_msgid_svrtask free_sent_msgid_errno
  : fields.

Ltac fields :=
  repeat progress (unfold encoders_set_errno; autorewrite with fields; simpl).

(** One step of the outcome monad, and nothing else. *)
Ltac run := cbn [mbind outcome_bind mret outcome_ret deref].


Section Dispatcher.

Context {K : pbs_consts}.
Variable G : globals.
Variable E : extern.

Lemma fresh_task_unallocated s : tasks s !! fresh (dom (tasks s)) = None.
Proof. apply not_elem_of_dom, is_fresh. Qed.

Lemma list_of_unlink_not_in p (d : gmap nat (list addr)) m :
  p ∉ list_of (unlink p <$> d) m.
Proof.
  unfold list_of. rewrite lookup_fmap.
  destruct (d !! m); simpl; [apply unlink_not_in|apply not_elem_of_nil].
Qed.

(** C3. On a connection that is not the local one, when the task has
    been created and the encoding of the request's kind ends with a
    nonzero code [rc] (from an encoder or from the final flush alike:
    [encode_request] yields the first nonzero code of the sequence),
    [issue_Drequest] returns [rc], stores nothing in [*ppwt], frees the
    message identifier if one was reserved, and deletes the task: the
    store of tasks is as before the call and the task is on no list. *)
Theorem failed_send_discards_task conn request func ppwt prot s r rc
    msgid :
  conn <> PBS_LOCAL_CONNECTION ->
  set_task_ok E = true ->
  requests s !! request = Some r ->
  encode_request E prot (rq_type r) = Some (rc, msgid) ->
  rc <> 0 ->
  exists s',
    issue_Drequest E conn request func ppwt prot s = Ok (rc, None, s') /\
    let ptask := fresh (dom (tasks s)) in
    tasks s' = tasks s /\
    (ptask ∉ task_list_event s') /\
    (forall m, ptask ∉ list_of (msr_deferred_cmds s') m) /\
    (forall j, ptask ∉ list_of (ji_svrtask s') j) /\
    (forall k, msgid = Some k -> EvFree (BufSentMsgid k) ∈ log s').
Proof.
  intros Hconn Hok Hr Henc Hrc. unfold issue_Drequest.
  erewrite update_request_Ok by exact Hr. simpl.
  erewrite update_request_Ok by (simpl; apply lookup_insert_eq). simpl.
  rewrite Hok. simpl.
  rewrite (bool_decide_eq_false_2 _ Hconn). simpl.
  destruct (bool_decide (prot = PROT_TPP)) eqn:Htpp; simpl;
    rewrite lookup_insert_eq; simpl; rewrite Henc; simpl;
    rewrite (proj2 (Z.eqb_neq rc 0) Hrc); simpl;
    (erewrite delete_task_Ok by (fields; apply lookup_insert_eq));
    simpl; (eexists; split; [reflexivity|]); fields.
  all: split; [rewrite delete_insert_eq;
               apply delete_id, fresh_task_unallocated|].
  all: split; [apply unlink_not_in|].
  all: split; [intros m; apply list_of_unlink_not_in|].
  all: split; [intros j; apply list_of_unlink_not_in|].
  all: intros k ->; apply free_sent_msgid_log.
Qed.

(** The flush is one more step of the encoding: when every earlier step
    returns zero, the code of the sequence is the code of [dis_flush]. *)
Lemma encode_inline_flush tpp k :
  (tpp = true -> (is_compose_cmd E).1 = 0) ->
  encode_DIS_ReqHdr E = 0 -> encode_DIS_body E k = 0 ->
  encode_DIS_ReqExtend E = 0 ->
  encode_inline E tpp k
  = (dis_flush E, if tpp then (is_compose_cmd E).2 else None).
Proof.
  intros Hc Hh Hb He. unfold encode_inline.
  destruct tpp.
  - destruct (is_compose_cmd E) as [rc m]. simpl in *.
    rewrite (Hc eq_refl), Hh, Hb, He. done.
  - rewrite Hh, Hb, He. done.
Qed.

(** C9.  A stream-keyed task that is created leaves
    the global event list and carries its identifier:
    [add_mom_deferred_list] returns a task that stores [msgid], is not
    on the event list and is the last of the mom's deferred list; and
    [issue_Drequest], when the send over TPP succeeds and the caller
    passed a place for the task ([ppwt] not null), returns through it a
    task that stores the identifier the encoder reserved and is not on
    the event list. *)
Theorem stream_task_leaves_event_list :
  (forall stream minfo func msgid parm1 parm2 s,
      set_task_ok E = true ->
      exists s' t,
        let ptask := fresh (dom (tasks s)) in
        add_mom_deferred_list E stream minfo func msgid parm1 parm2 s
        = Ok (Some ptask, s') /\
        (ptask ∉ task_list_event s') /\
        tasks s' !! ptask = Some t /\
        wt_event2 t = msgid /\
        list_of (msr_deferred_cmds s') minfo
        = list_of (msr_deferred_cmds s) minfo ++ [ptask])
  /\
  (forall conn request func s r msgid,
      conn <> PBS_LOCAL_CONNECTION ->
      set_task_ok E = true ->
      requests s !! request = Some r ->
      encode_request E PROT_TPP (rq_type r) = Some (0, msgid) ->
      exists s' t,
        let ptask := fresh (dom (tasks s)) in
        issue_Drequest E conn request func true PROT_TPP s
        = Ok (0, Some (Some ptask), s') /\
        (ptask ∉ task_list_event s') /\
        tasks s' !! ptask = Some t /\
        wt_event2 t = msgid /\
        wt_aux2 t = PROT_TPP).
Proof.
  split.
  - intros stream minfo func msgid parm1 parm2 s Hok.
    unfold add_mom_deferred_list. rewrite Hok. simpl.
    erewrite update_task_Ok by (simpl; apply lookup_insert_eq). simpl.
    erewrite update_task_Ok by (simpl; apply lookup_insert_eq). simpl.
    erewrite update_task_Ok by (simpl; apply lookup_insert_eq). simpl.
    eexists _, _. split; [reflexivity|]. simpl.
    split; [apply unlink_not_in|].
    split; [apply lookup_insert_eq|]. split; [reflexivity|].
    unfold list_of at 1. by rewrite lookup_insert_eq.
  - intros conn request func s r msgid Hconn Hok Hr Henc.
    unfold issue_Drequest.
    erewrite update_request_Ok by exact Hr. simpl.
    erewrite update_request_Ok by (simpl; apply lookup_insert_eq). simpl.
    rewrite Hok. simpl.
    rewrite (bool_decide_eq_false_2 _ Hconn). simpl.
    rewrite bool_decide_eq_true_2 by done. simpl.
    rewrite lookup_insert_eq. simpl. rewrite Henc. simpl.
    erewrite update_task_Ok by (fields; apply lookup_insert_eq). simpl.
    erewrite update_task_Ok by (fields; apply lookup_insert_eq). simpl.
    eexists _, _. split; [reflexivity|]. fields.
    split; [apply unlink_not_in|].
    split; [apply lookup_insert_eq|]. done.
Qed.

(** C10. When the dispatch made by [relay_to_mom2] returns a nonzero
    code and leaves [pbs_errno] at zero, [relay_to_mom2] returns
    PBSE_SYSTEM in its place. *)
Theorem relay_to_mom2_internal_error pjob momaddr momport request func
    ppwt s pmom r s0 rc pwt s1 :
  ipaddrs G !! (momaddr, momport) = Some pmom ->
  0 <= svr_connect E momaddr momport ->
  requests s !! request = Some r ->
  s0 = set_errno 0
         (with_requests <[request := set_rq_orgconn (rq_conn r) r]>
            (emit (EvSvrConnect momaddr momport) s)) ->
  issue_Drequest E (svr_connect E momaddr momport) request func true
                 PROT_TPP s0 = Ok (rc, pwt, s1) ->
  rc <> 0 ->
  pbs_errno s1 = 0 ->
  relay_to_mom2 G E pjob momaddr momport request func ppwt s
  = Ok (PBSE_SYSTEM, (if ppwt then Some pwt else None), s1).
Proof.
  intros Hmom Hconn Hr -> Hrun Hrc Herr. unfold relay_to_mom2.
  rewrite Hmom. rewrite (proj2 (Z.ltb_ge _ _) Hconn). simpl.
  rewrite Hr. simpl.
  erewrite update_request_Ok by (simpl; exact Hr). simpl.
  rewrite Hrun. simpl.
  rewrite (proj2 (Z.eqb_neq rc 0) Hrc). simpl.
  rewrite Herr. done.
Qed.

(** [issue_Drequest] touches no task but the one it creates, and only
    adds to the log. *)
Lemma issue_Drequest_frame conn request func ppwt prot s rc pp s1 :
  issue_Drequest E conn request func ppwt prot s = Ok (rc, pp, s1) ->
  (forall q, is_Some (tasks s !! q) -> tasks s1 !! q = tasks s !! q) /\
  exists evs, log s1 = log s ++ evs.
Proof.
  assert (Hfresh : forall q, is_Some (tasks s !! q) ->
                             fresh (dom (tasks s)) <> q).
  { intros q [t Hq] <-. by rewrite fresh_task_unallocated in Hq. }
  unfold issue_Drequest.
  destruct (requests s !! request) as [r|] eqn:Hr;
    [|unfold update_request; rewrite Hr; discriminate].
  erewrite update_request_Ok by exact Hr. run.
  erewrite update_request_Ok by (simpl; apply lookup_insert_eq). run.
  cbv zeta.
  destruct (bool_decide (conn = PBS_LOCAL_CONNECTION)) eqn:Hloc,
    (bool_decide (prot = PROT_TPP)) eqn:Htpp; cbn [orb].
  all: destruct (set_task_ok E); cbn [negb set_task].
  all: try (intros [= <- <- <-]; fields; split;
            [ intros q Hq; specialize (Hfresh q Hq);
              by rewrite ?lookup_insert_ne by done
            | rewrite <- ?app_assoc; by eexists ]).
  all: match goal with |- context [deref (requests ?S !! ?a)] =>
    replace (requests S !! a)
      with (Some (set_rq_conn conn (set_tppcmd_msgid None r)))
      by (fields; by rewrite lookup_insert_eq)
  end.
  all: run; cbn [rq_type set_rq_conn set_tppcmd_msgid].
  all: destruct (encode_request E _ (rq_type r)) as [[rc0 msgid]|]; run;
    [ destruct (rc0 =? 0) eqn:Hrc; cbn [negb];
      [ destruct ppwt
      | (erewrite delete_task_Ok by (fields; apply lookup_insert_eq)); run ]
    | (erewrite delete_task_Ok by (fields; apply lookup_insert_eq)); run;
      cbn [Z.eqb negb];
      rewrite delete_task_Undefined by (fields; apply lookup_delete_eq);
      discriminate ].
  all: repeat (erewrite update_task_Ok
                 by (fields; apply lookup_insert_eq); run).
  all: intros [= <- <- <-]; fields.
  all: split;
    [ intros q Hq; specialize (Hfresh q Hq);
      by rewrite ?lookup_delete_ne, ?lookup_insert_ne by done | ].
  all: repeat match goal with o : option string |- _ => destruct o end.
  all: fields; rewrite <- ?app_assoc.
  all: first [ by exists []; rewrite app_nil_r | by eexists ].
Qed.

Lemma issue_to_svr_frame servern preq replyfunc s rc s1 :
  issue_to_svr G E servern preq replyfunc s = Ok (rc, s1) ->
  (forall q, is_Some (tasks s !! q) -> tasks s1 !! q = tasks s !! q) /\
  exists evs,
    log s1
    = log s
      ++ EvGetHostaddr
           (failover_redirect G (parse_servername E servern).1) :: evs.
Proof.
  assert (Hfresh : forall q, is_Some (tasks s !! q) ->
                             fresh (dom (tasks s)) <> q).
  { intros q [t Hq] <-. by rewrite fresh_task_unallocated in Hq. }
  unfold issue_to_svr, update_request, update_task.
  destruct (requests s !! preq) as [r|] eqn:Hr; simpl; [|discriminate].
  destruct (parse_servername E servern) as [name newport]. simpl.
  destruct (get_hostaddr E (failover_redirect G name)) as [svraddr err].
  destruct (svraddr =? 0).
  - repeat (progress (fields; rewrite ?lookup_insert_eq)
            || (case_match; simpl; try discriminate)).
    all: intros [= <- <-]; fields.
    all: split;
      [ intros q Hq; specialize (Hfresh q Hq);
        by rewrite ?lookup_insert_ne by done | by eexists ].
  - destruct (0 <=? svr_connect E svraddr
                      (default (pbs_server_port_dis G) newport)).
    + match goal with |- context [issue_Drequest ?e ?c ?a ?f ?b ?p ?s0] =>
        destruct (issue_Drequest e c a f b p s0)
          as [[[rc' pp] s2]| |] eqn:Hrun
      end; simpl; try discriminate.
      intros [= <- <-].
      apply issue_Drequest_frame in Hrun as [Hfr [evs Hlog]].
      revert Hfr Hlog. fields. intros Hfr Hlog. split; [exact Hfr|].
      rewrite Hlog, <- !app_assoc. by eexists.
    + repeat (progress (fields; rewrite ?lookup_insert_eq)
              || (case_match; simpl; try discriminate)).
      all: intros [= <- <-]; fields.
      all: split;
        [ intros q Hq; specialize (Hfresh q Hq);
          by rewrite ?lookup_insert_ne by done
        | rewrite <- ?app_assoc; by eexists ].
Qed.

(** C4. When the resolution of the name or the connection fails with
    PBS_NET_RC_RETRY, [issue_to_svr] (given a task by [set_task])
    returns 0 and the store holds one more task: of type WORK_Timed, due
    at [time_now + 2 * PBS_NET_RETRY_TIME], with function
    [reissue_to_svr], the request as first and the reply function as
    second parameter.  When it fails with any other code, [issue_to_svr]
    returns -1 and creates no task. *)
Theorem issue_to_svr_retry_or_fail servern preq replyfunc s r :
  requests s !! preq = Some r ->
  (fails_transiently G E servern s ->
   set_task_ok E = true ->
   exists s' t,
     let pwt := fresh (dom (tasks s)) in
     issue_to_svr G E servern preq replyfunc s = Ok (0, s') /\
     tasks s' = <[pwt := t]> (tasks s) /\
     task_list_event s' = task_list_event s ++ [pwt] /\
     wt_type t = WORK_Timed /\
     wt_event t = time_now G + 2 * PBS_NET_RETRY_TIME /\
     wt_func t = fn_reissue_to_svr /\
     wt_parm1 t = Some preq /\
     wt_parm2 t = PFun replyfunc)
  /\
  (fails_permanently G E servern s ->
   exists s',
     issue_to_svr G E servern preq replyfunc s = Ok (-1, s') /\
     tasks s' = tasks s /\
     task_list_event s' = task_list_event s).
Proof.
  intros Hr.
  unfold fails_transiently, fails_permanently, connect_handle,
    errno_after_resolve, resolved_addr, resolved_name.
  unfold issue_to_svr. erewrite update_request_Ok by exact Hr. simpl.
  destruct (parse_servername E servern) as [name newport]. simpl.
  destruct (get_hostaddr E (failover_redirect G name)) as [svraddr err].
  simpl. split.
  - intros Htr Hok. rewrite Hok. simpl.
    destruct Htr as [[Ha He]|(Ha & Hneg & Hh)].
    + rewrite Ha. simpl.
      replace (pbs_errno _ =? PBS_NET_RC_RETRY) with true
        by (symmetry; apply Z.eqb_eq; rewrite <- He; by destruct err).
      erewrite update_task_Ok by (fields; apply lookup_insert_eq).
      simpl. eexists _, _. split; [reflexivity|]. fields.
      by rewrite insert_insert_eq.
    + rewrite (proj2 (Z.eqb_neq _ _) Ha).
      rewrite (proj2 (Z.leb_gt _ _) Hneg).
      rewrite (proj2 (Z.eqb_eq _ _) Hh).
      erewrite update_task_Ok by (fields; apply lookup_insert_eq).
      simpl. eexists _, _. split; [reflexivity|]. fields.
      by rewrite insert_insert_eq.
  - intros [[Ha He]|(Ha & Hneg & Hh)].
    + rewrite Ha. simpl.
      replace (pbs_errno _ =? PBS_NET_RC_RETRY) with false.
      * eexists. split; [reflexivity|]. by fields.
      * symmetry. apply Z.eqb_neq. intros Heq. apply He. rewrite <- Heq.
        by destruct err.
    + rewrite (proj2 (Z.eqb_neq _ _) Ha).
      rewrite (proj2 (Z.leb_gt _ _) Hneg).
      rewrite (proj2 (Z.eqb_neq _ _) Hh).
      eexists. split; [reflexivity|]. by fields.
Qed.

(** C5. [reissue_to_svr] calls the reply function, on the task with
    [wt_aux] and [wt_event] set to -1, in two cases and in no other:
    when more than PBS_NET_RETRY_LIMIT has passed since [rq_time] (and
    then [issue_to_svr] is not called), and when it has not and the call
    of [issue_to_svr] returns -1.  When that call returns another code,
    [reissue_to_svr] leaves the server as the call left it. *)
Theorem reissue_to_svr_callback pwt s t a preq f :
  tasks s !! pwt = Some t ->
  wt_parm1 t = Some a ->
  requests s !! a = Some preq ->
  wt_parm2 t = PFun f ->
  (PBS_NET_RETRY_LIMIT < time_now G - rq_time preq ->
   exists s',
     reissue_to_svr G E pwt s = Ok s' /\
     log s' = log s ++ [EvCall f pwt (failed_task t) (requests s)] /\
     tasks s' = <[pwt := failed_task t]> (tasks s))
  /\
  (time_now G - rq_time preq <= PBS_NET_RETRY_LIMIT ->
   forall rc s1,
     issue_to_svr G E (rq_host preq) a f s = Ok (rc, s1) ->
     (rc = -1 ->
      exists s',
        reissue_to_svr G E pwt s = Ok s' /\
        log s' = log s1 ++ [EvCall f pwt (failed_task t) (requests s1)] /\
        tasks s' = <[pwt := failed_task t]> (tasks s1))
     /\
     (rc <> -1 -> reissue_to_svr G E pwt s = Ok s1)).
Proof.
  intros Hp Ha Hreq Hf. unfold reissue_to_svr.
  rewrite Hp. simpl. rewrite Ha. simpl. rewrite Hreq. simpl. split.
  - intros Hlate. rewrite (proj2 (Z.ltb_lt _ _) Hlate). simpl.
    erewrite update_task_Ok by exact Hp. simpl.
    erewrite update_task_Ok by (simpl; apply lookup_insert_eq). simpl.
    rewrite lookup_insert_eq. simpl. rewrite Hf. simpl.
    eexists. split; [reflexivity|]. simpl.
    by rewrite insert_insert_eq.
  - intros Hintime rc s1 Hrun.
    rewrite (proj2 (Z.ltb_ge _ _) Hintime). rewrite Hf. simpl.
    rewrite Hrun. simpl.
    apply issue_to_svr_frame in Hrun as [Hframe _].
    assert (Hp1 : tasks s1 !! pwt = Some t)
      by (rewrite Hframe; [exact Hp|by eexists]).
    split.
    + intros ->. simpl.
      erewrite update_task_Ok by exact Hp1. simpl.
      erewrite update_task_Ok by (simpl; apply lookup_insert_eq). simpl.
      rewrite lookup_insert_eq. simpl. rewrite Hf. simpl.
      eexists. split; [reflexivity|]. simpl.
      by rewrite insert_insert_eq.
    + intros Hrc. by rewrite (proj2 (Z.eqb_neq _ _) Hrc).
Qed.

End Dispatcher.

(** ** The failover redirection *)

Section Redirect.

Import CString.

Lemma append_cons c a b : String c a +:+ b = String c (a +:+ b).
Proof. reflexivity. Qed.

Lemma append_empty_r a : a +:+ "" = a.
Proof. induction a as [|c a IH]; [done|]. by rewrite append_cons, IH. Qed.

Lemma get_append_length pre rest :
  String.get (String.length pre) (pre +:+ rest) = String.get 0 rest.
Proof. induction pre as [|c pre IH]; [done|]. exact IH. Qed.

(** [strncasecmp (name, primary, strlen (name)) == 0] says that [name]
    is, letter case apart, the beginning of [primary]. *)
Lemma strncasecmp_prefix name :
  forall primary,
    strncasecmp_is0 name primary (String.length name) = true <->
    exists pre rest,
      primary = pre +:+ rest /\
      String.length pre = String.length name /\
      lower pre = lower name.
Proof.
  induction name as [|c name IH]; intros primary; simpl.
  - split; [|done]. intros _. by exists "", primary.
  - destruct primary as [|c2 primary].
    + split; [done|]. intros (pre & rest & Happ & Hlen & _).
      destruct pre; simpl in *; discriminate.
    + rewrite andb_true_iff, Ascii.eqb_eq, IH. split.
      * intros (Hc & pre & rest & -> & Hlen & Hlow).
        exists (String c2 pre), rest. simpl.
        rewrite Hlen, Hlow, Hc. done.
      * intros (pre & rest & Happ & Hlen & Hlow).
        destruct pre as [|c3 pre]; simpl in *; [discriminate|].
        rewrite append_cons in Happ.
        injection Happ as -> ->. injection Hlow as Hc Hlow.
        split; [done|]. exists pre, rest.
        split; [done|]. split; [congruence|done].
Qed.

(** [primary[strlen (pre)]] is the terminator or a dot. *)
Lemma ends_or_dot_after pre rest :
  ends_or_dot_at (pre +:+ rest) (String.length pre) = true <->
  rest = "" \/ exists rest', rest = String "."%char rest'.
Proof.
  unfold ends_or_dot_at. rewrite get_append_length.
  destruct rest as [|c rest]; simpl.
  - rewrite append_empty_r, Nat.eqb_refl. tauto.
  - rewrite Ascii.eqb_eq. split.
    + intros ->. right. by eexists.
    + intros [|[rest' [= -> _]]]; done.
Qed.

Lemma redirect_test name primary :
  strncasecmp_is0 name primary (String.length name)
  && ends_or_dot_at primary (String.length name) = true
  <-> names_primary name primary.
Proof.
  rewrite andb_true_iff, strncasecmp_prefix. unfold names_primary. split.
  - intros [(pre & rest & -> & Hlen & Hlow) Hend].
    rewrite <- Hlen in Hend. apply ends_or_dot_after in Hend.
    by exists pre, rest.
  - intros (pre & rest & -> & Hlen & Hlow & Hend). split.
    + by exists pre, rest.
    + rewrite <- Hlen. by apply ends_or_dot_after.
Qed.

Context {K : pbs_consts}.
Variable G : globals.
Variable E : extern.

(** C8. While the server is the active one of a failover pair, the name
    [issue_to_svr] hands to [get_hostaddr] is [server_host] when the
    parsed name is, letter case apart, a leading portion of
    [primary_host] that is followed there by the end of the string or by
    a dot, and is the parsed name otherwise. *)
Theorem failover_redirects_primary servern name newport :
  pbs_failover_active G <> 0 ->
  parse_servername E servern = (Some name, newport) ->
  (names_primary name (primary_host G) ->
   resolved_name G E servern = Some (server_host G))
  /\
  (~ names_primary name (primary_host G) ->
   resolved_name G E servern = Some name)
  /\
  (forall preq replyfunc s rc s',
      issue_to_svr G E servern preq replyfunc s = Ok (rc, s') ->
      exists evs,
        log s' = log s ++ EvGetHostaddr (resolved_name G E servern) :: evs).
Proof.
  intros Hact Hparse. unfold resolved_name. rewrite Hparse. simpl.
  rewrite (proj2 (Z.eqb_neq _ _) Hact). simpl.
  destruct (strncasecmp_is0 name (primary_host G) (String.length name)
            && ends_or_dot_at (primary_host G) (String.length name))
    eqn:Htest.
  - apply redirect_test in Htest. split; [done|]. split; [done|].
    intros preq replyfunc s rc s' Hrun.
    apply issue_to_svr_frame in Hrun as [_ [evs Hlog]].
    exists evs. rewrite Hlog, Hparse. simpl.
    rewrite (proj2 (Z.eqb_neq _ _) Hact). simpl.
    apply redirect_test in Htest. by rewrite Htest.
  - assert (Hno : ~ names_primary name (primary_host G)).
    { intros Hn. apply redirect_test in Hn. congruence. }
    split; [done|]. split; [done|].
    intros preq replyfunc s rc s' Hrun.
    apply issue_to_svr_frame in Hrun as [_ [evs Hlog]].
    exists evs. rewrite Hlog, Hparse. simpl.
    rewrite (proj2 (Z.eqb_neq _ _) Hact). simpl. by rewrite Htest.
Qed.

End Redirect.

(** * Further properties of issue_request.c *)

Section DispatcherMore.

Context {K : pbs_consts}.
Variable G : globals.
Variable E : extern.

Lemma fresh_not_allocated s q :
  is_Some (tasks s !! q) -> fresh (dom (tasks s)) <> q.
Proof. intros [t Hq] <-. by rewrite fresh_task_unallocated in Hq. Qed.

Lemma encode_request_listed prot k :
  listed k -> is_Some (encode_request E prot k).
Proof.
  intros Hl. destruct k; simpl; try by eexists.
  by destruct (Hl n).
Qed.


(** X2. [issue_Drequest] accounts for the task it creates.  For a request
    whose kind the switch lists, it returns a code; the request then has
    [rq_conn] = [conn] and no [tppcmd_msgid].  When the code is not zero
    no task is left behind: the store of tasks is as before, and [*ppwt]
    holds no task.  When it is zero, the store holds exactly one more
    task, with the caller's function, the request as [wt_parm1] and the
    connection as [wt_event], and a non-null [ppwt] receives it. *)
Theorem issue_Drequest_accounts_for_task conn request func ppwt prot s r :
  requests s !! request = Some r ->
  listed (rq_type r) ->
  exists rc pp s',
    let ptask := fresh (dom (tasks s)) in
    issue_Drequest E conn request func ppwt prot s = Ok (rc, pp, s') /\
    requests s'
    = <[request := set_rq_conn conn (set_tppcmd_msgid None r)]>
        (requests s) /\
    (rc <> 0 -> tasks s' = tasks s /\ (pp = None \/ pp = Some None)) /\
    (rc = 0 ->
     pp = store_ppwt ppwt (Some ptask) /\
     exists t,
       tasks s' = <[ptask := t]> (tasks s) /\
       wt_func t = func /\ wt_parm1 t = Some request /\
       wt_event t = conn).
Proof.
  intros Hr Hl.
  destruct (encode_request_listed prot _ Hl) as [[rc0 msgid] Henc].
  pose proof (fresh_task_unallocated s) as Hfresh.
  unfold issue_Drequest.
  erewrite update_request_Ok by exact Hr. run.
  erewrite update_request_Ok by (simpl; apply lookup_insert_eq). run.
  cbv zeta.
  destruct (set_task_ok E); cbn [negb].
  2: { eexists _, _, _. split; [reflexivity|].
       destruct (bool_decide (conn = PBS_LOCAL_CONNECTION)),
         (bool_decide (prot = PROT_TPP)); fields.
       all: rewrite insert_insert_eq; (split; [done|]).
       all: split; [|done]; intros _; (split; [done|]).
       all: destruct ppwt; simpl; auto. }
  destruct (bool_decide (conn = PBS_LOCAL_CONNECTION)) eqn:Hloc.
  { cbn [orb set_task].
    eexists _, _, _. split; [reflexivity|]. fields.
    rewrite insert_insert_eq. split; [done|].
    split; [done|]. intros _. split; [done|]. by eexists. }
  destruct (bool_decide (prot = PROT_TPP)) eqn:Htpp; cbn [orb set_task].
  all: match goal with |- context [deref (requests ?S !! ?a)] =>
    replace (requests S !! a)
      with (Some (set_rq_conn conn (set_tppcmd_msgid None r)))
      by (fields; by rewrite lookup_insert_eq)
  end.
  all: run; cbn [rq_type set_rq_conn set_tppcmd_msgid].
  all: rewrite Henc; run.
  all: destruct (rc0 =? 0) eqn:Hrc; cbn [negb];
    [apply Z.eqb_eq in Hrc; subst rc0; destruct ppwt
    |apply Z.eqb_neq in Hrc;
     (erewrite delete_task_Ok by (fields; apply lookup_insert_eq)); run].
  all: repeat (erewrite update_task_Ok
                 by (fields; apply lookup_insert_eq); run).
  all: eexists _, _, _; (split; [reflexivity|]); fields.
  all: rewrite ?insert_insert_eq.
  all: split; [done|].
  all: split; [intros Hne|intros He]; try done.
  all: try (split; [by rewrite delete_insert_eq, delete_id|by auto]).
  all: split; [done|]; by eexists.
Qed.

(** X3. For a request kind that the switch does not list, on a
    connection that is not the local one, [issue_Drequest] deletes the
    task it created in the default case and deletes it once more after
    the switch: the second [delete_task] is applied to released
    storage, and the call has no defined outcome. *)
Theorem issue_Drequest_unlisted_deletes_twice conn request func ppwt prot
    s r n :
  conn <> PBS_LOCAL_CONNECTION ->
  set_task_ok E = true ->
  requests s !! request = Some r ->
  rq_type r = PBS_BATCH_unlisted n ->
  issue_Drequest E conn request func ppwt prot s = Undefined.
Proof.
  intros Hconn Hok Hr Hk. unfold issue_Drequest.
  erewrite update_request_Ok by exact Hr. simpl.
  erewrite update_request_Ok by (simpl; apply lookup_insert_eq). simpl.
  rewrite Hok. simpl.
  rewrite (bool_decide_eq_false_2 _ Hconn). simpl.
  destruct (bool_decide (prot = PROT_TPP)); simpl.
  all: rewrite lookup_insert_eq; simpl; rewrite Hk; simpl.
  all: (erewrite delete_task_Ok by (simpl; apply lookup_insert_eq)); run.
  all: cbn [Z.eqb negb].
  all: rewrite delete_task_Undefined by (simpl; apply lookup_delete_eq).
  all: reflexivity.
Qed.

(** X4. The encoding in place reports success only when every step
    succeeded: its code is zero exactly when [is_compose_cmd] (on TPP),
    the header, the body, the extension and the flush all return zero.
    The identifier it leaves is the one [is_compose_cmd] reserved, and
    none on TCP. *)
Theorem encode_inline_zero_iff tpp k :
  ((encode_inline E tpp k).1 = 0 <->
   (tpp = true -> (is_compose_cmd E).1 = 0) /\
   encode_DIS_ReqHdr E = 0 /\ encode_DIS_body E k = 0 /\
   encode_DIS_ReqExtend E = 0 /\ dis_flush E = 0)
  /\
  (encode_inline E tpp k).2
  = (if tpp then (is_compose_cmd E).2 else None).
Proof.
  unfold encode_inline.
  destruct tpp; [destruct (is_compose_cmd E) as [rc0 m]|]; simpl.
  all: repeat match goal with
         | |- context [negb (?x =? 0)] =>
             let H := fresh "H" in
             destruct (x =? 0) eqn:H; simpl;
             [apply Z.eqb_eq in H|apply Z.eqb_neq in H]
         end.
  all: split; [|reflexivity].
  all: split; [intros Hz|intros (Hc & Hh & Hb & He & Hf)].
  all: try (specialize (Hc eq_refl)).
  all: try congruence.
  all: repeat split; congruence.
Qed.


(** The run of [process_Dreply] that finds task [p] for the socket. *)
Lemma process_Dreply_run sock s pre p post t a r :
  task_list_event s = pre ++ p :: post ->
  all_tasks (tasks s) (fun t => ~ awaits_socket sock t) pre ->
  tasks s !! p = Some t ->
  awaits_socket sock t ->
  wt_parm1 t = Some a ->
  requests s !! a = Some r ->
  exists s',
    process_Dreply E sock s = Ok s' /\
    requests s'
    = <[a := set_rq_reply (reply_after_read E (rq_reply r)) r]>
        (requests s) /\
    log s'
    = log s
      ++ socket_reply_trace sock (DIS_reply_read E (rq_reply r)).1
           (EvCall (wt_func t) p t (requests s')) /\
    tasks s' = delete p (tasks s) /\
    task_list_event s' = unlink p (task_list_event s) /\
    msr_deferred_cmds s' = unlink p <$> msr_deferred_cmds s /\
    ji_svrtask s' = unlink p <$> ji_svrtask s.
Proof.
  intros Hl Hpre Hp Hsock Ha Hr.
  unfold process_Dreply, reply_after_read, socket_reply_trace.
  rewrite Hl.
  erewrite first_task_found; [|
    eapply all_tasks_rejected; [|exact Hpre];
    intros t0 Ht0; simpl; f_equal; by apply socket_test_false
    | exact Hp | simpl; f_equal; by apply socket_test_true ].
  simpl. rewrite Hp. simpl. rewrite Ha. simpl. rewrite Hr. simpl.
  destruct (DIS_reply_read E (rq_reply r)) as [rc0 rep] eqn:Hread.
  simpl. destruct (rc0 =? 0) eqn:Hrc0; simpl.
  - erewrite dispatch_task_Ok by (simpl; exact Hp). simpl.
    eexists. split; [reflexivity|]. simpl.
    rewrite <- !app_assoc. by rewrite Hl.
  - erewrite dispatch_task_Ok by (simpl; exact Hp). simpl.
    eexists. split; [reflexivity|]. simpl.
    rewrite <- !app_assoc. by rewrite Hl.
Qed.

(** X5. [process_Dreply] keeps the time budget and the connection in
    order: when it finds the task of the socket, the long timeout is set
    before the read and the short one is back before the task's function
    is called, whatever the read returns; the connection is closed
    exactly when the read fails; and when the read succeeds the
    request's reply is the structure as read.  The task is called once
    and leaves the store and the event list. *)
Theorem process_Dreply_timeouts_and_close sock s pre p post t a r :
  task_list_event s = pre ++ p :: post ->
  all_tasks (tasks s) (fun t => ~ awaits_socket sock t) pre ->
  tasks s !! p = Some t ->
  awaits_socket sock t ->
  wt_parm1 t = Some a ->
  requests s !! a = Some r ->
  exists s' call,
    process_Dreply E sock s = Ok s' /\
    log s'
    = log s
      ++ socket_reply_trace sock (DIS_reply_read E (rq_reply r)).1 call /\
    calls [call] = [p] /\
    ((DIS_reply_read E (rq_reply r)).1 = 0 ->
     rq_reply <$> requests s' !! a
     = Some (DIS_reply_read E (rq_reply r)).2) /\
    tasks s' !! p = None /\
    (p ∉ task_list_event s').
Proof.
  intros Hl Hpre Hp Hsock Ha Hr.
  destruct (process_Dreply_run sock s pre p post t a r)
    as (s' & Hrun & Hrq & Hlog & Hts & Hev & _); try done.
  exists s', (EvCall (wt_func t) p t (requests s')).
  repeat (split; [done|]). split; [|split].
  - intros Hz. rewrite Hrq, lookup_insert_eq. simpl.
    unfold reply_after_read.
    destruct (DIS_reply_read E (rq_reply r)) as [rc rep]. simpl in *.
    by rewrite Hz.
  - rewrite Hts. apply lookup_delete_eq.
  - rewrite Hev. apply unlink_not_in.
Qed.

Lemma unlink_snoc p l : p ∉ l -> unlink p (l ++ [p]) = l.
Proof.
  intros Hp. unfold unlink. rewrite filter_app.
  rewrite filter_cons_False, filter_nil, app_nil_r by tauto.
  by apply unlink_id.
Qed.

Lemma all_tasks_not_fresh s Q l :
  all_tasks (tasks s) Q l -> fresh (dom (tasks s)) ∉ l.
Proof.
  intros Hall Hin. unfold all_tasks in Hall.
  rewrite Forall_forall in Hall.
  destruct (Hall _ Hin) as (t & Ht & _).
  by rewrite fresh_task_unallocated in Ht.
Qed.

Lemma all_tasks_insert_fresh s Q l t :
  all_tasks (tasks s) Q l ->
  all_tasks (<[fresh (dom (tasks s)) := t]> (tasks s)) Q l.
Proof.
  intros Hall. unfold all_tasks in *.
  eapply Forall_impl; [exact Hall|]. intros q (tq & Hq & HQ).
  exists tq. split; [|done].
  rewrite lookup_insert_ne; [done|].
  apply fresh_not_allocated. by eexists.
Qed.

(** A request sent with success whose task stays on the event list:
    over TCP, or with a null [ppwt]. *)
Lemma issue_Drequest_socket_task conn request func ppwt prot s r msgid :
  conn <> PBS_LOCAL_CONNECTION ->
  set_task_ok E = true ->
  requests s !! request = Some r ->
  encode_request E prot (rq_type r) = Some (0, msgid) ->
  prot <> PROT_TPP \/ ppwt = false ->
  exists pp s1 t1,
    issue_Drequest E conn request func ppwt prot s = Ok (0, pp, s1) /\
    tasks s1 = <[fresh (dom (tasks s)) := t1]> (tasks s) /\
    wt_type t1 = WORK_Deferred_Reply /\
    wt_event t1 = conn /\
    wt_func t1 = func /\
    wt_parm1 t1 = Some request /\
    task_list_event s1 = task_list_event s ++ [fresh (dom (tasks s))] /\
    requests s1
    = <[request := set_rq_conn conn (set_tppcmd_msgid None r)]>
        (requests s) /\
    msr_deferred_cmds s1 = msr_deferred_cmds s /\
    ji_svrtask s1 = ji_svrtask s.
Proof.
  intros Hconn Hok Hr Henc Hstay. unfold issue_Drequest.
  erewrite update_request_Ok by exact Hr. simpl.
  erewrite update_request_Ok by (simpl; apply lookup_insert_eq). simpl.
  rewrite Hok. simpl.
  rewrite (bool_decide_eq_false_2 _ Hconn). simpl.
  destruct (bool_decide (prot = PROT_TPP)) eqn:Htpp; simpl;
    rewrite lookup_insert_eq; simpl; rewrite Henc; simpl.
  - apply bool_decide_eq_true in Htpp.
    destruct Hstay as [Hn| ->]; [done|].
    eexists _, _, _. split; [reflexivity|]. fields.
    by rewrite insert_insert_eq.
  - destruct ppwt; simpl.
    + erewrite update_task_Ok by (fields; apply lookup_insert_eq).
      simpl. eexists _, _, _. split; [reflexivity|]. fields.
      by rewrite !insert_insert_eq.
    + eexists _, _, _. split; [reflexivity|]. fields.
      by rewrite insert_insert_eq.
Qed.

(** X6. A request sent over a socket is completed by the reply on that
    socket.  When [issue_Drequest] sends the request with success and
    over TCP, which leaves its task on the event list, and no
    older task of the list waits on the same socket, the next
    [process_Dreply] on the socket calls the caller's function on that
    task, once, with the request's reply as the read left it; afterwards
    the store of tasks and the event list are as before the request. *)
Theorem socket_round_trip conn request func ppwt prot s r msgid :
  conn <> PBS_LOCAL_CONNECTION ->
  set_task_ok E = true ->
  requests s !! request = Some r ->
  encode_request E prot (rq_type r) = Some (0, msgid) ->
  prot <> PROT_TPP ->
  all_tasks (tasks s) (fun t => ~ awaits_socket conn t)
            (task_list_event s) ->
  exists pp s1 s2 t,
    let ptask := fresh (dom (tasks s)) in
    issue_Drequest E conn request func ppwt prot s = Ok (0, pp, s1) /\
    process_Dreply E conn s1 = Ok s2 /\
    log s2
    = log s1
      ++ socket_reply_trace conn (DIS_reply_read E (rq_reply r)).1
           (EvCall func ptask t (requests s2)) /\
    wt_parm1 t = Some request /\
    rq_reply <$> requests s2 !! request
    = Some (reply_after_read E (rq_reply r)) /\
    tasks s2 = tasks s /\
    task_list_event s2 = task_list_event s.
Proof.
  intros Hconn Hok Hr Henc Hstay Hall.
  destruct (issue_Drequest_socket_task conn request func ppwt prot s r
              msgid)
    as (pp & s1 & t1 & Hrun & Hts & Hty & Hev & Hfn & Hp1 & Hl & Hrq & _);
    try done; [by left|].
  destruct (process_Dreply_run conn s1 (task_list_event s)
              (fresh (dom (tasks s))) [] t1 request
              (set_rq_conn conn (set_tppcmd_msgid None r)))
    as (s2 & Hrun2 & Hrq2 & Hlog2 & Hts2 & Hev2 & _).
  - exact Hl.
  - rewrite Hts. by apply all_tasks_insert_fresh.
  - rewrite Hts. apply lookup_insert_eq.
  - by split.
  - exact Hp1.
  - rewrite Hrq. apply lookup_insert_eq.
  - exists pp, s1, s2, t1. simpl in *.
    split; [exact Hrun|]. split; [exact Hrun2|].
    split; [by rewrite Hlog2, Hfn|]. split; [exact Hp1|].
    split; [by rewrite Hrq2, lookup_insert_eq|].
    split.
    + rewrite Hts2, Hts, delete_insert_eq.
      apply delete_id, fresh_task_unallocated.
    + rewrite Hev2, Hl. apply unlink_snoc.
      by eapply all_tasks_not_fresh.
Qed.

(** A request sent with success over TPP by a caller that passes
    [ppwt]: the task stores the id, and leaves the event list. *)
Lemma issue_Drequest_tpp_task conn request func s r msgid :
  conn <> PBS_LOCAL_CONNECTION ->
  set_task_ok E = true ->
  requests s !! request = Some r ->
  encode_request E PROT_TPP (rq_type r) = Some (0, msgid) ->
  exists s1,
    let p := fresh (dom (tasks s)) in
    issue_Drequest E conn request func true PROT_TPP s
    = Ok (0, Some (Some p), s1) /\
    tasks s1
    = <[p := set_wt_aux2 PROT_TPP
               (set_wt_event2 msgid
                  (new_task WORK_Deferred_Reply conn func
                     (Some request)))]> (tasks s) /\
    task_list_event s1 = unlink p (task_list_event s ++ [p]) /\
    requests s1
    = <[request := set_rq_conn conn (set_tppcmd_msgid None r)]>
        (requests s) /\
    msr_deferred_cmds s1 = msr_deferred_cmds s /\
    ji_svrtask s1 = ji_svrtask s /\
    log s1 = log s ++ [EvTppAddCloseFunc conn].
Proof.
  intros Hconn Hok Hr Henc. unfold issue_Drequest.
  erewrite update_request_Ok by exact Hr. run.
  erewrite update_request_Ok by (simpl; apply lookup_insert_eq). run.
  cbv zeta. rewrite Hok. cbn [negb set_task].
  rewrite (bool_decide_eq_false_2 _ Hconn).
  rewrite (bool_decide_eq_true_2 (PROT_TPP = PROT_TPP)) by done.
  cbn [orb].
  match goal with |- context [deref (requests ?S !! ?a)] =>
    replace (requests S !! a)
      with (Some (set_rq_conn conn (set_tppcmd_msgid None r)))
      by (fields; by rewrite lookup_insert_eq)
  end.
  run. cbn [rq_type set_rq_conn set_tppcmd_msgid].
  rewrite Henc. run. cbn [Z.eqb negb].
  repeat (erewrite update_task_Ok
            by (fields; apply lookup_insert_eq); run).
  eexists. split; [reflexivity|]. fields.
  by rewrite !insert_insert_eq.
Qed.

Lemma unlink_fresh_snoc p l : unlink p (l ++ [p]) = unlink p l.
Proof.
  unfold unlink. rewrite filter_app, filter_cons_False by (by intros ?).
  by rewrite filter_nil, app_nil_r.
Qed.

(** The run of [relay_to_mom2] that sends the request. *)
Lemma relay_to_mom2_run pjob momaddr momport pmom request func ppwt s r
    msgid :
  let conn := svr_connect E momaddr momport in
  let p := fresh (dom (tasks s)) in
  ipaddrs G !! (momaddr, momport) = Some pmom ->
  0 <= conn ->
  conn <> PBS_LOCAL_CONNECTION ->
  set_task_ok E = true ->
  requests s !! request = Some r ->
  encode_request E PROT_TPP (rq_type r) = Some (0, msgid) ->
  exists s',
    relay_to_mom2 G E pjob momaddr momport request func ppwt s
    = Ok (0, (if ppwt then Some (Some (Some p)) else None), s') /\
    tasks s'
    = <[p := set_wt_aux2 PROT_TPP
               (set_wt_event2 msgid
                  (new_task WORK_Deferred_Reply conn func
                     (Some request)))]> (tasks s) /\
    task_list_event s' = unlink p (task_list_event s) /\
    requests s'
    = <[request := set_rq_conn conn
                     (set_tppcmd_msgid None
                        (set_rq_orgconn (rq_conn r) r))]> (requests s) /\
    msr_deferred_cmds s'
    = (if bool_decide (func = fn_release_req) then msr_deferred_cmds s
       else <[pmom := list_of (msr_deferred_cmds s) pmom ++ [p]]>
              (msr_deferred_cmds s)) /\
    ji_svrtask s'
    = (if bool_decide (func = fn_release_req) then ji_svrtask s
       else <[pjob := list_of (ji_svrtask s) pjob ++ [p]]>
              (ji_svrtask s)) /\
    log s'
    = log s ++ [EvSvrConnect momaddr momport; EvTppAddCloseFunc conn].
Proof.
  intros conn p Hmom Hconn Hloc Hok Hr Henc. unfold relay_to_mom2.
  rewrite Hmom. fold conn. rewrite (proj2 (Z.ltb_ge _ _) Hconn).
  cbv zeta.
  replace (requests (emit (EvSvrConnect momaddr momport) s) !! request)
    with (Some r) by done.
  run.
  erewrite update_request_Ok by (simpl; exact Hr). run.
  match goal with |- context [issue_Drequest E conn request func true
                                PROT_TPP ?S] =>
    destruct (issue_Drequest_tpp_task conn request func S
                (set_rq_orgconn (rq_conn r) r) msgid Hloc Hok)
      as (s1 & Hrun & Hts & Hel & Hrq & Hd & Hj & Hlg);
      [ simpl; apply lookup_insert_eq | exact Henc | ]
  end.
  cbv zeta in Hrun. simpl in Hrun, Hts, Hel, Hrq, Hd, Hj, Hlg.
  fold p in Hrun, Hts, Hel. rewrite Hrun. run. cbn [Z.eqb andb negb].
  rewrite unlink_fresh_snoc in Hel. rewrite insert_insert_eq in Hrq.
  destruct (bool_decide (func = fn_release_req)); cbn [negb]; run.
  - eexists. split; [reflexivity|]. rewrite Hlg, <- app_assoc. done.
  - eexists. split; [reflexivity|]. simpl.
    rewrite Hlg, <- app_assoc, Hd, Hj. done.
Qed.

Lemma fresh_on_no_list s :
  lists_allocated s ->
  (fresh (dom (tasks s)) ∉ task_list_event s) /\
  (forall m, fresh (dom (tasks s)) ∉ list_of (msr_deferred_cmds s) m) /\
  (forall j, fresh (dom (tasks s)) ∉ list_of (ji_svrtask s) j).
Proof.
  intros (He & Hm & Hj).
  split; [|split]; [intros Hin|intros m Hin|intros j Hin].
  - destruct (He _ Hin) as [t Ht].
    by rewrite fresh_task_unallocated in Ht.
  - destruct (Hm _ _ Hin) as [t Ht].
    by rewrite fresh_task_unallocated in Ht.
  - destruct (Hj _ _ Hin) as [t Ht].
    by rewrite fresh_task_unallocated in Ht.
Qed.

Lemma list_of_insert (d : gmap nat (list addr)) m l m' :
  list_of (<[m := l]> d) m'
  = if bool_decide (m' = m) then l else list_of d m'.
Proof.
  unfold list_of. case_bool_decide as Hm.
  - subst. by rewrite lookup_insert_eq.
  - by rewrite lookup_insert_ne.
Qed.

(** A task linked at the end of list [m] and unlinked again. *)
Lemma list_of_link_unlink p (d : gmap nat (list addr)) m m' :
  p ∉ list_of d m' ->
  list_of (unlink p <$> <[m := list_of d m ++ [p]]> d) m' = list_of d m'.
Proof.
  intros Hp. rewrite list_of_unlink, list_of_insert.
  case_bool_decide as Hm.
  - subst. by apply unlink_snoc.
  - by apply unlink_id.
Qed.

Lemma calls_snoc_other l e :
  (forall f p t rq, e <> EvCall f p t rq) -> calls (l ++ [e]) = calls l.
Proof.
  intros He. rewrite calls_app. destruct e; simpl; try by rewrite app_nil_r.
  by destruct (He f p t rq).
Qed.

(** The run of [process_DreplyTPP] that finds no task for the id. *)
Lemma tpp_orphan_run fuel handle pmom k s :
  streams G !! handle = Some pmom ->
  disrst E = (Some k, 0) ->
  all_tasks (tasks s) (stores_other_id k)
    (list_of (msr_deferred_cmds s) pmom) ->
  process_DreplyTPP G E fuel handle s
  = Ok (emit (EvFree (BufRecvMsgid k)) (emit (EvDisFuncs true) s)).
Proof.
  intros Hst Hrd Hall. unfold process_DreplyTPP.
  rewrite Hst, Hrd. cbv zeta.
  replace (tasks (emit (EvDisFuncs true) s)) with (tasks s) by done.
  replace (msr_deferred_cmds (emit (EvDisFuncs true) s))
    with (msr_deferred_cmds s) by done.
  erewrite first_task_none; [done|].
  eapply all_tasks_rejected; [|exact Hall].
  intros; by apply msgid_matches_other.
Qed.

(** X7. [relay_to_mom2] links the task of a sent request where the
    reply will look for it.  When the mom is known, the connection is
    made, and the request is sent with success for a caller whose
    function is not [release_req], the call returns 0; the new task
    stores the id of the message and the TPP protocol, is the last of
    the mom's deferred list and of the job's task list, and is not on
    the event list; the request remembers the client's connection in
    [rq_orgconn] and has the mom's connection in [rq_conn]. *)
Theorem relay_to_mom2_links_task pjob momaddr momport pmom request func
    ppwt s r msgid :
  let conn := svr_connect E momaddr momport in
  let p := fresh (dom (tasks s)) in
  ipaddrs G !! (momaddr, momport) = Some pmom ->
  0 <= conn ->
  conn <> PBS_LOCAL_CONNECTION ->
  set_task_ok E = true ->
  requests s !! request = Some r ->
  encode_request E PROT_TPP (rq_type r) = Some (0, msgid) ->
  func <> fn_release_req ->
  exists s' t r',
    relay_to_mom2 G E pjob momaddr momport request func ppwt s
    = Ok (0, (if ppwt then Some (Some (Some p)) else None), s') /\
    tasks s' = <[p := t]> (tasks s) /\
    wt_func t = func /\ wt_parm1 t = Some request /\
    wt_event t = conn /\ wt_event2 t = msgid /\ wt_aux2 t = PROT_TPP /\
    list_of (msr_deferred_cmds s') pmom
    = list_of (msr_deferred_cmds s) pmom ++ [p] /\
    list_of (ji_svrtask s') pjob = list_of (ji_svrtask s) pjob ++ [p] /\
    (p ∉ task_list_event s') /\
    requests s' !! request = Some r' /\
    rq_orgconn r' = rq_conn r /\ rq_conn r' = conn.
Proof.
  intros conn p Hmom Hconn Hloc Hok Hr Henc Hf.
  destruct (relay_to_mom2_run pjob momaddr momport pmom request func ppwt
              s r msgid Hmom Hconn Hloc Hok Hr Henc)
    as (s' & Hrun & Hts & Hel & Hrq & Hd & Hj & Hlg).
  rewrite (bool_decide_eq_false_2 _ Hf) in Hd, Hj.
  eexists s', _, _. split; [exact Hrun|]. split; [exact Hts|].
  rewrite Hd, Hj, Hel, Hrq, !list_of_insert, !bool_decide_eq_true_2 by done.
  rewrite lookup_insert_eq.
  repeat split; try done. apply unlink_not_in.
Qed.

(** X8. A request relayed with [release_req] as its function cannot be
    answered.  [relay_to_mom2] then links the task on neither the job's
    list nor the mom's deferred list, and [issue_Drequest] has taken it
    off the event list: the task is allocated, stores the id of the
    message, and is on no list.  When the reply with that id arrives on
    the mom's stream, [process_DreplyTPP] finds no task for it, calls
    no function, and leaves the task and the request allocated. *)
Theorem relay_release_req_unreachable pjob momaddr momport pmom request
    ppwt s r k fuel handle :
  let conn := svr_connect E momaddr momport in
  let p := fresh (dom (tasks s)) in
  ipaddrs G !! (momaddr, momport) = Some pmom ->
  0 <= conn ->
  conn <> PBS_LOCAL_CONNECTION ->
  set_task_ok E = true ->
  requests s !! request = Some r ->
  encode_request E PROT_TPP (rq_type r) = Some (0, Some k) ->
  lists_allocated s ->
  streams G !! handle = Some pmom ->
  disrst E = (Some k, 0) ->
  all_tasks (tasks s) (stores_other_id k)
    (list_of (msr_deferred_cmds s) pmom) ->
  exists s' s2 t,
    relay_to_mom2 G E pjob momaddr momport request fn_release_req ppwt s
    = Ok (0, (if ppwt then Some (Some (Some p)) else None), s') /\
    tasks s' !! p = Some t /\ stores_id k t /\
    wt_func t = fn_release_req /\
    (p ∉ task_list_event s') /\
    (forall m, p ∉ list_of (msr_deferred_cmds s') m) /\
    (forall j, p ∉ list_of (ji_svrtask s') j) /\
    process_DreplyTPP G E fuel handle s' = Ok s2 /\
    calls (log s2) = calls (log s') /\
    tasks s2 = tasks s' /\
    is_Some (requests s2 !! request).
Proof.
  intros conn p Hmom Hconn Hloc Hok Hr Henc Hwf Hst Hrd Hall.
  destruct (relay_to_mom2_run pjob momaddr momport pmom request
              fn_release_req ppwt s r (Some k) Hmom Hconn Hloc Hok Hr Henc)
    as (s' & Hrun & Hts & Hel & Hrq & Hd & Hj & Hlg).
  rewrite bool_decide_eq_true_2 in Hd, Hj by done.
  destruct (fresh_on_no_list s Hwf) as (_ & Hnm & Hnj).
  eexists s', (emit (EvFree (BufRecvMsgid k)) (emit (EvDisFuncs true) s')),
    _.
  split; [exact Hrun|].
  rewrite (tpp_orphan_run fuel handle pmom k s' Hst Hrd).
  2: { rewrite Hts, Hd. by apply all_tasks_insert_fresh. }
  rewrite Hts, Hel, Hd, Hj. simpl. rewrite Hrq, !lookup_insert_eq.
  split; [reflexivity|]. split; [done|]. split; [done|].
  split; [apply unlink_not_in|]. split; [exact Hnm|].
  split; [exact Hnj|]. split; [reflexivity|].
  split; [|split; [done|by eexists]].
  rewrite <- app_assoc, calls_app. simpl. by rewrite app_nil_r.
Qed.

(** X9. A request relayed to a mom is completed by the reply that
    carries its id.  After [relay_to_mom2] has sent the request with
    the id [k], the next [process_DreplyTPP] on the mom's stream that
    reads [k], when no older command of the mom stores [k], calls the
    caller's function on that task, once; the task then has the code of
    the reply in [wt_aux], as [pbs_errno] has, and the request holds the
    reply and still remembers the client's connection.  Afterwards the
    store of tasks and every list are as before the request. *)
Theorem relay_reply_round_trip pjob momaddr momport pmom request func
    ppwt s r k fuel handle :
  let conn := svr_connect E momaddr momport in
  let p := fresh (dom (tasks s)) in
  ipaddrs G !! (momaddr, momport) = Some pmom ->
  0 <= conn ->
  conn <> PBS_LOCAL_CONNECTION ->
  set_task_ok E = true ->
  requests s !! request = Some r ->
  encode_request E PROT_TPP (rq_type r) = Some (0, Some k) ->
  func <> fn_release_req ->
  lists_allocated s ->
  streams G !! handle = Some pmom ->
  disrst E = (Some k, 0) ->
  all_tasks (tasks s) (stores_other_id k)
    (list_of (msr_deferred_cmds s) pmom) ->
  exists s1 s2 t' r2,
    relay_to_mom2 G E pjob momaddr momport request func ppwt s
    = Ok (0, (if ppwt then Some (Some (Some p)) else None), s1) /\
    process_DreplyTPP G E fuel handle s1 = Ok s2 /\
    log s2
    = log s
      ++ [EvSvrConnect momaddr momport; EvTppAddCloseFunc conn;
          EvDisFuncs true;
          EvReplyRead handle (DIS_reply_read E (rq_reply r)).1;
          EvCall func p t' (requests s2);
          EvFree (BufTaskMsgid p k); EvFree (BufRecvMsgid k)] /\
    wt_parm1 t' = Some request /\
    wt_parm3 t' = Some (RqReply request) /\
    wt_aux t' = outcome_code E (rq_reply r) /\
    pbs_errno s2 = outcome_code E (rq_reply r) /\
    requests s2 !! request = Some r2 /\
    rq_reply r2 = reply_after_read E (rq_reply r) /\
    rq_orgconn r2 = rq_conn r /\
    tasks s2 = tasks s /\
    task_list_event s2 = task_list_event s /\
    (forall m, list_of (msr_deferred_cmds s2) m
               = list_of (msr_deferred_cmds s) m) /\
    (forall j, list_of (ji_svrtask s2) j = list_of (ji_svrtask s) j).
Proof.
  intros conn p Hmom Hconn Hloc Hok Hr Henc Hf Hwf Hst Hrd Hall.
  destruct (relay_to_mom2_run pjob momaddr momport pmom request func ppwt
              s r (Some k) Hmom Hconn Hloc Hok Hr Henc)
    as (s1 & Hrun & Hts & Hel & Hrq & Hd & Hj & Hlg).
  rewrite (bool_decide_eq_false_2 _ Hf) in Hd, Hj.
  destruct (fresh_on_no_list s Hwf) as (Hne & Hnm & Hnj).
  fold p in Hne, Hnm, Hnj.
  edestruct (tpp_request_run G E fuel handle pmom k s1
               (list_of (msr_deferred_cmds s) pmom) p [])
    as (s2 & Hrun2 & Hrq2 & Herr2 & Hlg2 & Hts2 & Hel2 & Hd2 & Hj2);
    [ exact Hst | exact Hrd
    | rewrite Hd, list_of_insert; by rewrite bool_decide_eq_true_2
    | rewrite Hts; by apply all_tasks_insert_fresh
    | rewrite Hts; apply lookup_insert_eq
    | reflexivity | reflexivity
    | rewrite Hrq; apply lookup_insert_eq | ].
  eexists s1, s2, _, _. split; [exact Hrun|]. split; [exact Hrun2|].
  rewrite Hlg2, Hlg, <- app_assoc. split; [reflexivity|].
  rewrite Herr2, Hrq2, lookup_insert_eq, Hts2, Hts, Hel2, Hel, Hd2, Hd,
    Hj2, Hj.
  rewrite delete_insert_eq, delete_id by apply fresh_task_unallocated.
  repeat split; try done.
  - fold p. rewrite (unlink_id p (task_list_event s)) by done.
    by apply unlink_id.
  - intros m. by apply list_of_link_unlink.
  - intros j. by apply list_of_link_unlink.
Qed.

(** The run of [add_mom_deferred_list] that creates the task. *)
Lemma add_mom_deferred_list_run stream minfo func msgid parm1 parm2 s :
  set_task_ok E = true ->
  exists s1,
    let p := fresh (dom (tasks s)) in
    add_mom_deferred_list E stream minfo func msgid parm1 parm2 s
    = Ok (Some p, s1) /\
    tasks s1
    = <[p := set_wt_event2 msgid
               (set_wt_parm2 parm2
                  (set_wt_aux2 PROT_TPP
                     (new_task WORK_Deferred_cmd stream func parm1)))]>
        (tasks s) /\
    task_list_event s1 = unlink p (task_list_event s) /\
    msr_deferred_cmds s1
    = <[minfo := list_of (msr_deferred_cmds s) minfo ++ [p]]>
        (msr_deferred_cmds s) /\
    ji_svrtask s1 = ji_svrtask s /\
    requests s1 = requests s /\
    log s1 = log s.
Proof.
  intros Hok. unfold add_mom_deferred_list. rewrite Hok.
  cbn [negb set_task].
  repeat (erewrite update_task_Ok
            by (fields; apply lookup_insert_eq); run).
  eexists. split; [reflexivity|]. fields.
  by rewrite !insert_insert_eq, unlink_fresh_snoc.
Qed.

(** X10. A deferred command is completed by the reply that carries its
    id.  After [add_mom_deferred_list] has registered a command of a mom
    under the id [k], the next [process_DreplyTPP] on the mom's stream
    that reads [k], when no older command of the mom stores [k] and the
    reply holder can be allocated, reads the reply into a holder of its
    own, calls the command's function once, on a task that still has the
    caller's [wt_parm1] and [wt_parm2] and has the holder in [wt_parm3]
    and the code of the reply in [wt_aux], and frees the holder after
    the function has returned.  No request is touched, and the store of
    tasks and every list are as before the command. *)
Theorem deferred_cmd_round_trip stream minfo func k parm1 parm2 s fuel
    handle :
  let p := fresh (dom (tasks s)) in
  let reply := reply_after_read E zero_reply in
  set_task_ok E = true ->
  malloc_ok E = true ->
  lists_allocated s ->
  streams G !! handle = Some minfo ->
  disrst E = (Some k, 0) ->
  all_tasks (tasks s) (stores_other_id k)
    (list_of (msr_deferred_cmds s) minfo) ->
  exists s1 s2 t',
    add_mom_deferred_list E stream minfo func (Some k) parm1 parm2 s
    = Ok (Some p, s1) /\
    process_DreplyTPP G E fuel handle s1 = Ok s2 /\
    log s2
    = log s
      ++ [EvDisFuncs true;
          EvReplyRead handle (DIS_reply_read E zero_reply).1;
          EvCall func p t' (requests s);
          EvFree (BufReply reply);
          EvFree (BufTaskMsgid p k); EvFree (BufRecvMsgid k)] /\
    wt_parm1 t' = parm1 /\
    wt_parm2 t' = parm2 /\
    wt_parm3 t' = Some (TmpReply reply) /\
    wt_aux t' = outcome_code E zero_reply /\
    pbs_errno s2 = outcome_code E zero_reply /\
    requests s2 = requests s /\
    tasks s2 = tasks s /\
    task_list_event s2 = task_list_event s /\
    (forall m, list_of (msr_deferred_cmds s2) m
               = list_of (msr_deferred_cmds s) m) /\
    ji_svrtask s2 = unlink p <$> ji_svrtask s.
Proof.
  intros p reply Hok Hm Hwf Hst Hrd Hall.
  destruct (add_mom_deferred_list_run stream minfo func (Some k) parm1
              parm2 s Hok)
    as (s1 & Hrun & Hts & Hel & Hd & Hj & Hrq & Hlg).
  cbv zeta in Hrun. fold p in Hrun, Hts, Hel, Hd.
  destruct (fresh_on_no_list s Hwf) as (Hne & Hnm & Hnj).
  fold p in Hne, Hnm, Hnj.
  edestruct (tpp_command_run G E fuel handle minfo k s1
               (list_of (msr_deferred_cmds s) minfo) p [])
    as (s2 & Hrun2 & Hrq2 & Herr2 & Hlg2 & Hts2 & Hel2 & Hd2 & Hj2);
    [ exact Hst | exact Hrd
    | rewrite Hd, list_of_insert; by rewrite bool_decide_eq_true_2
    | rewrite Hts; by apply all_tasks_insert_fresh
    | rewrite Hts; apply lookup_insert_eq
    | reflexivity | reflexivity | exact Hm | ].
  eexists s1, s2, _. split; [exact Hrun|]. split; [exact Hrun2|].
  rewrite Hlg2, Hlg, Hrq. split; [reflexivity|].
  rewrite Herr2, Hrq2, Hrq, Hts2, Hts, Hel2, Hel, Hd2, Hd, Hj2, Hj.
  rewrite delete_insert_eq, delete_id by apply fresh_task_unallocated.
  repeat split; try done.
  - rewrite (unlink_id p (task_list_event s)) by done.
    by apply unlink_id.
  - intros m. by apply list_of_link_unlink.
Qed.

Lemma all_tasks_delete_unlink ts Q p l :
  (forall q, q ∈ l -> q <> p -> exists tq, ts !! q = Some tq /\ Q tq) ->
  all_tasks (delete p ts) Q (unlink p l).
Proof.
  unfold all_tasks, unlink. rewrite !Forall_forall.
  intros Hall q Hq. apply list_elem_of_filter in Hq as [Hne Hq].
  destruct (Hall q Hq Hne) as (tq & Ht & HQ). exists tq.
  split; [by rewrite lookup_delete_ne|done].
Qed.

(** X11. A reply is delivered at most once.  When the first task of a
    mom's deferred list that stores the id [k] has been completed by a
    reply, and no other command of the mom stores [k], a second reply
    that carries [k] finds no task: it calls no function and changes no
    task and no request. *)
Theorem reply_delivered_at_most_once fuel handle pmom k s pre p post t :
  streams G !! handle = Some pmom ->
  disrst E = (Some k, 0) ->
  list_of (msr_deferred_cmds s) pmom = pre ++ p :: post ->
  all_tasks (tasks s) (stores_other_id k) pre ->
  all_tasks (tasks s) (stores_other_id k) post ->
  tasks s !! p = Some t ->
  stores_id k t ->
  (forall a, request_of t = Some a -> is_Some (requests s !! a)) ->
  exists s1 s2,
    process_DreplyTPP G E fuel handle s = Ok s1 /\
    tasks s1 = delete p (tasks s) /\
    process_DreplyTPP G E fuel handle s1 = Ok s2 /\
    calls (log s2) = calls (log s1) /\
    reads (log s2) = reads (log s1) /\
    tasks s2 = tasks s1 /\
    requests s2 = requests s1.
Proof.
  intros Hst Hrd Hl Hpre Hpost Hp Hk Hreq.
  destruct (tpp_match_run G E fuel handle pmom k s pre p post t
              Hst Hrd Hl Hpre Hp Hk Hreq)
    as (s1 & evs & Hrun & Hlg & Hts & Hel & Hd & _).
  exists s1, (emit (EvFree (BufRecvMsgid k)) (emit (EvDisFuncs true) s1)).
  split; [exact Hrun|]. split; [exact Hts|].
  split.
  - apply (tpp_orphan_run fuel handle pmom k s1 Hst Hrd).
    rewrite Hts, Hd, list_of_unlink, Hl.
    apply all_tasks_delete_unlink. intros q Hq Hne.
    unfold all_tasks in Hpre, Hpost. rewrite Forall_forall in Hpre, Hpost.
    apply elem_of_app in Hq as [Hq|Hq]; [by apply Hpre|].
    apply elem_of_cons in Hq as [Hq|Hq]; [done|by apply Hpost].
  - simpl. rewrite <- app_assoc, calls_app, reads_app. simpl.
    by rewrite !app_nil_r.
Qed.

(** The run of [issue_to_svr] that reaches the server: what
    [issue_Drequest] is called on. *)
Lemma issue_to_svr_connected servern preq replyfunc s r :
  requests s !! preq = Some r ->
  resolved_addr G E servern <> 0 ->
  0 <= connect_handle G E servern ->
  exists s0,
    issue_to_svr G E servern preq replyfunc s
    = ('(rc, _, s') ← issue_Drequest E (connect_handle G E servern) preq
                        replyfunc false 0 s0;
       Ok (rc, s')) /\
    tasks s0 = tasks s /\
    task_list_event s0 = task_list_event s /\
    requests s0
    = <[preq := set_rq_origin servern 1
                  (Z.lor (Z.lor ATR_DFLAG_MGRD ATR_DFLAG_MGWR)
                     ATR_DFLAG_SvWR) r]> (requests s).
Proof.
  intros Hr. unfold connect_handle, resolved_addr, resolved_name.
  unfold issue_to_svr. erewrite update_request_Ok by exact Hr. run.
  destruct (parse_servername E servern) as [name newport].
  cbn [fst snd].
  destruct (get_hostaddr E (failover_redirect G name)) as [svraddr err].
  cbn [fst snd]. intros Ha Hh.
  rewrite (proj2 (Z.eqb_neq _ _) Ha), (proj2 (Z.leb_le _ _) Hh).
  eexists. split; [reflexivity|]. by fields.
Qed.

(** X12. A request issued to a server comes back through the reply
    function.  When the name resolves and the connection is made,
    [issue_to_svr] stamps the request with the destination, the mark of
    a server as its origin and the manager permissions, and sends it;
    when it is sent with success and no older task waits on the
    connection, the next [process_Dreply] on the connection calls the
    reply function on the new task, once, with the request holding the
    reply as read and still carrying the stamp.  Afterwards the store of
    tasks and the event list are as before the request. *)
Theorem issue_to_svr_round_trip servern preq replyfunc s r msgid :
  let handle := connect_handle G E servern in
  let p := fresh (dom (tasks s)) in
  requests s !! preq = Some r ->
  resolved_addr G E servern <> 0 ->
  0 <= handle ->
  handle <> PBS_LOCAL_CONNECTION ->
  set_task_ok E = true ->
  encode_request E 0 (rq_type r) = Some (0, msgid) ->
  all_tasks (tasks s) (fun t => ~ awaits_socket handle t)
            (task_list_event s) ->
  exists s1 s2 t r2,
    issue_to_svr G E servern preq replyfunc s = Ok (0, s1) /\
    process_Dreply E handle s1 = Ok s2 /\
    log s2
    = log s1
      ++ socket_reply_trace handle (DIS_reply_read E (rq_reply r)).1
           (EvCall replyfunc p t (requests s2)) /\
    wt_parm1 t = Some preq /\
    requests s2 !! preq = Some r2 /\
    rq_reply r2 = reply_after_read E (rq_reply r) /\
    rq_host r2 = servern /\ rq_fromsvr r2 = 1 /\
    rq_perm r2
    = Z.lor (Z.lor ATR_DFLAG_MGRD ATR_DFLAG_MGWR) ATR_DFLAG_SvWR /\
    rq_conn r2 = handle /\
    tasks s2 = tasks s /\
    task_list_event s2 = task_list_event s.
Proof.
  intros handle p Hr Ha Hh Hloc Hok Henc Hall.
  destruct (issue_to_svr_connected servern preq replyfunc s r Hr Ha Hh)
    as (s0 & Hrun0 & Hts0 & Hel0 & Hrq0).
  fold handle in Hrun0.
  destruct (issue_Drequest_socket_task handle preq replyfunc false 0 s0
              (set_rq_origin servern 1
                 (Z.lor (Z.lor ATR_DFLAG_MGRD ATR_DFLAG_MGWR)
                    ATR_DFLAG_SvWR) r) msgid)
    as (pp & s1 & t1 & Hrun & Hts & Hty & Hev & Hfn & Hp1 & Hl & Hrq & _);
    [ done | done | rewrite Hrq0; apply lookup_insert_eq | exact Henc
    | by right | ].
  rewrite Hts0 in Hts, Hl. rewrite Hel0 in Hl. fold p in Hts, Hl.
  rewrite Hrq0, insert_insert_eq in Hrq.
  edestruct (process_Dreply_run handle s1 (task_list_event s) p [] t1
               preq)
    as (s2 & Hrun2 & Hrq2 & Hlog2 & Hts2 & Hev2 & _);
    [ exact Hl
    | rewrite Hts; by apply all_tasks_insert_fresh
    | rewrite Hts; apply lookup_insert_eq
    | by split
    | exact Hp1
    | rewrite Hrq; apply lookup_insert_eq | ].
  exists s1, s2, t1. eexists.
  split; [by rewrite Hrun0, Hrun|]. split; [exact Hrun2|].
  split; [by rewrite Hlog2, Hfn|]. split; [exact Hp1|].
  split; [by rewrite Hrq2, lookup_insert_eq|].
  repeat (split; [reflexivity|]). split.
  - rewrite Hts2, Hts, delete_insert_eq.
    apply delete_id, fresh_task_unallocated.
  - rewrite Hev2, Hl. apply unlink_snoc.
    by eapply all_tasks_not_fresh.
Qed.

(** The run of [issue_to_svr] that schedules a retry. *)
Lemma issue_to_svr_retry_run servern preq replyfunc s r :
  requests s !! preq = Some r ->
  fails_transiently G E servern s ->
  set_task_ok E = true ->
  exists s1,
    let p := fresh (dom (tasks s)) in
    issue_to_svr G E servern preq replyfunc s = Ok (0, s1) /\
    tasks s1
    = <[p := set_wt_parm2 (PFun replyfunc)
               (new_task WORK_Timed (time_now G + 2 * PBS_NET_RETRY_TIME)
                  fn_reissue_to_svr (Some preq))]> (tasks s) /\
    requests s1
    = <[preq := set_rq_origin servern 1
                  (Z.lor (Z.lor ATR_DFLAG_MGRD ATR_DFLAG_MGWR)
                     ATR_DFLAG_SvWR) r]> (requests s).
Proof.
  intros Hr.
  unfold fails_transiently, connect_handle, errno_after_resolve,
    resolved_addr, resolved_name.
  unfold issue_to_svr. erewrite update_request_Ok by exact Hr. run.
  destruct (parse_servername E servern) as [name newport].
  cbn [fst snd].
  destruct (get_hostaddr E (failover_redirect G name)) as [svraddr err].
  cbn [fst snd]. intros Htr Hok. rewrite Hok. cbn [negb set_task].
  destruct Htr as [[Ha He]|(Ha & Hneg & Hh)].
  - rewrite Ha. cbn [Z.eqb].
    replace (pbs_errno _ =? PBS_NET_RC_RETRY) with true
      by (symmetry; apply Z.eqb_eq; rewrite <- He; by destruct err).
    erewrite update_task_Ok by (fields; apply lookup_insert_eq). run.
    eexists. split; [reflexivity|]. fields.
    by rewrite insert_insert_eq.
  - rewrite (proj2 (Z.eqb_neq _ _) Ha).
    rewrite (proj2 (Z.leb_gt _ _) Hneg).
    rewrite (proj2 (Z.eqb_eq _ _) Hh).
    erewrite update_task_Ok by (fields; apply lookup_insert_eq). run.
    eexists. split; [reflexivity|]. fields.
    by rewrite insert_insert_eq.
Qed.

End DispatcherMore.

Section Retry.

Context {K : pbs_consts}.

(** X13. The retry that [issue_to_svr] schedules is one that
    [reissue_to_svr] can run.  After a transient failure the new task
    carries the request and the reply function; when it comes due, under
    whatever clock, resolver and network there are then ([G2], [E2]):
    past the limit [reissue_to_svr] calls the reply function on the task
    with [wt_aux] and [wt_event] set to -1 and contacts nobody; within
    the limit it calls [issue_to_svr] again for the same destination,
    request and reply function, and when that call does not return -1
    leaves the server as that call left it. *)
Theorem retry_runs_again G E servern preq replyfunc s r :
  let p := fresh (dom (tasks s)) in
  requests s !! preq = Some r ->
  fails_transiently G E servern s ->
  set_task_ok E = true ->
  exists s1,
    issue_to_svr G E servern preq replyfunc s = Ok (0, s1) /\
    forall G2 E2,
      (PBS_NET_RETRY_LIMIT < time_now G2 - rq_time r ->
       exists s2 t',
         reissue_to_svr G2 E2 p s1 = Ok s2 /\
         log s2 = log s1 ++ [EvCall replyfunc p t' (requests s1)] /\
         wt_aux t' = -1 /\ wt_event t' = -1 /\
         wt_parm1 t' = Some preq)
      /\
      (time_now G2 - rq_time r <= PBS_NET_RETRY_LIMIT ->
       forall rc s2,
         issue_to_svr G2 E2 servern preq replyfunc s1 = Ok (rc, s2) ->
         rc <> -1 ->
         reissue_to_svr G2 E2 p s1 = Ok s2).
Proof.
  intros p Hr Htr Hok.
  destruct (issue_to_svr_retry_run G E servern preq replyfunc s r Hr Htr
              Hok) as (s1 & Hrun & Hts & Hrq).
  cbv zeta in Hrun. fold p in Hrun, Hts.
  exists s1. split; [exact Hrun|]. intros G2 E2.
  unfold reissue_to_svr. rewrite Hts, lookup_insert_eq. run.
  cbn [wt_parm1 set_wt_parm2 new_task]. run.
  rewrite Hrq, lookup_insert_eq. run.
  cbn [rq_time rq_host set_rq_origin wt_parm2 set_wt_parm2 as_function].
  split.
  - intros Hlate. rewrite (proj2 (Z.ltb_lt _ _) Hlate). run.
    erewrite update_task_Ok by (rewrite Hts; apply lookup_insert_eq). run.
    erewrite update_task_Ok by (simpl; apply lookup_insert_eq). run.
    replace (tasks _ !! p) with
      (Some (failed_task
               (set_wt_parm2 (PFun replyfunc)
                  (new_task WORK_Timed
                     (time_now G + 2 * PBS_NET_RETRY_TIME)
                     fn_reissue_to_svr (Some preq)))))
      by (simpl; by rewrite lookup_insert_eq).
    run. cbn [wt_parm2 failed_task set_wt_event set_wt_aux set_wt_parm2
              new_task as_function]. run.
    eexists _, _. split; [reflexivity|]. simpl. rewrite Hrq.
    split; [reflexivity|]. done.
  - intros Hin rc s2 Hrun2 Hrc.
    rewrite (proj2 (Z.ltb_ge _ _) Hin). run. rewrite Hrun2. run.
    by rewrite (proj2 (Z.eqb_neq _ _) Hrc).
Qed.

End Retry.

(** * The file security checks *)

Section FileChecks.

Context {C : sys_consts}.

Lemma truth_true x : truth x = true <-> x <> 0.
Proof. unfold truth. rewrite negb_true_iff. apply Z.eqb_neq. Qed.

Lemma truth_false x : truth x = false <-> x = 0.
Proof. unfold truth. rewrite negb_false_iff. apply Z.eqb_eq. Qed.

(** The condition of the first [if] of the goal is decided. *)
Ltac decide_head :=
  repeat (match goal with
    | |- context [if ?b then _ else _] =>
        match b with
        | context [truth ?x] =>
            let H := fresh "H" in
            destruct (truth x) eqn:H;
            [apply truth_true in H|apply truth_false in H]
        | context [?x <? ?y] => destruct (Z.ltb_spec x y)
        | context [S_ISDIR ?m] => destruct (S_ISDIR m) eqn:?
        end; cbn [andb orb negb]
    end).

(** X14. What [teststat] accepts.  Provided the error codes are not
    zero, [teststat] returns 0 exactly when: the owner is at most 10
    unless owner write is disallowed; the group is at most 9 unless
    group write is disallowed; unless other write is disallowed, the
    target is a directory with the sticky bit and [sticky] is set; the
    target is a directory exactly when [isdir] says so; and no
    disallowed permission bit is in the mode. *)
Theorem teststat_accepts_iff sp isdir sticky disallow :
  errors_nonzero ->
  teststat sp isdir sticky disallow = 0 <->
  (allowed disallow S_IWUSR -> st_uid sp <= 10) /\
  (allowed disallow S_IWGRP -> st_gid sp <= 9) /\
  (allowed disallow S_IWOTH ->
   S_ISDIR (st_mode sp) = true /\ Z.land (st_mode sp) S_ISVTX <> 0 /\
   sticky <> 0) /\
  (S_ISDIR (st_mode sp) = true <-> isdir <> 0) /\
  Z.land (Z.land (Z.lor (Z.lor S_IRWXU S_IRWXG) S_IRWXO) disallow)
    (st_mode sp) = 0.
Proof.
  intros (Hp & Hn & Hi & Ha). unfold teststat, allowed.
  decide_head.
  all: (split; [intros Hz; try (exfalso; congruence)
              | intros (G1 & G2 & G3 & G4 & G5)]).
  all: try reflexivity.
  all: try (exfalso; tauto).
  all: try (exfalso; destruct G4; (discriminate || tauto)).
  all: try (exfalso; destruct G3 as (? & ? & ?); (done || congruence)).
  all: try (exfalso; specialize (G1 ltac:(assumption)); lia).
  all: try (exfalso; specialize (G2 ltac:(assumption)); lia).
  all: repeat split; intros; try done; try lia.
Qed.

(** X15. With other write allowed, [tempstat] looks at neither [isdir]
    nor the disallowed bits: it returns 0 or EPERM, the same for every
    [isdir], and (EPERM not being zero) 0 only for a directory with
    [sticky] set that has the sticky bit or is not writable by
    others. *)
Theorem tempstat_other_write_allowed sp isdir sticky disallow :
  allowed disallow S_IWOTH ->
  EPERM <> 0 ->
  (tempstat sp isdir sticky disallow = 0 \/
   tempstat sp isdir sticky disallow = EPERM) /\
  (forall isdir',
     tempstat sp isdir' sticky disallow
     = tempstat sp isdir sticky disallow) /\
  (tempstat sp isdir sticky disallow = 0 ->
   S_ISDIR (st_mode sp) = true /\ sticky <> 0 /\
   (Z.land (st_mode sp) S_ISVTX <> 0 \/
    Z.land (st_mode sp) S_IWOTH = 0)).
Proof.
  intros Hoth Hp. unfold allowed in Hoth. apply truth_true in Hoth.
  unfold tempstat. rewrite Hoth. cbv zeta.
  split; [|split].
  - decide_head; auto.
  - intros isdir'. reflexivity.
  - decide_head; intros Hz; try done; auto.
Qed.

(** X16. [teststat] and [tempstat] differ only where other write is
    allowed: when it is disallowed they return the same code, and in
    any case (the error codes not being zero) what [teststat] accepts
    [tempstat] accepts. *)
Theorem tempstat_no_stricter sp isdir sticky disallow :
  errors_nonzero ->
  (~ allowed disallow S_IWOTH ->
   tempstat sp isdir sticky disallow = teststat sp isdir sticky disallow)
  /\
  (teststat sp isdir sticky disallow = 0 ->
   tempstat sp isdir sticky disallow = 0).
Proof.
  intros (Hp & Hn & Hi & Ha). unfold allowed. split.
  - intros Hoth. assert (Ht : truth (Z.land (Z.lnot disallow) S_IWOTH) = false).
    { apply truth_false. destruct (Z.eq_dec (Z.land (Z.lnot disallow) S_IWOTH) 0); tauto. }
    unfold tempstat, teststat. rewrite Ht. reflexivity.
  - unfold tempstat, teststat. cbv zeta.
    destruct (truth (Z.land (Z.lnot disallow) S_IWUSR) && (10 <? st_uid sp));
      [done|].
    destruct (truth (Z.land (Z.lnot disallow) S_IWGRP) && (9 <? st_gid sp));
      [done|].
    destruct (truth (Z.land (Z.lnot disallow) S_IWOTH)); cbn [andb];
      [|done].
    destruct (S_ISDIR (st_mode sp)); cbn [negb orb]; [|done].
    destruct (truth (Z.land (st_mode sp) S_ISVTX)); cbn [negb orb andb];
      [|done].
    destruct (truth sticky); cbn [negb]; [|done].
    done.
Qed.

Variable F : filesys.

Lemma append_assoc_char pre c mid :
  (pre +:+ String c EmptyString) +:+ mid = pre +:+ String c mid.
Proof.
  induction pre as [|a pre IH]; [done|].
  by rewrite !append_cons, IH.
Qed.

(** The loop passes every directory exactly when each part of the path
    that a slash follows is found and accepted. *)
Lemma walk_Passed test pre rest :
  walk F test pre rest = Passed <->
  forall mid rest',
    rest = mid +:+ String "/"%char rest' ->
    accepted F test (pre +:+ mid).
Proof.
  revert pre. induction rest as [|c rest IH]; intros pre.
  - split; [|done]. intros _ mid rest' Heq. by destruct mid.
  - simpl. destruct (Ascii.eqb_spec c "/"%char) as [->|Hc].
    + destruct (lstat F pre) as [sb|e] eqn:Hl.
      * destruct (S_ISLNK (st_mode sb)) eqn:Hlnk.
        -- split; [done|]. intros Hall.
           destruct (Hall EmptyString rest eq_refl) as (sb' & Hl' & Hk & _).
           rewrite append_empty_r, Hl in Hl'. congruence.
        -- destruct (truth (test sb)) eqn:Ht.
           ++ split; [done|]. intros Hall.
              destruct (Hall EmptyString rest eq_refl)
                as (sb' & Hl' & _ & Hz).
              rewrite append_empty_r, Hl in Hl'. injection Hl' as <-.
              apply truth_true in Ht. done.
           ++ rewrite IH. apply truth_false in Ht. split.
              ** intros Hall [|a mid] rest' Heq.
                 --- rewrite append_empty_r. by exists sb.
                 --- rewrite append_cons in Heq. injection Heq as <- ->.
                     rewrite <- append_assoc_char. by apply (Hall mid rest').
              ** intros Hall mid rest' ->.
                 rewrite append_assoc_char.
                 by apply (Hall (String "/"%char mid) rest').
      * split; [done|]. intros Hall.
        destruct (Hall EmptyString rest eq_refl) as (sb' & Hl' & _).
        rewrite append_empty_r, Hl in Hl'. done.
    + rewrite IH. split.
      * intros Hall [|a mid] rest' Heq.
        --- simpl in Heq. by injection Heq as -> _.
        --- rewrite append_cons in Heq. injection Heq as <- ->.
            rewrite <- append_assoc_char. by apply (Hall mid rest').
      * intros Hall mid rest' ->.
        rewrite append_assoc_char.
        by apply (Hall (String c mid) rest').
Qed.

Lemma walk_Stopped test pre rest rc cut :
  errno_set F ->
  walk F test pre rest = Stopped rc cut -> rc <> 0.
Proof.
  intros Herr. revert pre. induction rest as [|c rest IH]; intros pre.
  - done.
  - simpl. destruct (Ascii.eqb c "/"%char); [|by apply IH].
    destruct (lstat F pre) as [sb|e] eqn:Hl.
    + destruct (S_ISLNK (st_mode sb)); [done|].
      destruct (truth (test sb)) eqn:Ht; [|by apply IH].
      intros [= <- _]. by apply truth_true.
    + intros [= <- _]. by apply (Herr pre e).
Qed.

Lemma chkerr_zero func path real rc lg :
  chkerr func path real rc = Returned 0 lg <-> rc = 0 /\ lg = [].
Proof.
  unfold chkerr. split.
  - intros [= -> <-]. done.
  - intros [-> ->]. done.
Qed.

Lemma directory_of_cons d r0 rest :
  directory_of d (String r0 rest) <->
  exists mid rest',
    d = String r0 mid /\ rest = mid +:+ String "/"%char rest'.
Proof.
  unfold directory_of. split.
  - intros [Hd [rest' Heq]]. destruct d as [|a d]; [done|].
    rewrite append_cons in Heq. injection Heq as <- ->. by eexists _, _.
  - intros (mid & rest' & -> & ->). split; [done|]. by exists rest'.
Qed.

(** What the common body accepts on an absolute path with [fullpath]
    set. *)
Lemma file_sec_accepts_iff func test updis path' isdir sticky disallow
    fullpath :
  fullpath <> 0 ->
  errno_set F ->
  file_sec F func test updis (String "/"%char path') isdir sticky disallow
    fullpath = Returned 0 [] <->
  exists real,
    realpath F (String "/"%char path') = Sys_ok real /\
    real <> EmptyString /\
    (forall d, directory_of d real ->
               accepted F (fun sb => test sb 1 sticky updis) d) /\
    accepted F (fun sb => test sb isdir sticky disallow) real.
Proof.
  intros Hfull Herr. unfold file_sec. cbn [Ascii.eqb Bool.eqb andb].
  apply truth_true in Hfull. rewrite Hfull.
  destruct (realpath F (String "/"%char path')) as [real|e] eqn:Hreal.
  2: { rewrite chkerr_zero. split.
       - intros [-> _]. by destruct (proj1 (Herr _ _) Hreal).
       - by intros (real & [=] & _). }
  destruct real as [|r0 rest].
  { split; [done|]. by intros (real & [= <-] & Hne & _). }
  destruct (walk F (fun sb => test sb 1 sticky updis)
              (String r0 EmptyString) rest) as [|rc cut|] eqn:Hwalk.
  - pose proof (proj1 (walk_Passed _ _ _) Hwalk) as Hdirs.
    destruct (lstat F (String r0 rest)) as [sb|e] eqn:Hl.
    + destruct (S_ISLNK (st_mode sb)) eqn:Hlnk.
      * split; [done|].
        intros (real & [= <-] & _ & _ & (sb' & Hl' & Hk & _)).
        congruence.
      * rewrite chkerr_zero. split.
        -- intros [Hz _]. exists (String r0 rest).
           split; [done|]. split; [done|]. split; [|by exists sb].
           intros d Hd. apply directory_of_cons in Hd
             as (mid & rest' & -> & ->).
           by apply (Hdirs mid rest').
        -- intros (real & [= <-] & _ & _ & (sb' & Hl' & _ & Hz)).
           rewrite Hl in Hl'. injection Hl' as <-. done.
    + rewrite chkerr_zero. split.
      * intros [-> _]. by destruct (proj2 (Herr _ _) Hl).
      * intros (real & [= <-] & _ & _ & (sb' & Hl' & _)). congruence.
  - rewrite chkerr_zero. split.
    + intros [-> _]. by apply walk_Stopped in Hwalk.
    + intros (real & [= <-] & _ & Hall & _). exfalso.
      assert (Hp : walk F (fun sb => test sb 1 sticky updis)
                     (String r0 EmptyString) rest = Passed).
      { apply walk_Passed. intros mid rest' ->. apply Hall.
        apply directory_of_cons. by eexists _, _. }
      congruence.
  - split; [done|].
    intros (real & [= <-] & _ & Hall & _). exfalso.
    assert (Hp : walk F (fun sb => test sb 1 sticky updis)
                   (String r0 EmptyString) rest = Passed).
    { apply walk_Passed. intros mid rest' ->. apply Hall.
      apply directory_of_cons. by eexists _, _. }
    congruence.
Qed.

(** X17. What [chk_file_sec] accepts on an absolute path with
    [fullpath] set.  Provided a failing system routine leaves an errno
    that is not zero, it returns 0 (and logs nothing) exactly when the
    path resolves, every directory of the resolved path (each part of
    it, not empty, that a slash follows) is found by [lstat], is no
    link, and passes [teststat] as a directory with group and other
    write disallowed, and the resolved path itself is found and passes
    [teststat] with the caller's arguments. *)
Theorem chk_file_sec_accepts_iff path' isdir sticky disallow fullpath :
  fullpath <> 0 ->
  errno_set F ->
  chk_file_sec F (String "/"%char path') isdir sticky disallow fullpath
  = Returned 0 [] <->
  exists real,
    realpath F (String "/"%char path') = Sys_ok real /\
    real <> EmptyString /\
    (forall d, directory_of d real ->
       accepted F
         (fun sb => teststat sb 1 sticky (Z.lor S_IWGRP S_IWOTH)) d) /\
    accepted F (fun sb => teststat sb isdir sticky disallow) real.
Proof. intros. by apply file_sec_accepts_iff. Qed.

Lemma tempstat_without_sticky sb isdir :
  S_IWOTH <> 0 -> tempstat sb isdir 0 0 = EPERM.
Proof.
  intros Hoth. unfold tempstat.
  replace (Z.lnot 0) with (-1) by done. rewrite !Z.land_m1_l.
  apply truth_true in Hoth. rewrite Hoth. cbv zeta.
  cbn [truth Z.eqb negb orb].
  rewrite orb_true_r.
  destruct (truth S_IWUSR && (10 <? st_uid sb)); [done|].
  destruct (truth S_IWGRP && (9 <? st_gid sb)); [done|].
  by destruct (_ && _).
Qed.

(** X18. [tmp_file_sec] cannot accept a path below a directory when
    [sticky] is 0.  On an absolute path with [fullpath] set whose
    resolved form has a directory, the loop tests that directory with
    [tempstat (&sbuf, 1, 0, 0)], which allows other write and so asks
    for [sticky]: whatever the directory is, the call does not return
    0. *)
Theorem tmp_file_sec_needs_sticky path' isdir disallow fullpath real d :
  fullpath <> 0 ->
  errno_set F ->
  EPERM <> 0 ->
  S_IWOTH <> 0 ->
  realpath F (String "/"%char path') = Sys_ok real ->
  directory_of d real ->
  forall lg,
    tmp_file_sec F (String "/"%char path') isdir 0 disallow fullpath
    <> Returned 0 lg.
Proof.
  intros Hfull Herr Hp Hoth Hreal Hd lg Hrun.
  assert (Hlg : lg = []).
  { unfold tmp_file_sec, file_sec in Hrun.
    repeat case_match; try discriminate;
      by apply chkerr_zero in Hrun as [_ ->]. }
  subst lg. unfold tmp_file_sec in Hrun.
  apply file_sec_accepts_iff in Hrun
    as (real' & Hreal' & _ & Hall & _); [|done|done].
  rewrite Hreal in Hreal'. injection Hreal' as <-.
  destruct (Hall d Hd) as (sb & _ & _ & Hz).
  by rewrite tempstat_without_sticky in Hz.
Qed.

(** X19. Without [fullpath], or on a relative path, the directories of
    the path are not looked at: two file systems that resolve the path
    alike and agree on the resolved path get the same answer from the
    common body, and so from [chk_file_sec] and [tmp_file_sec]. *)
Theorem file_sec_skips_directories F' path isdir sticky disallow
    fullpath :
  fullpath = 0 \/ (forall path', path <> String "/"%char path') ->
  realpath F' path = realpath F path ->
  (forall real, realpath F path = Sys_ok real ->
                lstat F' real = lstat F real) ->
  chk_file_sec F' path isdir sticky disallow fullpath
  = chk_file_sec F path isdir sticky disallow fullpath /\
  tmp_file_sec F' path isdir sticky disallow fullpath
  = tmp_file_sec F path isdir sticky disallow fullpath.
Proof.
  intros Hskip Hreal Hl.
  unfold chk_file_sec, tmp_file_sec, file_sec.
  destruct path as [|c0 path']; [done|].
  assert (Hc : Ascii.eqb c0 "/"%char && truth fullpath = false).
  { destruct Hskip as [->|Hrel]; [apply andb_false_r|].
    destruct (Ascii.eqb_spec c0 "/"%char) as [->|]; [|done].
    by destruct (Hrel path'). }
  rewrite Hc, Hreal.
  destruct (realpath F (String c0 path')) as [real|e]; [|done].
  by rewrite (Hl real).
Qed.

End FileChecks.

(** * The name of a script *)

Section ScriptNameFacts.

Context {C : sys_consts}.
Variable stat_path : string -> sys_result stat.

Lemma append_assoc_string a b c : (a +:+ b) +:+ c = a +:+ (b +:+ c).
Proof.
  induction a as [|x a IH]; [done|]. by rewrite !append_cons, IH.
Qed.

Lemma leading_part_refl s : leading_part s s.
Proof. exists EmptyString. by rewrite append_empty_r. Qed.

Lemma leading_part_app q s t : leading_part q s -> leading_part q (s +:+ t).
Proof.
  intros [rest ->]. exists (rest +:+ t). apply append_assoc_string.
Qed.

Lemma last_char_snoc s c :
  last_char (s +:+ String c EmptyString) = Some c.
Proof.
  induction s as [|x s IH]; [done|]. rewrite append_cons.
  cbn [last_char]. rewrite IH.
  destruct (s +:+ String c EmptyString) eqn:Hs; [|done].
  by destruct s.
Qed.

Lemma but_last_snoc s c : but_last (s +:+ String c EmptyString) = s.
Proof.
  induction s as [|x s IH]; [done|]. rewrite append_cons.
  cbn [but_last]. rewrite IH.
  destruct (s +:+ String c EmptyString) eqn:Hs; [by destruct s|done].
Qed.

Lemma but_last_leading s : leading_part (but_last s) s.
Proof.
  induction s as [|x s IH]; [by exists EmptyString|].
  destruct s as [|y s]; [by exists (String x EmptyString)|].
  destruct IH as [rest Hrest]. exists rest.
  change (but_last (String x (String y s)))
    with (String x (but_last (String y s))).
  by rewrite append_cons, <- Hrest.
Qed.

Lemma regular_file_mode p :
  S_IFREG <> 0 ->
  S_ISREG (match stat_path p with
           | Sys_ok sb => st_mode sb
           | Sys_err _ => 0
           end) = true <->
  regular_file stat_path p.
Proof.
  intros Hreg. unfold regular_file.
  destruct (stat_path p) as [sb|e].
  - split; [by exists sb|]. by intros (sb' & [= <-] & H).
  - split; [|by intros (sb' & [=] & _)].
    unfold S_ISREG. rewrite Z.land_0_l. intros H.
    apply Z.eqb_eq in H. by destruct Hreg.
Qed.

(** What the loop returns is a regular file and a leading part of the
    string, provided what it remembered on entry is. *)
Lemma scan_sound rest :
  forall pre skipping prev name,
    (forall q, prev = Some q ->
               regular_file stat_path q /\ leading_part q pre) ->
    scan stat_path pre rest skipping prev = Early name \/
    scan stat_path pre rest skipping prev = Ended (Some name) ->
    regular_file stat_path name /\ leading_part name (pre +:+ rest).
Proof.
  induction rest as [|c rest IH]; intros pre skipping prev name Hprev.
  - simpl. rewrite append_empty_r. intros [[=]|[= ->]]. by apply Hprev.
  - rewrite <- append_assoc_char.
    assert (Hnext : forall q, prev = Some q ->
              regular_file stat_path q /\
              leading_part q (pre +:+ String c EmptyString)).
    { intros q Hq. destruct (Hprev q Hq) as [Hr Hl].
      split; [done|]. by apply leading_part_app. }
    cbn [scan]. cbv zeta.
    destruct (Ascii.eqb c " "%char); [|by apply IH].
    destruct skipping; [by apply IH|].
    destruct (stat_path pre) as [sb|e] eqn:Hst.
    + destruct (S_ISREG (st_mode sb)) eqn:Hreg; [|by apply IH].
      apply IH. intros q [= <-]. split; [by exists sb|].
      by exists (String c EmptyString).
    + destruct prev as [q|]; [|by apply IH].
      intros [[= <-]|[=]]. destruct (Hprev q eq_refl) as [Hr Hl].
      split; [done|]. by apply leading_part_app, leading_part_app.
Qed.

Lemma script_of_sound tok name :
  S_IFREG <> 0 ->
  script_of stat_path tok = Name name ->
  regular_file stat_path name /\ leading_part name tok.
Proof.
  intros Hreg. unfold script_of.
  destruct (scan stat_path EmptyString tok false None) as [q|[q|]] eqn:Hscan.
  - intros [= <-].
    apply (scan_sound tok EmptyString false None q); [done|by left].
  - intros [= <-].
    apply (scan_sound tok EmptyString false None q); [done|by right].
  - destruct (S_ISREG _) eqn:Hmode; [|done]. intros [= <-].
    split; [by apply regular_file_mode|apply leading_part_refl].
Qed.

(** X22. The name [get_script_name] returns is a regular file.
    Provided S_IFREG is not zero (the buffer of [stat] is zero where
    [stat] fails), a name returned is one that [stat] finds to be a
    regular file, and it is a leading part of the input after its
    opening quote, if it has one. *)
Theorem get_script_name_regular strdup_ok input name :
  S_IFREG <> 0 ->
  get_script_name stat_path strdup_ok (Some input) = Name name ->
  regular_file stat_path name /\
  (leading_part name input \/
   exists input', input = String dquote input' /\
                  leading_part name input').
Proof.
  intros Hreg. unfold get_script_name.
  destruct strdup_ok; cbn [negb].
  2: { by repeat case_match. }
  destruct input as [|c input'].
  { intros Hrun. apply script_of_sound in Hrun as [Hr Hl]; auto. }
  destruct (Ascii.eqb_spec c dquote) as [->|Hc].
  - destruct (last_char input') as [d|] eqn:Hlast; [|done].
    destruct (Ascii.eqb d dquote).
    + intros Hrun. apply script_of_sound in Hrun as [Hr [rest Hl]]; [|done].
      split; [done|]. right. exists input'. split; [done|].
      destruct (but_last_leading input') as [rest' Hrest'].
      exists (rest +:+ rest').
      by rewrite <- append_assoc_string, <- Hl.
    + intros Hrun. apply script_of_sound in Hrun as [Hr Hl]; [|done].
      split; [done|]. right. by exists input'.
  - intros Hrun. apply script_of_sound in Hrun as [Hr Hl]; auto.
Qed.




(** X24. Quotes around the input are dropped.  An input in double
    quotes gives what the input without them gives, when that does not
    itself begin with a quote. *)
Theorem get_script_name_unquotes strdup_ok input :
  (forall input', input <> String dquote input') ->
  get_script_name stat_path strdup_ok
    (Some (String dquote (input +:+ String dquote EmptyString)))
  = get_script_name stat_path strdup_ok (Some input).
Proof.
  intros Hq. unfold get_script_name.
  rewrite Ascii.eqb_refl, last_char_snoc, Ascii.eqb_refl, but_last_snoc.
  destruct input as [|c input']; [done|].
  destruct (Ascii.eqb_spec c dquote) as [->|]; [|done].
  by destruct (Hq input').
Qed.

End ScriptNameFacts.

(** * Confirming a reservation *)

Section ConfirmResvFacts.

Import ConfirmResv.
Context {K : ifl_consts}.
Variable E : env.

Lemma null_or_empty_false (x : string) :
  x <> EmptyString -> null_or_empty (Some x) = false.
Proof. by destruct x. Qed.

Lemma calls_made_called e s :
  calls_made (called e s) = calls_made s ++ [e].
Proof. done. Qed.

Lemma calls_made_errno_is v s : calls_made (errno_is v s) = calls_made s.
Proof. done. Qed.

Lemma calls_made_errno_opt v s :
  calls_made (errno_opt v s) = calls_made s.
Proof. by destruct v. Qed.

Lemma pbs_errno_called e s : pbs_errno (called e s) = pbs_errno s.
Proof. done. Qed.

(** The conditions of the function are decided one after the other,
    and the calls of each path are collected. *)
Ltac paths :=
  repeat (match goal with
    | |- context [if truth ?x then _ else _] =>
        let H := fresh "H" in
        destruct (truth x) eqn:H;
        [apply truth_true in H|apply truth_false in H]
    end; cbn [fst snd]; try contradiction);
  repeat (rewrite calls_made_errno_opt || rewrite calls_made_called
          || rewrite calls_made_errno_is);
  simpl.

(** X20. [__pbs_confirmresv] holds the lock of the connection around
    every use of it, and only then.  When an argument is missing or
    empty it calls nothing and returns PBSE_IVALREQ, which it also
    leaves in [pbs_errno].  When the arguments are there and the thread
    context and the lock are had, the calls are: the two that got
    them, then calls none of which takes or releases a lock, then the
    release of the lock, last; and this on every path, whatever the
    encoders, the flush, the read and the release return. *)
Theorem confirmresv_lock_discipline c rid location start extend e0 :
  let s0 := {| pbs_errno := e0; calls_made := [] |} in
  (forall rid' location',
     null_or_empty rid' || null_or_empty location' = true ->
     __pbs_confirmresv E c rid' location' start extend s0
     = (PBSE_IVALREQ,
        {| pbs_errno := PBSE_IVALREQ; calls_made := [] |}))
  /\
  (rid <> EmptyString -> location <> EmptyString ->
   (pbs_client_thread_init_thread_context E).1 = 0 ->
   (pbs_client_thread_lock_connection E c).1 = 0 ->
   exists mid,
     calls_made
       (__pbs_confirmresv E c (Some rid) (Some location) start extend
          s0).2
     = [InitThreadContext; LockConnection c] ++ mid
       ++ [UnlockConnection c] /\
     Forall (fun e => on_lock e = false) mid).
Proof.
  intros s0. split.
  - intros rid' location' Hbad. unfold __pbs_confirmresv.
    by rewrite Hbad.
  - intros Hrid Hloc Hinit Hlock. unfold __pbs_confirmresv.
    rewrite (null_or_empty_false _ Hrid), (null_or_empty_false _ Hloc).
    cbn [orb]. 
    destruct (pbs_client_thread_init_thread_context E) as [r1 e1].
    destruct (pbs_client_thread_lock_connection E c) as [r2 e2].
    simpl in Hinit, Hlock. subst r1 r2. cbn [truth Z.eqb negb].
    unfold encode, unlock_and_return_errno.
    destruct (pbs_client_thread_unlock_connection E c) as [r3 e3].
    subst s0. paths.
    all: match goal with
         | |- exists mid, _ :: _ :: ?l = _ /\ _ =>
             exists (removelast l)
         end.
    all: split; [reflexivity|simpl; repeat constructor].
Qed.

(** X21. The reply is read only for a request that went out whole.
    With the arguments there and the thread context and the lock had,
    [PBSD_rdrpy] is called exactly when the three encoders and the
    flush returned zero.  Then, the lock released without error, the
    value returned is the error number of the connection, and not
    [pbs_errno].  Otherwise nothing is read, and the value returned is
    PBSE_SYSTEM or PBSE_PROTOCOL unless the release of the lock sets
    [pbs_errno] anew. *)
Theorem confirmresv_reads_reply_iff_sent c rid location start extend e0 :
  let s0 := {| pbs_errno := e0; calls_made := [] |} in
  let out := __pbs_confirmresv E c (Some rid) (Some location) start
               extend s0 in
  rid <> EmptyString -> location <> EmptyString ->
  (pbs_client_thread_init_thread_context E).1 = 0 ->
  (pbs_client_thread_lock_connection E c).1 = 0 ->
  (Rdrpy c ∈ calls_made out.2 <-> sent E c rid location start extend)
  /\
  (sent E c rid location start extend ->
   (pbs_client_thread_unlock_connection E c).1 = 0 ->
   out.1 = get_conn_errno E c)
  /\
  (~ sent E c rid location start extend ->
   (pbs_client_thread_unlock_connection E c).2 = None ->
   out.1 = pbs_errno out.2 /\
   (out.1 = PBSE_SYSTEM \/ out.1 = PBSE_PROTOCOL)).
Proof.
  intros s0 out Hrid Hloc Hinit Hlock. subst out.
  unfold __pbs_confirmresv, sent.
  rewrite (null_or_empty_false _ Hrid), (null_or_empty_false _ Hloc).
  cbn [orb].
  destruct (pbs_client_thread_init_thread_context E) as [r1 e1].
  destruct (pbs_client_thread_lock_connection E c) as [r2 e2].
  simpl in Hinit, Hlock. subst r1 r2. cbn [truth Z.eqb negb].
  unfold encode, unlock_and_return_errno.
  destruct (pbs_client_thread_unlock_connection E c) as [r3 e3].
  cbn [fst snd]. subst s0.
  paths.
  all: rewrite ?elem_of_cons, ?elem_of_nil.
  all: split; [|split]; try (intuition (discriminate || congruence)).
  all: intros _ ->; simpl; auto.
Qed.

End ConfirmResvFacts.

(** * The functions on the example data *)

#[local] Existing Instance sample_consts.

(** The reply with identifier C, which the third task of the list stores,
    completes task 3 and no other. *)
Lemma reply_completes_first_match_witness :
  exists s' evs,
    process_DreplyTPP (sample_globals 1000)
      (sample_env true true (0, None) 0 (Some "C", 0) 0 (0, None) 5)
      0 7 sample_server = Ok s' /\
    log s' = log sample_server ++ evs /\
    calls evs = [3%nat] /\
    tasks s' = delete 3%nat (tasks sample_server) /\
    msr_deferred_cmds s' = unlink 3%nat <$> msr_deferred_cmds sample_server.
Proof.
  apply (reply_completes_first_match (sample_globals 1000)
           (sample_env true true (0, None) 0 (Some "C", 0) 0 (0, None) 5)
           0%nat 7 0%nat "C" sample_server
           [1%nat; 2%nat] 3%nat []
           (sample_task WORK_Deferred_cmd 7 (Some "C") 3 None NULL)).
  - reflexivity.
  - reflexivity.
  - reflexivity.
  - repeat constructor.
    + eexists. split; [reflexivity|]. exists "A". split; [reflexivity|done].
    + eexists. split; [reflexivity|]. exists "B". split; [reflexivity|done].
  - reflexivity.
  - reflexivity.
  - intros a Ha. discriminate.
Defined.

(** C1 as stated fails here: the identifier C is read from the stream of a
    known peer and task 3 is the first (and only) task that stores it, but
    task 3 carries no request and the reply holder cannot be allocated; no
    function is called and the task is gone. *)
Lemma reply_without_holder_not_dispatched :
  streams (sample_globals 1000) !! 7 = Some 0%nat /\
  list_of (msr_deferred_cmds sample_server) 0 = [1%nat; 2%nat; 3%nat] /\
  wt_event2 <$> tasks sample_server !! 1%nat = Some (Some "A") /\
  wt_event2 <$> tasks sample_server !! 2%nat = Some (Some "B") /\
  wt_event2 <$> tasks sample_server !! 3%nat = Some (Some "C") /\
  exists s',
    process_DreplyTPP (sample_globals 1000)
      (sample_env true false (0, None) 0 (Some "C", 0) 0 (0, None) 5)
      0 7 sample_server = Ok s' /\
    calls (log s') = [] /\
    tasks s' !! 3%nat = None.
Proof.
  repeat (split; [reflexivity|]).
  eexists. split; [vm_compute; reflexivity|]. split; reflexivity.
Qed.

(** The stream breaks with code 5: tasks 1, 2 and 3 are completed. *)
Lemma broken_stream_fails_all_witness :
  exists s' evs,
    process_DreplyTPP (sample_globals 1000)
      (sample_env true true (0, None) 0 (None, 5) 0 (0, None) 5)
      3 7 sample_server = Ok s' /\
    log s' = log sample_server ++ evs /\
    list_of (msr_deferred_cmds s') 0 = [] /\
    calls evs = [1%nat; 2%nat; 3%nat] /\
    Forall (culled (tasks sample_server) 5) evs.
Proof.
  apply (broken_stream_fails_all (sample_globals 1000)
           (sample_env true true (0, None) 0 (None, 5) 0 (0, None) 5)
           3%nat 7 0%nat None 5 sample_server).
  - reflexivity.
  - reflexivity.
  - by left.
  - change (NoDup [1%nat; 2%nat; 3%nat]).
    repeat (apply NoDup_cons; split;
            [intros Hin; apply list_elem_of_In in Hin; simpl in Hin;
             intuition discriminate|]).
    apply NoDup_nil_2.
  - intros p Hp. apply list_elem_of_In in Hp. simpl in Hp.
    destruct Hp as [<-|[<-|[<-|[]]]].
    + eexists. split; [reflexivity|]. intros a [= <-]. by eexists.
    + eexists. split; [reflexivity|]. intros a [=].
    + eexists. split; [reflexivity|]. intros a [=].
  - vm_compute. lia.
Defined.

(** The flush of a rerun request fails with code 7 on connection 5: the
    task created at address 6 is deleted and 7 is returned. *)
Lemma failed_send_discards_task_witness :
  exists s',
    issue_Drequest
      (sample_env true true (0, Some "m") 7 (None, 0) 0 (0, None) 5)
      5 11%nat (fn_other 9) true PROT_TPP sample_server
    = Ok (7, None, s') /\
    tasks s' = tasks sample_server /\
    (6%nat ∉ task_list_event s') /\
    (forall m, 6%nat ∉ list_of (msr_deferred_cmds s') m) /\
    (forall j, 6%nat ∉ list_of (ji_svrtask s') j) /\
    (forall k, Some "m" = Some k -> EvFree (BufSentMsgid k) ∈ log s').
Proof.
  apply (failed_send_discards_task
           (sample_env true true (0, Some "m") 7 (None, 0) 0 (0, None) 5)
           5 11%nat (fn_other 9) true PROT_TPP sample_server
           (sample_request PBS_BATCH_Rerun 900) 7 (Some "m")).
  - discriminate.
  - reflexivity.
  - reflexivity.
  - reflexivity.
  - discriminate.
Defined.

(** The resolver fails with PBS_NET_RC_RETRY: a timed task is set up at
    address 6, due at 1060.  It fails with -1: no task, and -1. *)
Lemma issue_to_svr_retry_or_fail_witness :
  (exists s' t,
      issue_to_svr (sample_globals 1000)
        (sample_env true true (0, None) 0 (None, 0) 0 (0, Some (-2)) 5)
        "gamma" 11%nat (fn_other 6) sample_server = Ok (0, s') /\
      tasks s' = <[6%nat := t]> (tasks sample_server) /\
      task_list_event s' = [4%nat; 5%nat; 6%nat] /\
      wt_type t = WORK_Timed /\
      wt_event t = 1060 /\
      wt_func t = fn_reissue_to_svr /\
      wt_parm1 t = Some 11%nat /\
      wt_parm2 t = PFun (fn_other 6))
  /\
  (exists s',
      issue_to_svr (sample_globals 1000)
        (sample_env true true (0, None) 0 (None, 0) 0 (0, Some (-1)) 5)
        "gamma" 11%nat (fn_other 6) sample_server = Ok (-1, s') /\
      tasks s' = tasks sample_server /\
      task_list_event s' = task_list_event sample_server).
Proof.
  split.
  - refine (proj1 (issue_to_svr_retry_or_fail (sample_globals 1000)
             (sample_env true true (0, None) 0 (None, 0) 0 (0, Some (-2)) 5)
             "gamma" 11%nat (fn_other 6) sample_server
             (sample_request PBS_BATCH_Rerun 900) eq_refl) _ _).
    + left. split; reflexivity.
    + reflexivity.
  - apply (proj2 (issue_to_svr_retry_or_fail (sample_globals 1000)
             (sample_env true true (0, None) 0 (None, 0) 0 (0, Some (-1)) 5)
             "gamma" 11%nat (fn_other 6) sample_server
             (sample_request PBS_BATCH_Rerun 900) eq_refl)).
    left. split; [reflexivity|discriminate].
Defined.

(** Task 5 retries request 11, issued at 900.  At time 20000 the limit of
    14400 is passed and the reply function is called; at time 1000 it is
    called when the resolver fails for good, and not when the resolver asks
    for another retry. *)
Lemma reissue_to_svr_callback_witness :
  (exists s',
      reissue_to_svr (sample_globals 20000)
        (sample_env true true (0, None) 0 (None, 0) 0 (0, Some (-2)) 5)
        5%nat sample_server = Ok s' /\
      calls (log s') = [5%nat])
  /\
  (exists s',
      reissue_to_svr (sample_globals 1000)
        (sample_env true true (0, None) 0 (None, 0) 0 (0, Some (-1)) 5)
        5%nat sample_server = Ok s' /\
      calls (log s') = [5%nat])
  /\
  (exists s1,
      issue_to_svr (sample_globals 1000)
        (sample_env true true (0, None) 0 (None, 0) 0 (0, Some (-2)) 5)
        "alpha" 11%nat (fn_other 6) sample_server = Ok (0, s1) /\
      reissue_to_svr (sample_globals 1000)
        (sample_env true true (0, None) 0 (None, 0) 0 (0, Some (-2)) 5)
        5%nat sample_server = Ok s1 /\
      calls (log s1) = []).
Proof.
  split; [|split].
  - destruct (proj1 (reissue_to_svr_callback (sample_globals 20000)
                (sample_env true true (0, None) 0 (None, 0) 0
                            (0, Some (-2)) 5)
                5%nat sample_server
                (sample_task WORK_Timed 960 None 0 (Some 11%nat)
                             (PFun (fn_other 6)))
                11%nat (sample_request PBS_BATCH_Rerun 900) (fn_other 6)
                eq_refl eq_refl eq_refl eq_refl))
      as (s' & Hrun & Hlog & _); [reflexivity|].
    exists s'. split; [exact Hrun|]. rewrite Hlog. reflexivity.
  - assert (Hrun : exists s1,
      issue_to_svr (sample_globals 1000)
        (sample_env true true (0, None) 0 (None, 0) 0 (0, Some (-1)) 5)
        "alpha" 11%nat (fn_other 6) sample_server = Ok (-1, s1) /\
      calls (log s1) = [])
      by (eexists; split; [vm_compute; reflexivity|reflexivity]).
    destruct Hrun as (s1 & Hrun & Hcalls).
    pose proof (proj2 (reissue_to_svr_callback (sample_globals 1000)
                (sample_env true true (0, None) 0 (None, 0) 0
                            (0, Some (-1)) 5)
                5%nat sample_server
                (sample_task WORK_Timed 960 None 0 (Some 11%nat)
                             (PFun (fn_other 6)))
                11%nat (sample_request PBS_BATCH_Rerun 900) (fn_other 6)
                eq_refl eq_refl eq_refl eq_refl)) as H.
    assert (Hle : time_now (sample_globals 1000)
                  - rq_time (sample_request PBS_BATCH_Rerun 900)
                  <= PBS_NET_RETRY_LIMIT) by (vm_compute; discriminate).
    destruct (H Hle (-1) s1 Hrun) as [Hfail _].
    destruct (Hfail eq_refl) as (s' & Hre & Hlog & _).
    exists s'. split; [exact Hre|].
    rewrite Hlog, calls_app, Hcalls. reflexivity.
  - assert (Hrun : exists s1,
      issue_to_svr (sample_globals 1000)
        (sample_env true true (0, None) 0 (None, 0) 0 (0, Some (-2)) 5)
        "alpha" 11%nat (fn_other 6) sample_server = Ok (0, s1) /\
      calls (log s1) = [])
      by (eexists; split; [vm_compute; reflexivity|reflexivity]).
    destruct Hrun as (s1 & Hrun & Hcalls).
    exists s1. split; [exact Hrun|]. split; [|exact Hcalls].
    pose proof (proj2 (reissue_to_svr_callback (sample_globals 1000)
                (sample_env true true (0, None) 0 (None, 0) 0
                            (0, Some (-2)) 5)
                5%nat sample_server
                (sample_task WORK_Timed 960 None 0 (Some 11%nat)
                             (PFun (fn_other 6)))
                11%nat (sample_request PBS_BATCH_Rerun 900) (fn_other 6)
                eq_refl eq_refl eq_refl eq_refl)) as H.
    assert (Hle : time_now (sample_globals 1000)
                  - rq_time (sample_request PBS_BATCH_Rerun 900)
                  <= PBS_NET_RETRY_LIMIT) by (vm_compute; discriminate).
    destruct (H Hle 0 s1 Hrun) as [_ Hother].
    apply Hother. discriminate.
Defined.

(** Nothing waits on socket 9, and no task of mom 0 stores Z. *)
Lemma orphan_reply_completes_nothing_witness :
  process_Dreply
    (sample_env true true (0, None) 0 (Some "Z", 0) 0 (0, None) 5)
    9 sample_server
  = Ok (close_conn 9 sample_server)
  /\
  process_DreplyTPP (sample_globals 1000)
    (sample_env true true (0, None) 0 (Some "Z", 0) 0 (0, None) 5)
    0 7 sample_server
  = Ok (emit (EvFree (BufRecvMsgid "Z"))
          (emit (EvDisFuncs true) sample_server)).
Proof.
  split.
  - apply (proj1 (orphan_reply_completes_nothing (sample_globals 1000)
             (sample_env true true (0, None) 0 (Some "Z", 0) 0 (0, None) 5))).
    repeat constructor.
    + eexists. split; [reflexivity|]. intros [_ Hev]. discriminate Hev.
    + eexists. split; [reflexivity|]. intros [Hty _]. discriminate Hty.
  - apply (proj2 (orphan_reply_completes_nothing (sample_globals 1000)
             (sample_env true true (0, None) 0 (Some "Z", 0) 0 (0, None) 5))
             0%nat 7 0%nat "Z" sample_server eq_refl eq_refl).
    repeat constructor.
    + eexists. split; [reflexivity|]. exists "A". split; [reflexivity|done].
    + eexists. split; [reflexivity|]. exists "B". split; [reflexivity|done].
    + eexists. split; [reflexivity|]. exists "C". split; [reflexivity|done].
Defined.

(** The reply for task 4 on socket 5, and the reply with identifier A for
    task 1 on stream 7, cannot be decoded (code 3): each task is still
    called, once. *)
Lemma decode_failure_still_dispatches_witness :
  (exists s',
      process_Dreply
        (sample_env true true (0, None) 0 (Some "A", 0) 3 (0, None) 5)
        5 sample_server = Ok s' /\
      reads (log s') = [3] /\ calls (log s') = [4%nat])
  /\
  (exists s',
      process_DreplyTPP (sample_globals 1000)
        (sample_env true true (0, None) 0 (Some "A", 0) 3 (0, None) 5)
        0 7 sample_server = Ok s' /\
      reads (log s') = [3] /\ calls (log s') = [1%nat]).
Proof.
  split.
  - destruct (proj1 (decode_failure_still_dispatches (sample_globals 1000)
                (sample_env true true (0, None) 0 (Some "A", 0) 3
                            (0, None) 5))
              5 sample_server [] 4%nat [5%nat]
              (sample_task WORK_Deferred_Reply 5 None 4 (Some 12%nat) NULL)
              12%nat (sample_request PBS_BATCH_StatusJob 900) 3)
      as (s' & evs & Hrun & Hlog & Hreads & Hcalls & _);
      [reflexivity|constructor|reflexivity|by split|reflexivity|reflexivity
      |reflexivity|discriminate|].
    exists s'. split; [exact Hrun|]. simpl in Hlog. rewrite Hlog.
    split; [exact Hreads|exact Hcalls].
  - destruct (proj2 (decode_failure_still_dispatches (sample_globals 1000)
                (sample_env true true (0, None) 0 (Some "A", 0) 3
                            (0, None) 5))
              0%nat 7 0%nat "A" sample_server [] 1%nat [2%nat; 3%nat]
              (sample_task WORK_Deferred_Reply 7 (Some "A") 1
                           (Some 11%nat) NULL) 3)
      as (s' & evs & Hrun & Hlog & Hreads & Hcalls & _);
      [reflexivity|reflexivity|reflexivity|constructor|reflexivity
      |reflexivity| |discriminate|].
    { left. exists 11%nat, (sample_request PBS_BATCH_Rerun 900).
      repeat split; reflexivity. }
    exists s'. split; [exact Hrun|]. simpl in Hlog. rewrite Hlog.
    split; [exact Hreads|exact Hcalls].
Defined.

(** On the active secondary, "alpha" names the primary
    "Alpha.example.com", and the server's own name is resolved in its
    place. *)
Lemma failover_redirects_primary_witness :
  resolved_name (sample_globals 1000)
    (sample_env true true (0, None) 0 (None, 0) 0 (0, None) 5) "alpha"
  = Some "beta.example.com".
Proof.
  refine (proj1 (failover_redirects_primary (sample_globals 1000)
            (sample_env true true (0, None) 0 (None, 0) 0 (0, None) 5)
            "alpha" "alpha" None _ eq_refl) _).
  - discriminate.
  - exists "Alpha", ".example.com".
    split; [reflexivity|]. split; [reflexivity|]. split; [reflexivity|].
    right. by eexists.
Defined.

(** A deferred command with identifier D for mom 0, and a rerun request
    sent over TPP with identifier m, both become task 6: off the event
    list, with its identifier. *)
Lemma stream_task_leaves_event_list_witness :
  (exists s' t,
      add_mom_deferred_list
        (sample_env true true (0, Some "m") 0 (None, 0) 0 (0, None) 5)
        7 0 (fn_other 8) (Some "D") None NULL sample_server
      = Ok (Some 6%nat, s') /\
      (6%nat ∉ task_list_event s') /\
      tasks s' !! 6%nat = Some t /\
      wt_event2 t = Some "D" /\
      list_of (msr_deferred_cmds s') 0 = [1%nat; 2%nat; 3%nat; 6%nat])
  /\
  (exists s' t,
      issue_Drequest
        (sample_env true true (0, Some "m") 0 (None, 0) 0 (0, None) 5)
        5 11%nat (fn_other 9) true PROT_TPP sample_server
      = Ok (0, Some (Some 6%nat), s') /\
      (6%nat ∉ task_list_event s') /\
      tasks s' !! 6%nat = Some t /\
      wt_event2 t = Some "m" /\
      wt_aux2 t = PROT_TPP).
Proof.
  split.
  - refine (proj1 (stream_task_leaves_event_list
              (sample_env true true (0, Some "m") 0 (None, 0) 0 (0, None) 5))
              7 0%nat (fn_other 8) (Some "D") None NULL sample_server _).
    reflexivity.
  - refine (proj2 (stream_task_leaves_event_list
              (sample_env true true (0, Some "m") 0 (None, 0) 0 (0, None) 5))
              5 11%nat (fn_other 9) sample_server
              (sample_request PBS_BATCH_Rerun 900) (Some "m") _ _ _ _).
    + discriminate.
    + reflexivity.
    + reflexivity.
    + reflexivity.
Defined.

(** The flush fails with the internal code 7 and [pbs_errno] stays 0:
    [relay_to_mom2] answers PBSE_SYSTEM. *)
Lemma relay_to_mom2_internal_error_witness :
  exists out s1,
    relay_to_mom2 (sample_globals 1000)
      (sample_env true true (0, Some "m") 7 (None, 0) 0 (0, None) 5)
      0 100 15002 11%nat (fn_other 9) true sample_server
    = Ok (15010, out, s1).
Proof.
  assert (Hrun : exists pwt s1,
    issue_Drequest
      (sample_env true true (0, Some "m") 7 (None, 0) 0 (0, None) 5)
      5 11%nat (fn_other 9) true PROT_TPP
      (set_errno 0
         (with_requests
            <[11%nat := set_rq_orgconn 0 (sample_request PBS_BATCH_Rerun 900)]>
            (emit (EvSvrConnect 100 15002) sample_server)))
    = Ok (7, pwt, s1) /\ pbs_errno s1 = 0)
    by (eexists _, _; split; [vm_compute; reflexivity|reflexivity]).
  destruct Hrun as (pwt & s1 & Hrun & Herr).
  exists (Some pwt), s1.
  refine (relay_to_mom2_internal_error (sample_globals 1000)
            (sample_env true true (0, Some "m") 7 (None, 0) 0 (0, None) 5)
            0%nat 100 15002 11%nat (fn_other 9) true sample_server 0%nat
            (sample_request PBS_BATCH_Rerun 900) _ 7 pwt s1
            eq_refl _ eq_refl eq_refl Hrun _ Herr).
  - vm_compute. discriminate.
  - discriminate.
Defined.

(** * The further properties on the example data *)

(** The lists of the example server hold allocated tasks only. *)
Lemma sample_server_lists_allocated : lists_allocated sample_server.
Proof.
  split; [|split].
  - intros q Hq. apply list_elem_of_In in Hq. simpl in Hq.
    destruct Hq as [<-|[<-|[]]]; by eexists.
  - intros m q. unfold list_of. simpl.
    destruct (decide (m = 0%nat)) as [->|Hm].
    + rewrite lookup_singleton_eq. simpl. intros Hq.
      apply list_elem_of_In in Hq. simpl in Hq.
      destruct Hq as [<-|[<-|[<-|[]]]]; by eexists.
    + rewrite lookup_singleton_ne by done. simpl.
      intros Hq. by apply elem_of_nil in Hq.
  - intros j q. unfold list_of. simpl. rewrite lookup_empty. simpl.
    intros Hq. by apply elem_of_nil in Hq.
Qed.

(** The commands of mom 0 store the ids A, B and C, none of them D. *)
Lemma sample_server_other_ids :
  all_tasks (tasks sample_server) (stores_other_id "D")
    (list_of (msr_deferred_cmds sample_server) 0).
Proof.
  repeat constructor.
  - eexists. split; [reflexivity|]. exists "A". split; [reflexivity|done].
  - eexists. split; [reflexivity|]. exists "B". split; [reflexivity|done].
  - eexists. split; [reflexivity|]. exists "C". split; [reflexivity|done].
Qed.

(** No task of the event list of the example server waits on socket 6. *)
Lemma sample_server_socket_6_free :
  all_tasks (tasks sample_server) (fun t => ~ awaits_socket 6 t)
    (task_list_event sample_server).
Proof.
  repeat constructor.
  - eexists. split; [reflexivity|]. intros [_ H]. discriminate H.
  - eexists. split; [reflexivity|]. intros [H _]. discriminate H.
Qed.


(** Request 11 on connection 5 when the flush fails with code 3: the code
    comes back and the store of tasks is as before. *)
Lemma issue_Drequest_accounts_for_task_witness :
  exists rc pp s',
    issue_Drequest (sample_env true true (0, None) 3 (None, 0) 0 (0, None) 5)
      5 11%nat (fn_other 9) true 0 sample_server = Ok (rc, pp, s') /\
    (rc <> 0 -> tasks s' = tasks sample_server /\
                (pp = None \/ pp = Some None)).
Proof.
  destruct (issue_Drequest_accounts_for_task (K:=sample_consts)
              (sample_env true true (0, None) 3 (None, 0) 0 (0, None) 5)
              5 11%nat (fn_other 9) true 0 sample_server
              (sample_request PBS_BATCH_Rerun 900) eq_refl
              ltac:(intros n; discriminate))
    as (rc & pp & s' & Hrun & _ & Hfail & _).
  exists rc, pp, s'. split; [exact Hrun|exact Hfail].
Defined.

(** A request of a kind the switch does not list, on connection 5. *)
Lemma issue_Drequest_unlisted_deletes_twice_witness :
  issue_Drequest (sample_env true true (0, None) 0 (None, 0) 0 (0, None) 5)
    5 13%nat (fn_other 9) false 0
    (with_requests <[13%nat := sample_request (PBS_BATCH_unlisted 99) 900]>
       sample_server)
  = Undefined.
Proof.
  apply (issue_Drequest_unlisted_deletes_twice (K:=sample_consts)
           (sample_env true true (0, None) 0 (None, 0) 0 (0, None) 5)
           5 13%nat (fn_other 9) false 0 _
           (sample_request (PBS_BATCH_unlisted 99) 900) 99).
  - by vm_compute.
  - reflexivity.
  - reflexivity.
  - reflexivity.
Defined.

(** The reply on socket 5 when the read fails with code 9: task 4 is
    called, and the connection is closed in between. *)
Lemma process_Dreply_timeouts_and_close_witness :
  exists s' call,
    process_Dreply (sample_env true true (0, None) 0 (None, 0) 9 (0, None) 5)
      5 sample_server = Ok s' /\
    log s'
    = [EvTcpTimeoutLong true; EvReplyRead 5 9; EvCloseConn 5;
       EvTcpTimeoutLong false; call] /\
    calls [call] = [4%nat].
Proof.
  destruct (process_Dreply_timeouts_and_close (K:=sample_consts)
              (sample_env true true (0, None) 0 (None, 0) 9 (0, None) 5)
              5 sample_server [] 4%nat [5%nat]
              (sample_task WORK_Deferred_Reply 5 None 4 (Some 12%nat) NULL)
              12%nat (sample_request PBS_BATCH_StatusJob 900)
              eq_refl ltac:(constructor) eq_refl
              ltac:(split; reflexivity) eq_refl eq_refl)
    as (s' & call & Hrun & Hlog & Hcall & _).
  exists s', call. split; [exact Hrun|]. split; [exact Hlog|exact Hcall].
Defined.

(** Request 11 sent on socket 6 and answered there. *)
Lemma socket_round_trip_witness :
  exists pp s1 s2,
    issue_Drequest (sample_env true true (0, None) 0 (None, 0) 0 (0, None) 5)
      6 11%nat (fn_other 9) false 0 sample_server = Ok (0, pp, s1) /\
    process_Dreply (sample_env true true (0, None) 0 (None, 0) 0 (0, None) 5)
      6 s1 = Ok s2 /\
    tasks s2 = tasks sample_server /\
    task_list_event s2 = task_list_event sample_server.
Proof.
  destruct (socket_round_trip (K:=sample_consts)
              (sample_env true true (0, None) 0 (None, 0) 0 (0, None) 5)
              6 11%nat (fn_other 9) false 0 sample_server
              (sample_request PBS_BATCH_Rerun 900) None
              ltac:(by vm_compute) eq_refl eq_refl eq_refl
              ltac:(by vm_compute) sample_server_socket_6_free)
    as (pp & s1 & s2 & t & Hrun & Hrun2 & _ & _ & _ & Hts & Hel).
  exists pp, s1, s2. repeat (split; [assumption|]). assumption.
Defined.

(** Request 11 relayed to mom 0 for job 3, with the id D. *)
Lemma relay_to_mom2_links_task_witness :
  exists s',
    relay_to_mom2 (sample_globals 1000)
      (sample_env true true (0, Some "D") 0 (None, 0) 0 (0, None) 5)
      3 100 15002 11%nat (fn_other 9) false sample_server
    = Ok (0, None, s') /\
    list_of (msr_deferred_cmds s') 0 = [1%nat; 2%nat; 3%nat; 6%nat] /\
    list_of (ji_svrtask s') 3 = [6%nat].
Proof.
  destruct (relay_to_mom2_links_task (K:=sample_consts) (sample_globals 1000)
              (sample_env true true (0, Some "D") 0 (None, 0) 0 (0, None) 5)
              3%nat 100 15002 0%nat 11%nat (fn_other 9) false sample_server
              (sample_request PBS_BATCH_Rerun 900) (Some "D")
              eq_refl ltac:(by vm_compute) ltac:(by vm_compute) eq_refl
              eq_refl eq_refl ltac:(by vm_compute))
    as (s' & t & r' & Hrun & _ & _ & _ & _ & _ & _ & Hd & Hj & _).
  exists s'. split; [exact Hrun|]. split; [exact Hd|exact Hj].
Defined.

(** Request 11 relayed with [release_req]: the reply with the id D calls
    nothing. *)
Lemma relay_release_req_unreachable_witness :
  exists s' s2,
    relay_to_mom2 (sample_globals 1000)
      (sample_env true true (0, Some "D") 0 (Some "D", 0) 0 (0, None) 5)
      3 100 15002 11%nat fn_release_req false sample_server
    = Ok (0, None, s') /\
    process_DreplyTPP (sample_globals 1000)
      (sample_env true true (0, Some "D") 0 (Some "D", 0) 0 (0, None) 5)
      0 7 s' = Ok s2 /\
    calls (log s2) = calls (log s') /\
    tasks s2 = tasks s'.
Proof.
  destruct (relay_release_req_unreachable (K:=sample_consts) (sample_globals 1000)
              (sample_env true true (0, Some "D") 0 (Some "D", 0) 0
                 (0, None) 5)
              3%nat 100 15002 0%nat 11%nat false sample_server
              (sample_request PBS_BATCH_Rerun 900) "D" 0%nat 7
              eq_refl ltac:(by vm_compute) ltac:(by vm_compute) eq_refl
              eq_refl eq_refl sample_server_lists_allocated eq_refl eq_refl
              sample_server_other_ids)
    as (s' & s2 & t & Hrun & _ & _ & _ & _ & _ & _ & Hrun2 & Hc & Hts & _).
  exists s', s2. repeat (split; [assumption|]). assumption.
Defined.

(** Request 11 relayed to mom 0 and answered under the id D. *)
Lemma relay_reply_round_trip_witness :
  exists s1 s2,
    relay_to_mom2 (sample_globals 1000)
      (sample_env true true (0, Some "D") 0 (Some "D", 0) 0 (0, None) 5)
      3 100 15002 11%nat (fn_other 9) false sample_server
    = Ok (0, None, s1) /\
    process_DreplyTPP (sample_globals 1000)
      (sample_env true true (0, Some "D") 0 (Some "D", 0) 0 (0, None) 5)
      0 7 s1 = Ok s2 /\
    calls (log s2) = [6%nat] /\
    tasks s2 = tasks sample_server.
Proof.
  destruct (relay_reply_round_trip (K:=sample_consts) (sample_globals 1000)
              (sample_env true true (0, Some "D") 0 (Some "D", 0) 0
                 (0, None) 5)
              3%nat 100 15002 0%nat 11%nat (fn_other 9) false sample_server
              (sample_request PBS_BATCH_Rerun 900) "D" 0%nat 7
              eq_refl ltac:(by vm_compute) ltac:(by vm_compute) eq_refl
              eq_refl eq_refl ltac:(by vm_compute)
              sample_server_lists_allocated eq_refl eq_refl
              sample_server_other_ids)
    as (s1 & s2 & t' & r2 & Hrun & Hrun2 & Hlog & _ & _ & _ & _ & _ & _ & _
        & Hts & _).
  exists s1, s2. split; [exact Hrun|]. split; [exact Hrun2|].
  split; [by rewrite Hlog|exact Hts].
Defined.

(** A command of mom 0 registered under the id D and answered. *)
Lemma deferred_cmd_round_trip_witness :
  exists s1 s2,
    add_mom_deferred_list
      (sample_env true true (0, None) 0 (Some "D", 0) 0 (0, None) 5)
      7 0 (fn_other 9) (Some "D") None NULL sample_server
    = Ok (Some 6%nat, s1) /\
    process_DreplyTPP (sample_globals 1000)
      (sample_env true true (0, None) 0 (Some "D", 0) 0 (0, None) 5)
      0 7 s1 = Ok s2 /\
    calls (log s2) = [6%nat] /\
    tasks s2 = tasks sample_server.
Proof.
  destruct (deferred_cmd_round_trip (K:=sample_consts) (sample_globals 1000)
              (sample_env true true (0, None) 0 (Some "D", 0) 0 (0, None) 5)
              7 0%nat (fn_other 9) "D" None NULL sample_server 0%nat 7
              eq_refl eq_refl sample_server_lists_allocated eq_refl eq_refl
              sample_server_other_ids)
    as (s1 & s2 & t' & Hrun & Hrun2 & Hlog & _ & _ & _ & _ & _ & _ & Hts & _).
  exists s1, s2. split; [exact Hrun|]. split; [exact Hrun2|].
  split; [by rewrite Hlog|exact Hts].
Defined.

(** The reply with the id C arrives twice: the second one calls
    nothing. *)
Lemma reply_delivered_at_most_once_witness :
  exists s1 s2,
    process_DreplyTPP (sample_globals 1000)
      (sample_env true true (0, None) 0 (Some "C", 0) 0 (0, None) 5)
      0 7 sample_server = Ok s1 /\
    process_DreplyTPP (sample_globals 1000)
      (sample_env true true (0, None) 0 (Some "C", 0) 0 (0, None) 5)
      0 7 s1 = Ok s2 /\
    calls (log s2) = calls (log s1).
Proof.
  destruct (reply_delivered_at_most_once (K:=sample_consts) (sample_globals 1000)
              (sample_env true true (0, None) 0 (Some "C", 0) 0 (0, None) 5)
              0%nat 7 0%nat "C" sample_server [1%nat; 2%nat] 3%nat []
              (sample_task WORK_Deferred_cmd 7 (Some "C") 3 None NULL))
    as (s1 & s2 & Hrun & _ & Hrun2 & Hc & _).
  - reflexivity.
  - reflexivity.
  - reflexivity.
  - repeat constructor.
    + eexists. split; [reflexivity|]. exists "A". split; [reflexivity|done].
    + eexists. split; [reflexivity|]. exists "B". split; [reflexivity|done].
  - constructor.
  - reflexivity.
  - reflexivity.
  - intros a Ha. discriminate Ha.
  - exists s1, s2. split; [exact Hrun|]. split; [exact Hrun2|exact Hc].
Defined.

(** Request 11 issued to the server gamma, reached on socket 6, and
    answered there. *)
Lemma issue_to_svr_round_trip_witness :
  exists s1 s2 r2,
    issue_to_svr (sample_globals 1000)
      (sample_env true true (0, None) 0 (None, 0) 0 (77, None) 6)
      "gamma" 11%nat (fn_other 9) sample_server = Ok (0, s1) /\
    process_Dreply (sample_env true true (0, None) 0 (None, 0) 0 (77, None) 6)
      6 s1 = Ok s2 /\
    requests s2 !! 11%nat = Some r2 /\
    rq_host r2 = "gamma" /\ rq_fromsvr r2 = 1 /\ rq_perm r2 = 44 /\
    tasks s2 = tasks sample_server.
Proof.
  destruct (issue_to_svr_round_trip (K:=sample_consts) (sample_globals 1000)
              (sample_env true true (0, None) 0 (None, 0) 0 (77, None) 6)
              "gamma" 11%nat (fn_other 9) sample_server
              (sample_request PBS_BATCH_Rerun 900) None
              eq_refl ltac:(by vm_compute) ltac:(by vm_compute)
              ltac:(by vm_compute) eq_refl eq_refl
              sample_server_socket_6_free)
    as (s1 & s2 & t & r2 & Hrun & Hrun2 & _ & _ & Hr2 & _ & Hh & Hf & Hp & _
        & Hts & _).
  exists s1, s2, r2. repeat (split; [assumption|]). assumption.
Defined.

(** The resolver fails for gamma with PBS_NET_RC_RETRY at time 1000; at
    time 20000 the retry gives up and calls the reply function. *)
Lemma retry_runs_again_witness :
  exists s1 s2,
    issue_to_svr (sample_globals 1000)
      (sample_env true true (0, None) 0 (None, 0) 0 (0, Some (-2)) 5)
      "gamma" 11%nat (fn_other 9) sample_server = Ok (0, s1) /\
    reissue_to_svr (sample_globals 20000)
      (sample_env true true (0, None) 0 (None, 0) 0 (0, Some (-2)) 5)
      6%nat s1 = Ok s2 /\
    calls (log s2) = [6%nat].
Proof.
  destruct (retry_runs_again (K:=sample_consts) (sample_globals 1000)
              (sample_env true true (0, None) 0 (None, 0) 0 (0, Some (-2)) 5)
              "gamma" 11%nat (fn_other 9) sample_server
              (sample_request PBS_BATCH_Rerun 900)
              eq_refl (or_introl (conj eq_refl eq_refl)) eq_refl)
    as (s1 & Hrun & Hnext).
  destruct (Hnext (sample_globals 20000)
              (sample_env true true (0, None) 0 (None, 0) 0 (0, Some (-2)) 5))
    as [Hlate _].
  destruct Hlate as (s2 & t' & Hrun2 & Hlog & _); [reflexivity|].
  exists s1, s2. split; [exact Hrun|]. split; [exact Hrun2|].
  rewrite Hlog, calls_app.
  replace (calls (log s1)) with (@nil addr); [reflexivity|].
  vm_compute in Hrun. by injection Hrun as <-.
Defined.

(** The error codes of the example are not zero, and the example file
    system leaves an errno when it fails. *)
Lemma sample_errors_nonzero : errors_nonzero (C := sample_sys).
Proof. repeat split; discriminate. Qed.

Lemma sample_fs_errno_set perm : errno_set (sample_fs perm).
Proof.
  intros p e. split; [discriminate|]. simpl.
  repeat case_match; intros [= <-]; discriminate.
Qed.

(** A directory of root with mode 0755, tested as a directory with group
    and other write disallowed, is accepted. *)
Lemma teststat_accepts_iff_witness :
  teststat (C := sample_sys) (sample_dir 493) 1 0 18 = 0 /\
  Z.land (Z.land (Z.lor (Z.lor 448 56) 7) 18) (16384 + 493) = 0.
Proof.
  split; [reflexivity|].
  apply (proj1 (teststat_accepts_iff (C := sample_sys) (sample_dir 493)
                  1 0 18 sample_errors_nonzero) eq_refl).
Defined.

(** A directory with mode 0755 where a file is expected, other write
    allowed and [sticky] set: [tempstat] returns 0 or EPERM, and it is
    0. *)
Lemma tempstat_other_write_allowed_witness :
  (tempstat (C := sample_sys) (sample_dir 493) 0 1 0 = 0 \/
   tempstat (C := sample_sys) (sample_dir 493) 0 1 0 = 1) /\
  tempstat (C := sample_sys) (sample_dir 493) 0 1 0 = 0.
Proof.
  split; [|reflexivity].
  apply (tempstat_other_write_allowed (C := sample_sys) (sample_dir 493)
           0 1 0).
  - by vm_compute.
  - by vm_compute.
Defined.

(** The sticky directory with mode 1777, other write allowed. *)
Lemma tempstat_no_stricter_witness :
  tempstat (C := sample_sys) (sample_dir 1023) 1 1 0 = 0.
Proof.
  apply (tempstat_no_stricter (C := sample_sys) (sample_dir 1023) 1 1 0
           sample_errors_nonzero).
  reflexivity.
Defined.

(** /var/spool/pbs below directories of root with mode 0755: the path is
    accepted, and /var is among the directories tested. *)
Lemma chk_file_sec_accepts_iff_witness :
  exists real,
    realpath (sample_fs 493) "/var/spool/pbs" = Sys_ok real /\
    accepted (C := sample_sys) (sample_fs 493)
      (fun sb => teststat (C := sample_sys) sb 1 0 18) "/var".
Proof.
  destruct (proj1 (chk_file_sec_accepts_iff (C := sample_sys)
                     (sample_fs 493) "var/spool/pbs" 1 0 18 1
                     ltac:(by vm_compute) (sample_fs_errno_set 493))
              eq_refl)
    as (real & Hreal & _ & Hall & _).
  exists real. split; [exact Hreal|].
  apply Hall. injection Hreal as <-.
  split; [discriminate|]. by exists "spool/pbs".
Defined.

(** The same path, with [sticky] 0, is not accepted by [tmp_file_sec]. *)
Lemma tmp_file_sec_needs_sticky_witness :
  tmp_file_sec (C := sample_sys) (sample_fs 493) "/var/spool/pbs" 1 0 18 1
  <> Returned 0 [].
Proof.
  apply (tmp_file_sec_needs_sticky (C := sample_sys) (sample_fs 493)
           "var/spool/pbs" 1 18 1 "/var/spool/pbs" "/var").
  - by vm_compute.
  - apply sample_fs_errno_set.
  - by vm_compute.
  - by vm_compute.
  - reflexivity.
  - split; [discriminate|]. by exists "spool/pbs".
Defined.

(** Without [fullpath], a /var open to everybody goes unnoticed. *)
Lemma file_sec_skips_directories_witness :
  chk_file_sec (C := sample_sys) (sample_fs 511) "/var/spool/pbs" 1 0 18 0
  = chk_file_sec (C := sample_sys) (sample_fs 493) "/var/spool/pbs" 1 0 18 0
  /\
  tmp_file_sec (C := sample_sys) (sample_fs 511) "/var/spool/pbs" 1 0 18 0
  = tmp_file_sec (C := sample_sys) (sample_fs 493) "/var/spool/pbs" 1 0 18 0.
Proof.
  apply (file_sec_skips_directories (C := sample_sys) (sample_fs 493)
           (sample_fs 511) "/var/spool/pbs" 1 0 18 0).
  - by left.
  - reflexivity.
  - intros real [= <-]. reflexivity.
Defined.

(** Reservation R1 confirmed on connection 3, everything going well: the
    value returned is the error number of the connection, 7. *)
Lemma confirmresv_reads_reply_iff_sent_witness :
  (ConfirmResv.__pbs_confirmresv (K := sample_ifl) (sample_ifl_env 0 7) 3
     (Some "R1") (Some "node1") 100 None
     {| ConfirmResv.pbs_errno := 0; ConfirmResv.calls_made := [] |}).1 = 7.
Proof.
  destruct (confirmresv_reads_reply_iff_sent (K := sample_ifl)
              (sample_ifl_env 0 7) 3 "R1" "node1" 100 None 0)
    as (_ & Hsent & _).
  - discriminate.
  - discriminate.
  - reflexivity.
  - reflexivity.
  - apply Hsent; [by repeat split|reflexivity].
Defined.

(** A command line whose program has a blank in its path. *)
Lemma get_script_name_regular_witness :
  get_script_name (C := sample_sys) sample_stat true
    (Some "/opt/my app/run --fast") = Name "/opt/my app/run" /\
  regular_file (C := sample_sys) sample_stat "/opt/my app/run".
Proof.
  split; [reflexivity|].
  apply (get_script_name_regular (C := sample_sys) sample_stat true
           "/opt/my app/run --fast" "/opt/my app/run").
  - by vm_compute.
  - reflexivity.
Defined.


(** The program with a blank in its path, in quotes. *)
Lemma get_script_name_unquotes_witness :
  get_script_name (C := sample_sys) sample_stat true
    (Some (String dquote ("/opt/my app/run" +:+ String dquote EmptyString)))
  = get_script_name (C := sample_sys) sample_stat true
      (Some "/opt/my app/run").
Proof.
  apply (get_script_name_unquotes (C := sample_sys) sample_stat true
           "/opt/my app/run").
  intros input' H. vm_compute in H. discriminate H.
Defined.
